(** * nevergrad.optimization.optimizerlib: ask/tell state machines

    A shallow embedding of the optimizers of [optimizerlib.py] and the
    properties of their ask/tell bookkeeping.

    Conventions of the embedding:
    - a Python [float] is an IEEE binary64 number, taken from the
      specification of floats in the core library ([spec_float] with a
      53-bit mantissa), so arithmetic rounds as CPython does;
    - a Python [int] is a [Z]; [//] and [%] are [Z.div] and [Z.modulo],
      which agree with Python for the positive divisors used here;
    - a point ([tuple] of floats, [np.ndarray]) is a [list float];
    - a [dict] is a [gmap]; a [defaultdict(list)] reads the empty list
      at a missing key;
    - a method is a function in the monad [py S] of state [S] and
      exceptions: what was assigned before a [raise] stays assigned;
    - [numpy], [scipy] and [cma] calls with no counterpart here, the
      sibling modules and the random draws are parameters. *)

From Stdlib Require Import ZArith SpecFloat.
From stdpp Require Import base option list gmap strings sorting.

Local Open Scope Z_scope.

(** ** Python floats *)

Module Float.

Definition prec : Z := 53.
Definition emax : Z := 1024.

Definition float : Type := spec_float.

(** [float(n)] for an [int]: rounding to nearest, ties to even. *)
Definition of_Z (n : Z) : float := binary_normalize prec emax n 0 false.

Definition add : float → float → float := SFadd prec emax.
Definition sub : float → float → float := SFsub prec emax.
Definition mul : float → float → float := SFmul prec emax.
Definition div : float → float → float := SFdiv prec emax.
Definition sqrt : float → float := SFsqrt prec emax.
Definition ltb : float → float → bool := SFltb.
Definition leb : float → float → bool := SFleb.
Definition eqb : float → float → bool := SFeqb.
Definition gtb (a b : float) : bool := ltb b a.

(** A decimal literal [num/den] (with [den] a power of ten): the
    binary64 number nearest to it. *)
Definition lit (num den : Z) : float := div (of_Z num) (of_Z den).

Definition zero : float := S754_zero false.
Definition one : float := of_Z 1.
Definition inf : float := S754_infinity false.
Definition nan : float := S754_nan.

Definition isnan (x : float) : bool :=
  match x with S754_nan => true | _ => false end.

(** What [==] and [hash] see of a float that is not nan: the sign of
    a zero is dropped, [0.0 == -0.0]. *)
Definition key (x : float) : float :=
  match x with S754_zero _ => S754_zero false | _ => x end.

(** [int(x)]: truncation toward zero; [None] where Python raises
    ([ValueError] on nan, [OverflowError] on an infinity). *)
Definition to_Z (x : float) : option Z :=
  match x with
  | S754_zero _ => Some 0
  | S754_finite s m e => Some (cond_Zopp s (Z.shiftl (Z.pos m) e))
  | S754_infinity _ | S754_nan => None
  end.

(** [max(a, b)] and [min(a, b)] of the builtins: the first argument
    is kept unless the second compares strictly beyond it. *)
Definition max (a b : float) : float := if gtb b a then b else a.
Definition min (a b : float) : float := if ltb b a then b else a.

#[global] Instance float_eq_dec : EqDecision float.
Proof. unfold float. solve_decision. Defined.

Definition encode_float (x : float) : bool + bool + unit + bool * positive * Z :=
  match x with
  | S754_zero s => inl (inl (inl s))
  | S754_infinity s => inl (inl (inr s))
  | S754_nan => inl (inr tt)
  | S754_finite s m e => inr (s, m, e)
  end.

Definition decode_float (c : bool + bool + unit + bool * positive * Z) : float :=
  match c with
  | inl (inl (inl s)) => S754_zero s
  | inl (inl (inr s)) => S754_infinity s
  | inl (inr _) => S754_nan
  | inr (s, m, e) => S754_finite s m e
  end.

#[global] Instance float_countable : Countable float.
Proof.
  apply (inj_countable' encode_float decode_float).
  intros []; reflexivity.
Defined.

End Float.

Abbreviation float := Float.float.

(** A point of the search space. *)
Definition Point : Type := list float.

(** ** Python runtime: exceptions, the method monad, sequences *)

Module Py.

Inductive exn : Type :=
| AssertionError
| IndexError
| ValueError
| ZeroDivisionError
| OverflowError
| KeyError
| AttributeError
| TypeError
| RuntimeError (msg : string).

Inductive outcome (A : Type) : Type :=
| Returns (a : A)
| Raises (e : exn).
Arguments Returns {A} a.
Arguments Raises {A} e.

(** A method on an object of state [S]: the state after the call and
    what the call produced. *)
Definition py (S A : Type) : Type := S → S * outcome A.

Definition ret {S A} (a : A) : py S A := λ s, (s, Returns a).
Definition raise {S A} (e : exn) : py S A := λ s, (s, Raises e).
Definition bind {S A B} (m : py S A) (k : A → py S B) : py S B :=
  λ s, match m s with
       | (s', Returns a) => k a s'
       | (s', Raises e) => (s', Raises e)
       end.
Definition get {S} : py S S := λ s, (s, Returns s).
Definition gets {S A} (f : S → A) : py S A := λ s, (s, Returns (f s)).
Definition modify {S} (f : S → S) : py S unit := λ s, (f s, Returns tt).

(** [assert b]. *)
Definition assert {S} (b : bool) : py S unit :=
  if b then ret tt else raise AssertionError.

(** A partial operation of the runtime: its value, or the exception. *)
Definition lift {S A} (r : exn + A) : py S A :=
  match r with inr a => ret a | inl e => raise e end.

Definition state_of {S A} (r : S * outcome A) : S := fst r.
Definition result_of {S A} (r : S * outcome A) : outcome A := snd r.

(** [l[i]] with Python's negative indices. *)
Definition index {A} (l : list A) (i : Z) : exn + A :=
  let n := Z.of_nat (length l) in
  let j := if i <? 0 then i + n else i in
  if (0 <=? j) && (j <? n)
  then match l !! Z.to_nat j with Some a => inr a | None => inl IndexError end
  else inl IndexError.

(** [len(l)]. *)
Definition len {A} (l : list A) : Z := Z.of_nat (length l).

(** [range(a, b)]. *)
Definition range (a b : Z) : list Z := (λ i : nat, a + Z.of_nat i) <$> seq 0 (Z.to_nat (b - a)).

(** [[l[i] for i in idxs]]. *)
Fixpoint pick {A} (l : list A) (idxs : list Z) : exn + list A :=
  match idxs with
  | [] => inr []
  | i :: rest =>
      match index l i with
      | inl e => inl e
      | inr a => match pick l rest with inl e => inl e | inr t => inr (a :: t) end
      end
  end.

(** [l.index(x)]: position of the first element [y] with [y == x]. *)
Fixpoint list_index {A} (eqb : A → A → bool) (l : list A) (x : A) : exn + nat :=
  match l with
  | [] => inl ValueError
  | y :: t => if eqb y x then inr 0%nat
              else match list_index eqb t x with inl e => inl e | inr i => inr (S i) end
  end.

(** [sum(l)] over floats: a left fold from the integer [0]. *)
Definition fsum (l : list float) : float := foldl Float.add (Float.of_Z 0) l.

(** [a / b] on two Python floats: a zero divisor raises. *)
Definition truediv (a b : float) : exn + float :=
  if Float.eqb b Float.zero then inl ZeroDivisionError else inr (Float.div a b).

(** [int(x)]. *)
Definition int (x : float) : exn + Z :=
  match Float.to_Z x with
  | Some n => inr n
  | None => inl (if Float.isnan x then ValueError else OverflowError)
  end.

(** [del l[i]] and [l[i] = v] at a position counted from the left. *)
Definition del_item {A} (l : list A) (i : nat) : exn + list A :=
  if bool_decide (i < length l)%nat then inr (delete i l) else inl IndexError.
Definition set_item {A} (l : list A) (i : Z) (v : A) : exn + list A :=
  let n := Z.of_nat (length l) in
  let j := if i <? 0 then i + n else i in
  if (0 <=? j) && (j <? n) then inr (<[Z.to_nat j := v]> l) else inl IndexError.

(** [sorted(l)]: a stable sort that asks only for [<]; every stable
    sort returns the same list when [<] is a strict weak order, which
    it is on tuples of floats without nan. With a nan among the items
    the list the language returns depends on its sorting algorithm
    and is not this one: the properties below sort lists without
    nan. *)
Fixpoint insert {A} (lt : A → A → bool) (a : A) (l : list A) : list A :=
  match l with
  | [] => [a]
  | b :: t => if lt a b then a :: b :: t else b :: insert lt a t
  end.
Definition sorted {A} (lt : A → A → bool) (l : list A) : list A :=
  foldl (λ acc a, insert lt a acc) [] l.

(** [<] and [==] on tuples of floats: the first pair of unequal items
    decides, then the lengths. *)
Fixpoint tuple_ltb (a b : list float) : bool :=
  match a, b with
  | [], [] => false
  | [], _ :: _ => true
  | _ :: _, [] => false
  | x :: a', y :: b' => if Float.eqb x y then tuple_ltb a' b' else Float.ltb x y
  end.
Fixpoint tuple_eqb (a b : list float) : bool :=
  match a, b with
  | [], [] => true
  | x :: a', y :: b' => Float.eqb x y && tuple_eqb a' b'
  | _, _ => false
  end.

(** A list display [[e1, e2, ...]] of expressions that may raise:
    they are evaluated from the left, and the first that raises ends
    the display. *)
Fixpoint display {A} (l : list (exn + A)) : exn + list A :=
  match l with
  | [] => inr []
  | e :: l =>
      match e with
      | inl err => inl err
      | inr a => match display l with inl err => inl err | inr rest => inr (a :: rest) end
      end
  end.

(** The key a dictionary files a tuple of floats under. A dictionary
    finds a key by [hash] and [==]: [(0.0,)] and [(-0.0,)] are one
    key. A tuple that holds a nan is equal to no tuple built anew;
    the language finds it again through the very object that was
    filed, and objects have no identity here: such a tuple has no
    key, and the properties below look up tuples without nan only.
    When one of two tuples holds no nan, [tuple_eqb] is the [==] of
    the language whatever the objects are. *)
Definition key (x : list float) : option (list float) :=
  if existsb Float.isnan x then None else Some (Float.key <$> x).

Definition nan_free (x : list float) : Prop := existsb Float.isnan x = false.

End Py.

Import Py.

#[global] Instance py_mret {S} : MRet (py S) := λ A, Py.ret.
#[global] Instance py_mbind {S} : MBind (py S) := λ A B k m, Py.bind m k.

(** Partial operations compose likewise: the first exception wins. *)
#[global] Instance exn_mret : MRet (sum exn) := λ A, inr.
#[global] Instance exn_mbind : MBind (sum exn) :=
  λ A B k m, match m with inl e => inl e | inr a => k a end.

(** [a == b] on strings. *)
Definition str_eq (a b : string) : bool := bool_decide (a = b).

(** ** Arrays of floats, as [numpy] broadcasts over them *)

Module Vec.

(** [np.zeros(n)]. *)
Definition zeros (n : Z) : Point := replicate (Z.to_nat n) Float.zero.

(** [u + v], [u - v] for two arrays of one length. *)
Definition add (u v : Point) : Point := zip_with Float.add u v.
Definition sub (u v : Point) : Point := zip_with Float.sub u v.

(** [a * v] and [v / a] for a scalar [a]. *)
Definition scale (a : float) (v : Point) : Point := Float.mul a <$> v.
Definition div (v : Point) (a : float) : Point := (λ x, Float.div x a) <$> v.

(** [sum(l)] over arrays: [0 + l[0] + l[1] + ...]. *)
Definition sum (l : list Point) : Point :=
  match l with
  | [] => []
  | p :: rest => foldl add (Float.add (Float.of_Z 0) <$> p) rest
  end.

(** A matrix, by rows. *)
Definition Matrix : Type := list Point.

(** [np.identity(n)]. *)
Definition identity (n : Z) : Matrix :=
  (λ i : nat, (λ j : nat, if bool_decide (i = j) then Float.of_Z 1 else Float.zero)
                <$> seq 0 (Z.to_nat n)) <$> seq 0 (Z.to_nat n).

(** [a * m] and [m1 + m2], entry by entry. *)
Definition mscale (a : float) (m : Matrix) : Matrix := scale a <$> m.
Definition madd (m1 m2 : Matrix) : Matrix := zip_with add m1 m2.

End Vec.

(** ** The base optimizer, as the classes below read it *)

Module Base.

(** Modelled from the spec: [base.Optimizer] and its archive are not
    part of the sources. An optimizer has a dimension, an optional
    budget, a number of workers, an ask counter, the archive of told
    points and the "current bests" under three policies; each best has
    a point [x], the mean of its evaluations and an estimate of its
    value. *)
Record Best : Type := {
  x : Point;
  mean : float;
  get_estimation : string → float
}.

Record Optimizer : Type := {
  dimension : Z;
  budget : option Z;
  num_workers : Z;
  _num_ask : Z;
  archive : list (Point * Best);
  current_bests : string → Best
}.

Definition set_current_bests (cb : string → Best) (o : Optimizer) : Optimizer :=
  {| dimension := dimension o; budget := budget o; num_workers := num_workers o;
     _num_ask := _num_ask o; archive := archive o; current_bests := cb |}.

Definition set_num_ask (n : Z) (o : Optimizer) : Optimizer :=
  {| dimension := dimension o; budget := budget o; num_workers := num_workers o;
     _num_ask := n; archive := archive o; current_bests := current_bests o |}.

(** Modelled from the spec: a fresh optimizer has asked nothing and
    told nothing; its current bests sit at the origin with an infinite
    value. *)
Definition fresh_best (d : Z) : Best :=
  {| x := Vec.zeros d; mean := Float.inf; get_estimation := λ _, Float.inf |}.

Definition __init__ (dimension : Z) (budget : option Z) (num_workers : Z) : Optimizer :=
  {| dimension := dimension; budget := budget; num_workers := num_workers;
     _num_ask := 0; archive := []; current_bests := λ _, fresh_best dimension |}.

End Base.

(** ** The mutation operators of the sibling module [mutations] *)

Class Mutations : Type := {
  discrete_mutation : Point → Point;
  doerr_discrete_mutation : Point → Point;
  doubledoerr_discrete_mutation : Point → Point;
  portfolio_discrete_mutation : Point → Point;
  crossover : Point → list Point → Point;
  get_roulette : list (Point * Base.Best) → Z → list Point
}.

(** ** _OnePlusOne and ParametrizedOnePlusOne *)

Module OnePlusOne.

(** [noise_handling] is a strategy name, or a pair of a name and a
    coefficient. *)
Record Parameters : Type := {
  noise_handling : option (string + string * float);
  mutation : string;
  crossover_flag : bool
}.

Definition one_of (s : string) (l : list string) : bool := bool_decide (s ∈ l).

(** [ParametrizedOnePlusOne.__init__]. *)
Definition ParametrizedOnePlusOne (noise_handling : option (string + string * float))
    (mutation : string) (crossover : bool) : exn + Parameters :=
  let noise_ok :=
    match noise_handling with
    | None => true
    | Some (inl name) => one_of name ["random"; "optimistic"]
    | Some (inr (name, factor)) =>
        Float.gtb factor (Float.of_Z 0) && one_of name ["random"; "optimistic"]
    end in
  if negb noise_ok then inl AssertionError
  else if negb (one_of mutation ["gaussian"; "cauchy"; "discrete"; "fastga"; "doublefastga"; "portfolio"])
  then inl AssertionError
  else inr {| noise_handling := noise_handling; mutation := mutation; crossover_flag := crossover |}.

Definition default_parameters : Parameters :=
  {| noise_handling := None; mutation := "gaussian"; crossover_flag := false |}.

Record t : Type := {
  base : Base.Optimizer;
  _parameters : Parameters;
  _sigma : float
}.

Definition set_sigma (sg : float) (self : t) : t :=
  {| base := base self; _parameters := _parameters self; _sigma := sg |}.

Definition set_base (b : Base.Optimizer) (self : t) : t :=
  {| base := b; _parameters := _parameters self; _sigma := _sigma self |}.

Definition set_parameters (p : Parameters) (self : t) : t :=
  {| base := base self; _parameters := p; _sigma := _sigma self |}.

Definition __init__ (dimension : Z) (budget : option Z) (num_workers : Z) : t :=
  {| base := Base.__init__ dimension budget num_workers;
     _parameters := default_parameters;
     _sigma := Float.of_Z 1 |}.

(** What [np.random] returns during one ask: the index drawn by
    [np.random.choice], and the normal and Cauchy vectors. *)
Record Draws : Type := {
  choice : Z;
  normal : Point;
  standard_cauchy : Point
}.

(** [self._mutations[mutation]]; the [None] case is the [KeyError]. *)
Definition _mutations {mutations : Mutations} (name : string) : option (Point → Point) :=
  if str_eq name "discrete" then Some discrete_mutation
  else if str_eq name "fastga" then Some doerr_discrete_mutation
  else if str_eq name "doublefastga" then Some doubledoerr_discrete_mutation
  else if str_eq name "portfolio" then Some portfolio_discrete_mutation
  else None.

Definition pessimistic (self : t) : Base.Best := Base.current_bests (base self) "pessimistic".
Definition optimistic (self : t) : Base.Best := Base.current_bests (base self) "optimistic".

(** The noisy branch of [_internal_ask]: [Some r] when it returns. *)
Definition noisy_ask (rng : Draws) (self : t) : option (exn + Point) :=
  match noise_handling (_parameters self) with
  | None => None
  | Some nh =>
      let coef := match nh with inl _ => Float.lit 5 100 | inr (_, c) => c end in
      let strategy := match nh with inl s => s | inr (s, _) => s end in
      let limit := Float.mul coef (Float.of_Z (Py.len (Base.archive (base self)) ^ 3)) in
      if Float.leb (Float.of_Z (Base._num_ask (base self))) limit then
        if one_of strategy ["cubic"; "random"] then
          Some (match Py.index (Base.archive (base self)) (choice rng) with
                | inl e => inl e
                | inr kv => inr (fst kv)
                end)
        else if str_eq strategy "optimistic" then Some (inr (Base.x (optimistic self)))
        else None
      else None
  end.

Definition mutating {mutations : Mutations} (rng : Draws) (self : t) : exn + Point :=
  let best := Base.x (pessimistic self) in
  let num_ask := Base._num_ask (base self) in
  let mutation := mutation (_parameters self) in
  if str_eq mutation "gaussian" then
    inr (Vec.add best (Vec.scale (_sigma self) (normal rng)))
  else if str_eq mutation "cauchy" then
    inr (Vec.add best (Vec.scale (_sigma self) (standard_cauchy rng)))
  else if str_eq mutation "crossover" then
    if (num_ask mod 2 =? 0) || (Py.len (Base.archive (base self)) <? 3)
    then inr (portfolio_discrete_mutation best)
    else inr (crossover best (get_roulette (Base.archive (base self)) 2))
  else
    match _mutations mutation with
    | Some op => inr (op best)
    | None => inl KeyError
    end.

Definition _internal_ask {mutations : Mutations} (rng : Draws) : py t Point :=
  self ← get;
  if Base._num_ask (base self) =? 0 then mret (Vec.zeros (Base.dimension (base self)))
  else
    match noisy_ask rng self with
    | Some r => lift r
    | None =>
        if crossover_flag (_parameters self)
           && (Base._num_ask (base self) mod 2 =? 1)
           && (2 <? Py.len (Base.archive (base self)))
        then mret (crossover (Base.x (pessimistic self))
                     (get_roulette (Base.archive (base self)) 2))
        else lift (mutating rng self)
    end.

(** [self._sigma *= 2. if value <= ...mean else .84]. *)
Definition _internal_tell (x : Point) (value : float) : py t unit :=
  modify (λ self,
    set_sigma (Float.mul (_sigma self)
                 (if Float.leb value (Base.mean (pessimistic self))
                  then Float.of_Z 2 else Float.lit 84 100)) self).

(** A scripted tell: the base class has brought its current bests to
    [cb] when [_internal_tell] runs. *)
Definition tell_with (cb : string → Base.Best) (x : Point) (value : float) (self : t) : t :=
  fst (_internal_tell x value (set_base (Base.set_current_bests cb (base self)) self)).

Definition run_tells (script : list ((string → Base.Best) * Point * float)) (self : t) : t :=
  foldl (λ s '(cb, x, v), tell_with cb x v s) self script.

(** The factor a scripted tell applies. *)
Definition factor (step : (string → Base.Best) * Point * float) : float :=
  let '(cb, _, v) := step in
  if Float.leb v (Base.mean (cb "pessimistic")) then Float.of_Z 2 else Float.lit 84 100.

End OnePlusOne.

(** ** What [numpy] and [scipy] compute *)

(** The functions of [numpy] and [scipy] that have no counterpart in
    the float specification: [np.exp], [np.log], the power [**] of the
    C library, [np.std], [np.cov(np.array(l).T)] of a list of points,
    and [scipy.stats.norm.ppf]. *)
Class Numerics : Type := {
  np_exp : float → float;
  np_log : float → float;
  pow : float → float → float;
  np_std : list float → float;
  np_cov : list Point → Vec.Matrix;
  norm_ppf : float → float
}.

(** ** TBPSA and NaiveTBPSA *)

Module TBPSA.

Record t : Type := {
  base : Base.Optimizer;
  sigma : float;
  mu : Z;
  llambda : Z;
  current_center : Point;
  evaluated_population : list Point;
  evaluated_population_sigma : list float;
  evaluated_population_fitness : list float;
  unevaluated_population : list Point;
  unevaluated_population_sigma : list float;
  archive_fitness : list float
}.

Definition set_sigma (v : float) (self : t) : t :=
  {| base := base self; sigma := v; mu := mu self; llambda := llambda self;
     current_center := current_center self;
     evaluated_population := evaluated_population self;
     evaluated_population_sigma := evaluated_population_sigma self;
     evaluated_population_fitness := evaluated_population_fitness self;
     unevaluated_population := unevaluated_population self;
     unevaluated_population_sigma := unevaluated_population_sigma self;
     archive_fitness := archive_fitness self |}.

Definition set_mu (v : Z) (self : t) : t :=
  {| base := base self; sigma := sigma self; mu := v; llambda := llambda self;
     current_center := current_center self;
     evaluated_population := evaluated_population self;
     evaluated_population_sigma := evaluated_population_sigma self;
     evaluated_population_fitness := evaluated_population_fitness self;
     unevaluated_population := unevaluated_population self;
     unevaluated_population_sigma := unevaluated_population_sigma self;
     archive_fitness := archive_fitness self |}.

Definition set_llambda (v : Z) (self : t) : t :=
  {| base := base self; sigma := sigma self; mu := mu self; llambda := v;
     current_center := current_center self;
     evaluated_population := evaluated_population self;
     evaluated_population_sigma := evaluated_population_sigma self;
     evaluated_population_fitness := evaluated_population_fitness self;
     unevaluated_population := unevaluated_population self;
     unevaluated_population_sigma := unevaluated_population_sigma self;
     archive_fitness := archive_fitness self |}.

Definition set_current_center (v : Point) (self : t) : t :=
  {| base := base self; sigma := sigma self; mu := mu self; llambda := llambda self;
     current_center := v; evaluated_population := evaluated_population self;
     evaluated_population_sigma := evaluated_population_sigma self;
     evaluated_population_fitness := evaluated_population_fitness self;
     unevaluated_population := unevaluated_population self;
     unevaluated_population_sigma := unevaluated_population_sigma self;
     archive_fitness := archive_fitness self |}.

Definition set_evaluated_population (v : list Point) (self : t) : t :=
  {| base := base self; sigma := sigma self; mu := mu self; llambda := llambda self;
     current_center := current_center self; evaluated_population := v;
     evaluated_population_sigma := evaluated_population_sigma self;
     evaluated_population_fitness := evaluated_population_fitness self;
     unevaluated_population := unevaluated_population self;
     unevaluated_population_sigma := unevaluated_population_sigma self;
     archive_fitness := archive_fitness self |}.

Definition set_evaluated_population_sigma (v : list float) (self : t) : t :=
  {| base := base self; sigma := sigma self; mu := mu self; llambda := llambda self;
     current_center := current_center self;
     evaluated_population := evaluated_population self; evaluated_population_sigma := v;
     evaluated_population_fitness := evaluated_population_fitness self;
     unevaluated_population := unevaluated_population self;
     unevaluated_population_sigma := unevaluated_population_sigma self;
     archive_fitness := archive_fitness self |}.

Definition set_evaluated_population_fitness (v : list float) (self : t) : t :=
  {| base := base self; sigma := sigma self; mu := mu self; llambda := llambda self;
     current_center := current_center self;
     evaluated_population := evaluated_population self;
     evaluated_population_sigma := evaluated_population_sigma self;
     evaluated_population_fitness := v;
     unevaluated_population := unevaluated_population self;
     unevaluated_population_sigma := unevaluated_population_sigma self;
     archive_fitness := archive_fitness self |}.

Definition set_unevaluated_population (v : list Point) (self : t) : t :=
  {| base := base self; sigma := sigma self; mu := mu self; llambda := llambda self;
     current_center := current_center self;
     evaluated_population := evaluated_population self;
     evaluated_population_sigma := evaluated_population_sigma self;
     evaluated_population_fitness := evaluated_population_fitness self;
     unevaluated_population := v;
     unevaluated_population_sigma := unevaluated_population_sigma self;
     archive_fitness := archive_fitness self |}.

Definition set_unevaluated_population_sigma (v : list float) (self : t) : t :=
  {| base := base self; sigma := sigma self; mu := mu self; llambda := llambda self;
     current_center := current_center self;
     evaluated_population := evaluated_population self;
     evaluated_population_sigma := evaluated_population_sigma self;
     evaluated_population_fitness := evaluated_population_fitness self;
     unevaluated_population := unevaluated_population self;
     unevaluated_population_sigma := v; archive_fitness := archive_fitness self |}.

Definition set_archive_fitness (v : list float) (self : t) : t :=
  {| base := base self; sigma := sigma self; mu := mu self; llambda := llambda self;
     current_center := current_center self;
     evaluated_population := evaluated_population self;
     evaluated_population_sigma := evaluated_population_sigma self;
     evaluated_population_fitness := evaluated_population_fitness self;
     unevaluated_population := unevaluated_population self;
     unevaluated_population_sigma := unevaluated_population_sigma self;
     archive_fitness := v |}.


(** [np.zeros(n)] raises on a negative [n]. *)
Definition __init__ (dimension : Z) (budget : option Z) (num_workers : Z) : exn + t :=
  if dimension <? 0 then inl ValueError
  else inr {| base := Base.__init__ dimension budget num_workers;
              sigma := Float.of_Z 1;
              mu := dimension;
              llambda := Z.max (4 * dimension) num_workers;
              current_center := Vec.zeros dimension;
              evaluated_population := [];
              evaluated_population_sigma := [];
              evaluated_population_fitness := [];
              unevaluated_population := [];
              unevaluated_population_sigma := [];
              archive_fitness := [] |}.

Definition dimension (self : t) : Z := Base.dimension (base self).
Definition num_workers (self : t) : Z := Base.num_workers (base self).

Definition _internal_provide_recommendation : py t Point := gets current_center.

(** The two draws of one ask: [np.random.normal(0, 1)] and
    [np.random.normal(0, 1, self.dimension)]. *)
Record Draws : Type := {
  normal : float;
  normal_vector : Point
}.

(** [self.sigma * np.exp(np.random.normal(0, 1) / np.sqrt(self.dimension))]. *)
Definition mutated_sigma {numerics : Numerics} (self : t) (n : float) : float :=
  Float.mul (sigma self) (np_exp (Float.div n (Float.sqrt (Float.of_Z (dimension self))))).

Definition _internal_ask {numerics : Numerics} (rng : Draws) : py t Point :=
  self ← get;
  let mutated_sigma := mutated_sigma self (normal rng) in
  let individual := Vec.add (current_center self) (Vec.scale mutated_sigma (normal_vector rng)) in
  modify (λ self, set_unevaluated_population_sigma
                    (unevaluated_population_sigma self ++ [mutated_sigma]) self);;
  modify (λ self, set_unevaluated_population (unevaluated_population self ++ [individual]) self);;
  mret individual.

(** The two-sample statistic of the population-size test: the first
    [llambda] archived values against those at [4 llambda .. 5 llambda - 1]. *)
Definition z_statistic {numerics : Numerics} (archive : list float) (llambda : Z) : exn + float :=
  first_fifth ← Py.pick archive (Py.range 0 llambda);
  last_fifth ← Py.pick archive (Py.range (4 * llambda) (5 * llambda));
  mean1 ← Py.truediv (Py.fsum first_fifth) (Float.of_Z llambda);
  let std1 := Float.div (np_std first_fifth) (Float.sqrt (Float.of_Z (llambda - 1))) in
  mean2 ← Py.truediv (Py.fsum last_fifth) (Float.of_Z llambda);
  let std2 := Float.div (np_std last_fifth) (Float.sqrt (Float.of_Z (llambda - 1))) in
  inr (Float.div (Float.sub mean1 mean2)
         (Float.sqrt (Float.add (pow std1 (Float.of_Z 2)) (pow std2 (Float.of_Z 2))))).

(** The first block of [_internal_tell] (lines 464-483, and the same
    lines of PCEDA and MPCEDA). *)
Definition population_size_test {numerics : Numerics} (value : float) : py t unit :=
  modify (λ self, set_archive_fitness (archive_fitness self ++ [value]) self);;
  self ← get;
  if 5 * llambda self <=? Py.len (archive_fitness self) then
    z ← lift (z_statistic (archive_fitness self) (llambda self));
    (if Float.ltb z (Float.of_Z 2) then
       modify (λ self, set_mu (mu self * 2) self)
     else
       m ← lift (Py.int (Float.mul (Float.of_Z (mu self)) (Float.lit 84 100)));
       modify (set_mu (if m <? dimension self then dimension self else m)));;
    modify (λ self, set_llambda (4 * mu self) self);;
    (if 1 <? num_workers self then
       modify (λ self, set_llambda (Z.max (llambda self) (num_workers self)) self);;
       modify (λ self, set_mu (llambda self / 4) self)
     else mret tt);;
    modify (set_archive_fitness [])
  else mret tt.

(** Moving [x] from the unevaluated to the evaluated population. *)
Definition move_to_evaluated (x : Point) (value : float) : py t unit :=
  self ← get;
  idx ← lift (Py.list_index Py.tuple_eqb (unevaluated_population self) x);
  modify (λ self, set_evaluated_population (evaluated_population self ++ [x]) self);;
  modify (λ self, set_evaluated_population_fitness
                    (evaluated_population_fitness self ++ [value]) self);;
  s ← lift (Py.index (unevaluated_population_sigma self) (Z.of_nat idx));
  modify (λ self, set_evaluated_population_sigma (evaluated_population_sigma self ++ [s]) self);;
  pop ← lift (Py.del_item (unevaluated_population self) idx);
  modify (set_unevaluated_population pop);;
  sigmas ← lift (Py.del_item (unevaluated_population_sigma self) idx);
  modify (set_unevaluated_population_sigma sigmas).

(** [<] on the triples [(fitness, individual, sigma)] that [sorted]
    compares. *)
Definition entry_ltb (a b : float * Point * float) : bool :=
  let '(f1, i1, s1) := a in
  let '(f2, i2, s2) := b in
  if negb (Float.eqb f1 f2) then Float.ltb f1 f2
  else if negb (Py.tuple_eqb i1 i2) then Py.tuple_ltb i1 i2
  else Float.ltb s1 s2.

Definition zip3 (fs : list float) (ps : list Point) (ss : list float) : list (float * Point * float) :=
  zip (zip fs ps) ss.

(** [[(i, s, f) for f, i, s in sorted(zip(fitness, population, sigma))]]. *)
Definition sorted_pop_with_sigma_and_fitness (self : t) : list (Point * float * float) :=
  (λ '(f, i, s), (i, s, f))
    <$> Py.sorted entry_ltb (zip3 (evaluated_population_fitness self)
                               (evaluated_population self) (evaluated_population_sigma self)).

(** "Computing the new parent": the mean of the first [mu] points, the
    exponential of the mean logarithm of their step sizes, and the
    three evaluated lists emptied. A [mu] below zero never arises
    ([np.zeros] rejects a negative dimension) and is read as zero. *)
Definition new_parent {numerics : Numerics} : py t unit :=
  self ← get;
  best ← lift (Py.pick (evaluated_population self) (Py.range 0 (mu self)));
  (if mu self <=? 0 then raise ZeroDivisionError else mret tt);;
  modify (set_current_center (Vec.div (Vec.sum best) (Float.of_Z (mu self))));;
  sigmas ← lift (Py.pick (evaluated_population_sigma self) (Py.range 0 (mu self)));
  modify (set_sigma (np_exp (Float.div (Py.fsum (np_log <$> sigmas)) (Float.of_Z (mu self)))));;
  modify (set_evaluated_population []);;
  modify (set_evaluated_population_sigma []);;
  modify (set_evaluated_population_fitness []).

Definition _internal_tell {numerics : Numerics} (x : Point) (value : float) : py t unit :=
  population_size_test value;;
  move_to_evaluated x value;;
  self ← get;
  if llambda self <=? Py.len (evaluated_population self) then
    let sorted_pop := sorted_pop_with_sigma_and_fitness self in
    modify (set_evaluated_population ((λ p, p.1.1) <$> sorted_pop));;
    modify (set_evaluated_population_sigma ((λ p, p.1.2) <$> sorted_pop));;
    modify (set_evaluated_population_fitness ((λ p, p.2) <$> sorted_pop));;
    new_parent
  else mret tt.

End TBPSA.

(** ** EDA, PCEDA, MPCEDA and MEDA *)

Module EDA.

(** [EDA.__init__] assigns the attributes of [TBPSA.__init__], with
    the same values, and a covariance matrix. *)
Record t : Type := {
  population : TBPSA.t;
  covariance : Vec.Matrix
}.

Definition set_population (v : TBPSA.t) (self : t) : t :=
  {| population := v; covariance := covariance self |}.
Definition set_covariance (v : Vec.Matrix) (self : t) : t :=
  {| population := population self; covariance := v |}.

(** A method that touches only the shared attributes. *)
Definition on_population {A} (m : py TBPSA.t A) : py t A :=
  λ self, let '(p, r) := m (population self) in (set_population p self, r).

Definition __init__ (dimension : Z) (budget : option Z) (num_workers : Z) : exn + t :=
  p ← TBPSA.__init__ dimension budget num_workers;
  inr {| population := p; covariance := Vec.identity dimension |}.

Definition _internal_provide_recommendation : py t Point :=
  gets (λ self, TBPSA.current_center (population self)).

(** The draws of one ask: [np.random.normal(0, 1)], and the sample
    [np.random.multivariate_normal] returns for a mean and a covariance. *)
Record Draws : Type := {
  normal : float;
  multivariate_normal : Point → Vec.Matrix → Point
}.

Definition _internal_ask {numerics : Numerics} (rng : Draws) : py t Point :=
  self ← get;
  let mutated_sigma := TBPSA.mutated_sigma (population self) (normal rng) in
  assert (Py.len (TBPSA.current_center (population self)) =? Py.len (covariance self));;
  let individual :=
    Vec.scale mutated_sigma
      (multivariate_normal rng (TBPSA.current_center (population self)) (covariance self)) in
  on_population (modify (λ p, TBPSA.set_unevaluated_population_sigma
                               (TBPSA.unevaluated_population_sigma p ++ [mutated_sigma]) p));;
  on_population (modify (λ p, TBPSA.set_unevaluated_population
                               (TBPSA.unevaluated_population p ++ [individual]) p));;
  mret individual.

(** The block under [if len(self.evaluated_population) >= self.llambda]
    of the four classes; they differ in the covariance they assign,
    [new_covariance old evaluated_population]. *)
Definition reestimate {numerics : Numerics} (new_covariance : Vec.Matrix → list Point → Vec.Matrix)
    : py t unit :=
  self ← get;
  if TBPSA.llambda (population self) <=? Py.len (TBPSA.evaluated_population (population self)) then
    let sorted_pop := TBPSA.sorted_pop_with_sigma_and_fitness (population self) in
    on_population (modify (TBPSA.set_evaluated_population ((λ p, p.1.1) <$> sorted_pop)));;
    modify (λ self, set_covariance
                      (new_covariance (covariance self)
                         (TBPSA.evaluated_population (population self))) self);;
    on_population (modify (TBPSA.set_evaluated_population_sigma ((λ p, p.1.2) <$> sorted_pop)));;
    on_population (modify (TBPSA.set_evaluated_population_fitness ((λ p, p.2) <$> sorted_pop)));;
    on_population TBPSA.new_parent
  else mret tt.

(** [self.covariance = .1 * np.cov(...)]. *)
Definition scaled_covariance {numerics : Numerics} (old : Vec.Matrix) (pop : list Point) : Vec.Matrix :=
  Vec.mscale (Float.lit 1 10) (np_cov pop).

(** [self.covariance = np.cov(...)]. *)
Definition plain_covariance {numerics : Numerics} (old : Vec.Matrix) (pop : list Point) : Vec.Matrix :=
  np_cov pop.

(** [self.covariance *= .9; self.covariance += .1 * np.cov(...)]. *)
Definition blended_covariance {numerics : Numerics} (old : Vec.Matrix) (pop : list Point) : Vec.Matrix :=
  Vec.madd (Vec.mscale (Float.lit 9 10) old) (Vec.mscale (Float.lit 1 10) (np_cov pop)).

Definition _internal_tell {numerics : Numerics} (x : Point) (value : float) : py t unit :=
  on_population (TBPSA.move_to_evaluated x value);;
  reestimate scaled_covariance.

Definition PCEDA_internal_tell {numerics : Numerics} (x : Point) (value : float) : py t unit :=
  on_population (TBPSA.population_size_test value);;
  on_population (TBPSA.move_to_evaluated x value);;
  reestimate plain_covariance.

Definition MPCEDA_internal_tell {numerics : Numerics} (x : Point) (value : float) : py t unit :=
  on_population (TBPSA.population_size_test value);;
  on_population (TBPSA.move_to_evaluated x value);;
  reestimate blended_covariance.

Definition MEDA_internal_tell {numerics : Numerics} (x : Point) (value : float) : py t unit :=
  on_population (TBPSA.move_to_evaluated x value);;
  reestimate blended_covariance.

End EDA.

(** ** The CMA-ES solver of the package [cma] *)

(** The solver is used through four operations: construction from
    [x0], [sigma0] and the options, [ask], [tell] (which may raise) and
    the reading of [popsize] and of [result.xbest]. *)
Class Solver : Type := {
  ES : Type;
  CMAEvolutionStrategy : Point → float → Z → bool → ES;
  es_ask : py ES (list Point);
  es_tell : list Point → list float → py ES unit;
  es_popsize : ES → Z;
  es_xbest : ES → Point
}.

(** ** CMA, MicroCMA, MilliCMA and DiagonalCMA *)

Module CMA.

(** [_cma_init]: the keyword arguments kept for the solver. *)
Record cma_init : Type := {
  x0 : Point;
  sigma0 : float;
  popsize : Z;
  CMA_diagonal : bool
}.

Record t {solver : Solver} : Type := {
  base : Base.Optimizer;
  es : option ES;
  _cma_init : cma_init;
  listx : list Point;
  listy : list float;
  to_be_asked : list Point
}.

Section methods.
Context {numerics : Numerics} {solver : Solver}.

Definition set_es (v : option ES) (self : t) : t :=
  {| base := base self; es := v; _cma_init := _cma_init self; listx := listx self;
     listy := listy self; to_be_asked := to_be_asked self |}.
Definition set_cma_init (v : cma_init) (self : t) : t :=
  {| base := base self; es := es self; _cma_init := v; listx := listx self;
     listy := listy self; to_be_asked := to_be_asked self |}.
Definition set_listx (v : list Point) (self : t) : t :=
  {| base := base self; es := es self; _cma_init := _cma_init self; listx := v;
     listy := listy self; to_be_asked := to_be_asked self |}.
Definition set_listy (v : list float) (self : t) : t :=
  {| base := base self; es := es self; _cma_init := _cma_init self; listx := listx self;
     listy := v; to_be_asked := to_be_asked self |}.
Definition set_to_be_asked (v : list Point) (self : t) : t :=
  {| base := base self; es := es self; _cma_init := _cma_init self; listx := listx self;
     listy := listy self; to_be_asked := v |}.

(** [popsize = max(num_workers, 4 + int(3 * np.log(dimension)))]. *)
Definition __init__ (dimension : Z) (budget : option Z) (num_workers : Z) : exn + t :=
  n ← Py.int (Float.mul (Float.of_Z 3) (np_log (Float.of_Z dimension)));
  inr {| base := Base.__init__ dimension budget num_workers;
         es := None;
         _cma_init := {| x0 := replicate (Z.to_nat dimension) (Float.of_Z 0);
                         sigma0 := Float.of_Z 1;
                         popsize := Z.max num_workers (4 + n);
                         CMA_diagonal := false |};
         listx := []; listy := []; to_be_asked := [] |}.

Definition with_sigma0 (v : float) (self : t) : t :=
  set_cma_init {| x0 := x0 (_cma_init self); sigma0 := v; popsize := popsize (_cma_init self);
                  CMA_diagonal := CMA_diagonal (_cma_init self) |} self.

Definition MicroCMA__init__ (dimension : Z) (budget : option Z) (num_workers : Z) : exn + t :=
  self ← __init__ dimension budget num_workers;
  inr (with_sigma0 (Float.lit 1 1000000) self).

Definition MilliCMA__init__ (dimension : Z) (budget : option Z) (num_workers : Z) : exn + t :=
  self ← __init__ dimension budget num_workers;
  inr (with_sigma0 (Float.lit 1 1000) self).

Definition DiagonalCMA__init__ (dimension : Z) (budget : option Z) (num_workers : Z) : exn + t :=
  self ← __init__ dimension budget num_workers;
  inr (set_cma_init {| x0 := x0 (_cma_init self); sigma0 := sigma0 (_cma_init self);
                       popsize := popsize (_cma_init self); CMA_diagonal := true |} self).

(** The solver built from the keyword arguments of [_cma_init]. *)
Definition new_es (self : t) : ES :=
  CMAEvolutionStrategy (x0 (_cma_init self)) (sigma0 (_cma_init self))
    (popsize (_cma_init self)) (CMA_diagonal (_cma_init self)).

(** [if self.es is None: self.es = ...]; the solver, once there. *)
Definition ensure_es : py t ES :=
  self ← get;
  match es self with
  | Some e => mret e
  | None => modify (set_es (Some (new_es self)));; mret (new_es self)
  end.

(** A call of a method of [self.es]. *)
Definition on_es {A} (m : py ES A) : py t A :=
  λ self, match es self with
          | Some e => let '(e', r) := m e in (set_es (Some e') self, r)
          | None => (self, Raises AttributeError)
          end.

Definition _internal_ask : py t Point :=
  ensure_es;;
  self ← get;
  (if bool_decide (to_be_asked self = []) then
     batch ← on_es es_ask;
     modify (λ self, set_to_be_asked (to_be_asked self ++ batch) self)
   else mret tt);;
  self ← get;
  match to_be_asked self with
  | [] => raise IndexError
  | p :: rest => modify (set_to_be_asked rest);; mret p
  end.

(** [try: self.es.tell(...) except RuntimeError: pass else: ...]:
    [true] when the call raised nothing. Another exception goes up. *)
Definition try_tell (xs : list Point) (ys : list float) : py t bool :=
  λ self, match on_es (es_tell xs ys) self with
          | (self', Returns _) => (self', Returns true)
          | (self', Raises (RuntimeError _)) => (self', Returns false)
          | (self', Raises e) => (self', Raises e)
          end.

Definition _internal_tell (x : Point) (value : float) : py t unit :=
  ensure_es;;
  modify (λ self, set_listx (listx self ++ [x]) self);;
  modify (λ self, set_listy (listy self ++ [value]) self);;
  self ← get;
  popsize ← on_es (gets es_popsize);
  if popsize <=? Py.len (listx self) then
    accepted ← try_tell (listx self) (listy self);
    if accepted : bool then modify (set_listx []);; modify (set_listy [])
    else mret tt
  else mret tt.

(** What a method hands back: an array, or an exception object. *)
Inductive value : Type :=
| Array (p : Point)
| ExceptionObject (e : exn).

Definition _internal_provide_recommendation : py t value :=
  self ← get;
  match es self with
  | None => mret (ExceptionObject
                    (RuntimeError "Either ask or tell method should have been called before"))
  | Some e => mret (Array (es_xbest e))
  end.

End methods.

End CMA.

(** ** Dictionaries of queues: [defaultdict(list)] *)

Module Ledger.

Section ledger.
Context `{Countable K} {V : Type}.

(** A [defaultdict(list)], as the entries that the lookup of a tuple
    without nan can find: [k] is the key the dictionary files [x]
    under, or [None] for an [x] that holds a nan ([Py.key]); what is
    stored under such an [x] is out of the reach of these lookups and
    left out. *)

(** [m[x]] read: the queue at [x], empty at a missing key, and the
    dictionary afterwards (a missing key is inserted). *)
Definition queue (k : option K) (m : gmap K (list V)) : list V :=
  match k with Some k => default [] (m !! k) | None => [] end.
Definition touched (k : option K) (m : gmap K (list V)) : gmap K (list V) :=
  match k with
  | Some k => match m !! k with Some _ => m | None => <[k := []]> m end
  | None => m
  end.

(** [m[x] += [v]]. *)
Definition append (k : option K) (v : V) (m : gmap K (list V)) : gmap K (list V) :=
  match k with Some k' => <[k' := queue k m ++ [v]]> m | None => m end.

(** [del m[x][0]]. *)
Definition del_head (k : option K) (m : gmap K (list V)) : exn + gmap K (list V) :=
  match queue k m, k with
  | _ :: rest, Some k => inr (<[k := rest]> m)
  | _, _ => inl IndexError
  end.

End ledger.

End Ledger.

(** A [for] loop over a list, in the method monad. *)
Fixpoint for_each {S A} (l : list A) (body : A → py S unit) : py S unit :=
  match l with
  | [] => mret tt
  | a :: rest => body a;; for_each rest body
  end.

(** ** PSO *)

Module PSO.

(** A particle is held as a [numpy] array, or as a Python list once a
    comprehension has rebuilt it; [+=] adds to the first in place and
    extends the second. *)
Inductive seq : Type :=
| ndarray (v : Point)
| pylist (v : Point).

Definition items (s : seq) : Point := match s with ndarray v | pylist v => v end.

Record t : Type := {
  base : Base.Optimizer;
  llambda : Z;
  pop : list seq;
  pop_speed : list Point;
  pop_best : list seq;
  pop_best_fitness : list float;
  pop_fitness : list (option float);
  pso_best : option Point;
  pso_best_fitness : float;
  locations : gmap Point (list Z);
  index : Z;
  omega : float;
  phip : float;
  phig : float;
  eps : float;
  queue : list Z
}.

Definition set_pop (v : list seq) (self : t) : t :=
  {| base := base self; llambda := llambda self; pop := v; pop_speed := pop_speed self;
     pop_best := pop_best self; pop_best_fitness := pop_best_fitness self;
     pop_fitness := pop_fitness self; pso_best := pso_best self;
     pso_best_fitness := pso_best_fitness self; locations := locations self;
     index := index self; omega := omega self; phip := phip self; phig := phig self;
     eps := eps self; queue := queue self |}.

Definition set_pop_speed (v : list Point) (self : t) : t :=
  {| base := base self; llambda := llambda self; pop := pop self; pop_speed := v;
     pop_best := pop_best self; pop_best_fitness := pop_best_fitness self;
     pop_fitness := pop_fitness self; pso_best := pso_best self;
     pso_best_fitness := pso_best_fitness self; locations := locations self;
     index := index self; omega := omega self; phip := phip self; phig := phig self;
     eps := eps self; queue := queue self |}.

Definition set_pop_best (v : list seq) (self : t) : t :=
  {| base := base self; llambda := llambda self; pop := pop self;
     pop_speed := pop_speed self; pop_best := v; pop_best_fitness := pop_best_fitness self;
     pop_fitness := pop_fitness self; pso_best := pso_best self;
     pso_best_fitness := pso_best_fitness self; locations := locations self;
     index := index self; omega := omega self; phip := phip self; phig := phig self;
     eps := eps self; queue := queue self |}.

Definition set_pop_best_fitness (v : list float) (self : t) : t :=
  {| base := base self; llambda := llambda self; pop := pop self;
     pop_speed := pop_speed self; pop_best := pop_best self; pop_best_fitness := v;
     pop_fitness := pop_fitness self; pso_best := pso_best self;
     pso_best_fitness := pso_best_fitness self; locations := locations self;
     index := index self; omega := omega self; phip := phip self; phig := phig self;
     eps := eps self; queue := queue self |}.

Definition set_pop_fitness (v : list (option float)) (self : t) : t :=
  {| base := base self; llambda := llambda self; pop := pop self;
     pop_speed := pop_speed self; pop_best := pop_best self;
     pop_best_fitness := pop_best_fitness self; pop_fitness := v;
     pso_best := pso_best self; pso_best_fitness := pso_best_fitness self;
     locations := locations self; index := index self; omega := omega self;
     phip := phip self; phig := phig self; eps := eps self; queue := queue self |}.

Definition set_pso_best (v : option Point) (self : t) : t :=
  {| base := base self; llambda := llambda self; pop := pop self;
     pop_speed := pop_speed self; pop_best := pop_best self;
     pop_best_fitness := pop_best_fitness self; pop_fitness := pop_fitness self;
     pso_best := v; pso_best_fitness := pso_best_fitness self; locations := locations self;
     index := index self; omega := omega self; phip := phip self; phig := phig self;
     eps := eps self; queue := queue self |}.

Definition set_pso_best_fitness (v : float) (self : t) : t :=
  {| base := base self; llambda := llambda self; pop := pop self;
     pop_speed := pop_speed self; pop_best := pop_best self;
     pop_best_fitness := pop_best_fitness self; pop_fitness := pop_fitness self;
     pso_best := pso_best self; pso_best_fitness := v; locations := locations self;
     index := index self; omega := omega self; phip := phip self; phig := phig self;
     eps := eps self; queue := queue self |}.

Definition set_locations (v : gmap Point (list Z)) (self : t) : t :=
  {| base := base self; llambda := llambda self; pop := pop self;
     pop_speed := pop_speed self; pop_best := pop_best self;
     pop_best_fitness := pop_best_fitness self; pop_fitness := pop_fitness self;
     pso_best := pso_best self; pso_best_fitness := pso_best_fitness self; locations := v;
     index := index self; omega := omega self; phip := phip self; phig := phig self;
     eps := eps self; queue := queue self |}.

Definition set_index (v : Z) (self : t) : t :=
  {| base := base self; llambda := llambda self; pop := pop self;
     pop_speed := pop_speed self; pop_best := pop_best self;
     pop_best_fitness := pop_best_fitness self; pop_fitness := pop_fitness self;
     pso_best := pso_best self; pso_best_fitness := pso_best_fitness self;
     locations := locations self; index := v; omega := omega self; phip := phip self;
     phig := phig self; eps := eps self; queue := queue self |}.

Definition set_queue (v : list Z) (self : t) : t :=
  {| base := base self; llambda := llambda self; pop := pop self;
     pop_speed := pop_speed self; pop_best := pop_best self;
     pop_best_fitness := pop_best_fitness self; pop_fitness := pop_fitness self;
     pso_best := pso_best self; pso_best_fitness := pso_best_fitness self;
     locations := locations self; index := index self; omega := omega self;
     phip := phip self; phig := phig self; eps := eps self; queue := v |}.


Definition dimension (self : t) : Z := Base.dimension (base self).

Definition __init__ {numerics : Numerics} (dimension : Z) (budget : option Z) (num_workers : Z) : t :=
  let llambda := Z.max 40 num_workers in
  {| base := Base.__init__ dimension budget num_workers;
     llambda := llambda;
     pop := []; pop_speed := []; pop_best := []; pop_best_fitness := []; pop_fitness := [];
     pso_best := None;
     pso_best_fitness := Float.inf;
     locations := ∅;
     index := -1;
     omega := Float.div (Float.lit 5 10) (np_log (Float.of_Z 2));
     phip := Float.add (Float.lit 5 10) (np_log (Float.of_Z 2));
     phig := Float.add (Float.lit 5 10) (np_log (Float.of_Z 2));
     eps := Float.lit 1 10000000000;
     queue := Py.range 0 llambda |}.

(** [to_real]: [stats.norm.ppf], and the assertion that no item is nan. *)
Definition to_real {numerics : Numerics} (x : Point) : exn + Point :=
  let output := norm_ppf <$> x in
  if existsb Float.isnan output then inl AssertionError else inr output.

(** The uniform draws of one ask: the position and the speed of the
    [i]-th particle when the swarm is created, and [rp], [rg] for the
    [i]-th coordinate. *)
Record Draws : Type := {
  uniform_position : Z → Point;
  uniform_speed : Z → Point;
  rp : Z → float;
  rg : Z → float
}.

(** The body of [for i in range(self.llambda)] on the first ask: the
    array [guy] enters [pop] and [pop_best] as one object. *)
Definition create_particle (rng : Draws) (i : Z) : py t unit :=
  let guy := uniform_position rng i in
  modify (λ self, set_pop (pop self ++ [ndarray guy]) self);;
  modify (λ self, set_pop_best (pop_best self ++ [ndarray guy]) self);;
  modify (λ self, set_pop_speed (pop_speed self ++ [uniform_speed rng i]) self);;
  modify (λ self, set_pop_best_fitness (pop_best_fitness self ++ [Float.inf]) self);;
  modify (λ self, set_pop_fitness (pop_fitness self ++ [None]) self).

(** [self.pso_best[i]]: [None] has no items. *)
Definition pso_best_item (self : t) (i : Z) : exn + float :=
  match pso_best self with
  | None => inl TypeError
  | Some b => Py.index b i
  end.

(** The body of [for i in range(self.dimension)]: the speed mutation
    of coordinate [i]. *)
Definition mutate_speed (rng : Draws) (location i : Z) : py t unit :=
  self ← get;
  speed ← lift (Py.index (pop_speed self) location);
  v ← lift (Py.index speed i);
  best ← lift (Py.index (pop_best self) location);
  b ← lift (Py.index (items best) i);
  particle ← lift (Py.index (pop self) location);
  p ← lift (Py.index (items particle) i);
  g ← lift (pso_best_item self i);
  let v' := Float.add
              (Float.add (Float.mul (omega self) v)
                 (Float.mul (Float.mul (phip self) (rp rng i)) (Float.sub b p)))
              (Float.mul (Float.mul (phig self) (rg rng i)) (Float.sub g p)) in
  speed' ← lift (Py.set_item speed i v');
  speeds ← lift (Py.set_item (pop_speed self) location speed');
  modify (set_pop_speed speeds).

(** [self.pop[location] += self.pop_speed[location]]: an array is
    added to in place, and [pop_best[location]] with it while it is
    still that array; a list is extended. *)
Definition move_particle (location : Z) : py t unit :=
  self ← get;
  particle ← lift (Py.index (pop self) location);
  speed ← lift (Py.index (pop_speed self) location);
  match particle with
  | ndarray x =>
      let moved := ndarray (Vec.add x speed) in
      l ← lift (Py.set_item (pop self) location moved);
      modify (set_pop l);;
      match Py.index (pop_best self) location with
      | inr (ndarray _) =>
          l ← lift (Py.set_item (pop_best self) location moved);
          modify (set_pop_best l)
      | _ => mret tt
      end
  | pylist x =>
      l ← lift (Py.set_item (pop self) location (pylist (x ++ speed)));
      modify (set_pop l)
  end.

(** [[max(0. + eps, min(1. - eps, x_)) for x_ in self.pop[location]]]. *)
Definition clamp (eps : float) (x : Point) : Point :=
  (λ x_, Float.max (Float.add (Float.of_Z 0) eps)
                   (Float.min (Float.sub (Float.of_Z 1) eps) x_)) <$> x.

(** The three lines that end both branches of [_internal_ask]. *)
Definition emit {numerics : Numerics} (location : Z) : py t Point :=
  self ← get;
  particle ← lift (Py.index (pop self) location);
  guy ← lift (to_real (items particle));
  modify (λ self, set_locations (Ledger.append (Py.key guy) location (locations self)) self);;
  modify (λ self, set_queue (tail (queue self)) self);;
  mret guy.

(** The first lines of [_internal_ask]: the counter of asks, and the
    creation of the swarm at the first ask. *)
Definition prepare (rng : Draws) : py t unit :=
  modify (λ self, set_index (index self + 1) self);;
  self ← get;
  if index self =? 0 then
    modify (set_pso_best None);;
    modify (set_pso_best_fitness Float.inf);;
    for_each (Py.range 0 (llambda self)) (create_particle rng)
  else mret tt.

(** What [_internal_ask] does to the particle [location] before it
    emits it: nothing when it has no fitness yet, else the speed
    mutation, the move and the clamping. *)
Definition advance (rng : Draws) (location : Z) : py t unit :=
  self ← get;
  fitness ← lift (Py.index (pop_fitness self) location);
  match fitness with
  | None => lift (Py.index (pop self) location);; mret tt
  | Some _ =>
      for_each (Py.range 0 (dimension self)) (mutate_speed rng location);;
      move_particle location;;
      self ← get;
      particle ← lift (Py.index (pop self) location);
      l ← lift (Py.set_item (pop self) location (pylist (clamp (eps self) (items particle))));
      modify (set_pop l)
  end.

Definition _internal_ask {numerics : Numerics} (rng : Draws) : py t Point :=
  prepare rng;;
  self ← get;
  match queue self with
  | [] => raise (RuntimeError "Queue is empty, you tried to ask more than population size")
  | location :: _ => advance rng location;; emit location
  end.

Definition _internal_provide_recommendation {numerics : Numerics} : py t Point :=
  self ← get;
  match pso_best self with
  | None => raise TypeError
  | Some b => lift (to_real b)
  end.

(** [max(l)] and [min(l)] of a sequence; an empty one raises. *)
Definition max_of (l : Point) : exn + float :=
  match l with [] => inl ValueError | x :: rest => inr (foldl Float.max x rest) end.
Definition min_of (l : Point) : exn + float :=
  match l with [] => inl ValueError | x :: rest => inr (foldl Float.min x rest) end.

(** The first three lines of [_internal_tell]: the particle that
    produced [x], the head of the queue of [x]. *)
Definition locate (x : Point) : py t Z :=
  modify (λ self, set_locations (Ledger.touched (Py.key x) (locations self)) self);;
  self ← get;
  assert (negb (bool_decide (Ledger.queue (Py.key x) (locations self) = [])));;
  lift (Py.index (Ledger.queue (Py.key x) (locations self)) 0).

(** The lines from [point = ...] to the update of the particle's best:
    the value enters the particle [location]. *)
Definition record_fitness {numerics : Numerics} (location : Z) (x : Point) (value : float)
    : py t unit :=
  self ← get;
  particle ← lift (Py.index (pop self) location);
  point ← lift (to_real (items particle));
  assert (Py.tuple_eqb x point);;
  l ← lift (Py.set_item (pop_fitness self) location (Some value));
  modify (set_pop_fitness l);;
  (if Float.ltb value (pso_best_fitness self) then
     hi ← lift (max_of (items particle));
     assert (Float.ltb hi (Float.of_Z 1));;
     lo ← lift (min_of (items particle));
     assert (Float.gtb lo (Float.of_Z 0));;
     modify (set_pso_best (Some (items particle)));;
     modify (set_pso_best_fitness value)
   else mret tt);;
  best_fitness ← lift (Py.index (pop_best_fitness self) location);
  (if Float.ltb value best_fitness then
     l ← lift (Py.set_item (pop_best self) location (pylist (items particle)));
     modify (set_pop_best l);;
     l ← lift (Py.set_item (pop_best_fitness self) location value);
     modify (set_pop_best_fitness l)
   else mret tt).

(** The last two lines: the head of the queue of [x] goes, and the
    particle is back in the queue of the swarm. *)
Definition release (location : Z) (x : Point) : py t unit :=
  self ← get;
  m ← lift (Ledger.del_head (Py.key x) (locations self));
  modify (set_locations m);;
  modify (λ self, set_queue (queue self ++ [location]) self).

Definition _internal_tell {numerics : Numerics} (x : Point) (value : float) : py t unit :=
  location ← locate x;
  record_fitness location x value;;
  release location x.

End PSO.

(** ** SPSA *)

Module SPSA.

(** [self.delta] is the float nan at first, then an array of [-1]s and
    [1]s. *)
Inductive Delta : Type :=
| Scalar (x : float)
| IntArray (v : list Z).

Record t : Type := {
  base : Base.Optimizer;
  init : bool;
  idx : Z;
  delta : Delta;
  ym : option float;
  yp : option float;
  t_ : Point;
  avg : Point;
  A : Z;
  c : float;
  a : float
}.

Definition set_init (v : bool) (self : t) : t :=
  {| base := base self; init := v; idx := idx self; delta := delta self; ym := ym self;
     yp := yp self; t_ := t_ self; avg := avg self; A := A self; c := c self;
     a := a self |}.

Definition set_idx (v : Z) (self : t) : t :=
  {| base := base self; init := init self; idx := v; delta := delta self; ym := ym self;
     yp := yp self; t_ := t_ self; avg := avg self; A := A self; c := c self;
     a := a self |}.

Definition set_delta (v : Delta) (self : t) : t :=
  {| base := base self; init := init self; idx := idx self; delta := v; ym := ym self;
     yp := yp self; t_ := t_ self; avg := avg self; A := A self; c := c self;
     a := a self |}.

Definition set_ym (v : option float) (self : t) : t :=
  {| base := base self; init := init self; idx := idx self; delta := delta self; ym := v;
     yp := yp self; t_ := t_ self; avg := avg self; A := A self; c := c self;
     a := a self |}.

Definition set_yp (v : option float) (self : t) : t :=
  {| base := base self; init := init self; idx := idx self; delta := delta self;
     ym := ym self; yp := v; t_ := t_ self; avg := avg self; A := A self; c := c self;
     a := a self |}.

Definition set_t_ (v : Point) (self : t) : t :=
  {| base := base self; init := init self; idx := idx self; delta := delta self;
     ym := ym self; yp := yp self; t_ := v; avg := avg self; A := A self; c := c self;
     a := a self |}.

Definition set_avg (v : Point) (self : t) : t :=
  {| base := base self; init := init self; idx := idx self; delta := delta self;
     ym := ym self; yp := yp self; t_ := t_ self; avg := v; A := A self; c := c self;
     a := a self |}.


Definition dimension (self : t) : Z := Base.dimension (base self).

Definition __init__ (dimension : Z) (budget : option Z) (num_workers : Z) : exn + t :=
  if dimension <? 0 then inl ValueError
  else inr {| base := Base.__init__ dimension budget num_workers;
              init := true;
              idx := 0;
              delta := Scalar Float.nan;
              ym := None;
              yp := None;
              t_ := Vec.zeros dimension;
              avg := Vec.zeros dimension;
              A := match budget with None => 10 | Some b => Z.max 10 (b / 20) end;
              c := Float.lit 1 10;
              a := Float.lit 1 100000 |}.

(** [self.c / (k//2 + 1)**0.101]. *)
Definition ck {numerics : Numerics} (self : t) (k : Z) : exn + float :=
  Py.truediv (c self) (pow (Float.of_Z (k / 2 + 1)) (Float.lit 101 1000)).

(** [self.a / (k//2 + 1 + self.A)**0.602]. *)
Definition ak {numerics : Numerics} (self : t) (k : Z) : exn + float :=
  Py.truediv (a self) (pow (Float.of_Z (k / 2 + 1 + A self)) (Float.lit 602 1000)).

(** [s * self.delta] and [t - d], [t + d] as [numpy] broadcasts them. *)
Definition times_delta (s : float) (d : Delta) : Delta + Point :=
  match d with
  | Scalar x => inl (Scalar (Float.mul s x))
  | IntArray v => inr ((λ n, Float.mul s (Float.of_Z n)) <$> v)
  end.
Definition minus (t : Point) (d : Delta + Point) : Point :=
  match d with
  | inl (Scalar x) => (λ ti, Float.sub ti x) <$> t
  | inl (IntArray v) => Vec.sub t (Float.of_Z <$> v)
  | inr v => Vec.sub t v
  end.
Definition plus (t : Point) (d : Delta + Point) : Point :=
  match d with
  | inl (Scalar x) => (λ ti, Float.add ti x) <$> t
  | inl (IntArray v) => Vec.add t (Float.of_Z <$> v)
  | inr v => Vec.add t v
  end.

(** [(self.ak(k) * (self.yp - self.ym) / 2 / self.ck(k))]. *)
Definition gradient_gain {numerics : Numerics} (self : t) (k : Z) (yp ym : float) : exn + float :=
  a_k ← ak self k;
  c_k ← ck self k;
  inr (Float.div (Float.div (Float.mul a_k (Float.sub yp ym)) (Float.of_Z 2)) c_k).

(** [bits] is what [self._rng.randint(2, size=self.dimension)] returns. *)
Definition _internal_ask {numerics : Numerics} (bits : list Z) : py t Point :=
  self ← get;
  let k := idx self in
  if k mod 2 =? 0 then
    (if negb (init self) then
       match yp self, ym self with
       | Some yp, Some ym =>
           g ← lift (gradient_gain self k yp ym);
           modify (λ self, set_t_ (minus (t_ self) (times_delta g (delta self))) self);;
           modify (λ self, set_avg (Vec.add (avg self)
                                      (Vec.div (Vec.sub (t_ self) (avg self))
                                         (Float.of_Z (k / 2 + 1)))) self)
       | _, _ => raise AssertionError
       end
     else mret tt);;
    modify (set_delta (IntArray ((λ b, 2 * b - 1) <$> bits)));;
    self ← get;
    c_k ← lift (ck self k);
    mret (minus (t_ self) (times_delta c_k (delta self)))
  else
    c_k ← lift (ck self k);
    mret (plus (t_ self) (times_delta c_k (delta self))).

Definition _internal_tell (x : Point) (value : float) : py t unit :=
  self ← get;
  (if idx self mod 2 =? 0 then modify (set_ym (Some value)) else modify (set_yp (Some value)));;
  modify (λ self, set_idx (idx self + 1) self);;
  self ← get;
  if init self && bool_decide (is_Some (yp self)) && bool_decide (is_Some (ym self))
  then modify (set_init false)
  else mret tt.

Definition _internal_provide_recommendation : py t Point := gets avg.

End SPSA.

(** ** The optimizers a portfolio holds *)

(** The classes the portfolios instantiate, from this module and from
    its siblings. *)
Inductive optimizer_class : Type :=
| cls_CMA | cls_MilliCMA | cls_MicroCMA | cls_OnePlusOne | cls_PSO
| cls_TwoPointsDE | cls_LhsDE | cls_ScrHammersleySearch | cls_ScrHaltonSearch | cls_SQP.

(** A portfolio uses its members through the base class only:
    construction [cls(dimension, budget, num_workers)], which may
    raise (the one of [CMA] does when the dimension is below one),
    [ask()], [tell(x, value)], the pessimistic estimate of the
    member's current best, and the attribute [initial_guess] of
    SQP. *)
Class Members : Type := {
  Sub : Type;
  construct : optimizer_class → Z → option Z → Z → exn + Sub;
  sub_ask : py Sub Point;
  sub_tell : Point → float → py Sub unit;
  sub_pessimistic : Sub → float;
  set_initial_guess : Point → Sub → Sub
}.

(** ** Portfolio *)

Module Portfolio.

Record t {members : Members} : Type := {
  base : Base.Optimizer;
  optims : list Sub;
  who_asked : gmap Point (list Z)
}.

Section methods.
Context {members : Members}.

Definition set_base (v : Base.Optimizer) (self : t) : t :=
  {| base := v; optims := optims self; who_asked := who_asked self |}.
Definition set_optims (v : list Sub) (self : t) : t :=
  {| base := base self; optims := v; who_asked := who_asked self |}.
Definition set_who_asked (v : gmap Point (list Z)) (self : t) : t :=
  {| base := base self; optims := optims self; who_asked := v |}.

(** [b] as the integer it adds like. *)
Definition of_bool (b : bool) : Z := if b then 1 else 0.

Definition __init__ (dimension : Z) (budget : option Z) (num_workers : Z) : exn + t :=
  match budget with
  | None => inl AssertionError
  | Some budget =>
      optims ← Py.display
        [construct cls_CMA dimension (Some (budget / 3 + of_bool (0 <? budget mod 3))) num_workers;
         construct cls_TwoPointsDE dimension (Some (budget / 3 + of_bool (1 <? budget mod 3))) num_workers;
         construct cls_ScrHammersleySearch dimension (Some (budget / 3)) num_workers];
      optims ← (if budget <? 12 * num_workers
                then Py.display
                       [construct cls_ScrHammersleySearch dimension (Some budget) num_workers]
                else inr optims);
      inr {| base := Base.__init__ dimension (Some budget) num_workers;
             optims := optims;
             who_asked := ∅ |}
  end.

(** [a % b] on integers: a zero divisor raises. *)
Definition py_mod (a b : Z) : exn + Z :=
  if b =? 0 then inl ZeroDivisionError else inr (a mod b).

(** A call of a method of [self.optims[i]]. *)
Definition on_optim {A} (i : Z) (m : py Sub A) : py t A :=
  λ self, match Py.index (optims self) i with
          | inl e => (self, Raises e)
          | inr o =>
              let '(o', r) := m o in
              match Py.set_item (optims self) i o' with
              | inl e => (self, Raises e)
              | inr l => (set_optims l self, r)
              end
          end.

(** The last three lines of every [_internal_ask] of the family. *)
Definition dispatch (optim_index : Z) : py t Point :=
  individual ← on_optim optim_index sub_ask;
  modify (λ self,
            set_who_asked (Ledger.append (Py.key individual) optim_index (who_asked self)) self);;
  mret individual.

Definition _internal_ask : py t Point :=
  self ← get;
  optim_index ← lift (py_mod (Base._num_ask (base self)) (Py.len (optims self)));
  dispatch optim_index.

Definition _internal_tell (x : Point) (value : float) : py t unit :=
  modify (λ self, set_who_asked (Ledger.touched (Py.key x) (who_asked self)) self);;
  self ← get;
  optim_index ← lift (Py.index (Ledger.queue (Py.key x) (who_asked self)) 0);
  m ← lift (Ledger.del_head (Py.key x) (who_asked self));
  modify (set_who_asked m);;
  on_optim optim_index (sub_tell x value).

Definition _internal_provide_recommendation : py t Point :=
  gets (λ self, Base.x (Base.current_bests (base self) "pessimistic")).

(** Modelled from the spec: [base.Optimizer.ask] is not part of the
    sources; it calls [_internal_ask] and then increments the ask
    counter. *)
Definition counted_ask (internal_ask : py t Point) : py t Point :=
  x ← internal_ask;
  modify (λ self, set_base (Base.set_num_ask (Base._num_ask (base self) + 1) (base self)) self);;
  mret x.

End methods.

End Portfolio.

(** ** ParaPortfolio and ParaSQPCMA *)

Module ParaPortfolio.

Record t {members : Members} : Type := {
  portfolio : Portfolio.t;
  which_optim : list Z
}.

Section methods.
Context {members : Members}.

Definition set_portfolio (v : Portfolio.t) (self : t) : t :=
  {| portfolio := v; which_optim := which_optim self |}.

Definition on_portfolio {A} (m : py Portfolio.t A) : py t A :=
  λ self, let '(p, r) := m (portfolio self) in (set_portfolio p self, r).

(** [sum(x)] on integers. *)
Definition isum (x : list Z) : Z := foldl Z.add 0 x.

(** The [while] loop of [intshare]; it runs out of [x] after
    [len(x)] rounds, where [x[i]] raises. *)
Fixpoint intshare_loop (rounds : nat) (n : Z) (x : list Z) (i : Z) : exn + list Z :=
  if isum x <? n then
    match rounds with
    | O => inl IndexError
    | S rounds =>
        xi ← Py.index x i;
        x' ← Py.set_item x i (xi + 1);
        intshare_loop rounds n x' (i + 1)
    end
  else inr x.

Definition py_floordiv (a b : Z) : exn + Z :=
  if b =? 0 then inl ZeroDivisionError else inr (a / b).

Definition intshare (n m : Z) : exn + list Z :=
  q ← py_floordiv n m;
  let x := replicate (Z.to_nat m) q in
  intshare_loop (length x) n x 0.

(** [[v] * n]. *)
Definition repeat_item (v n : Z) : list Z := replicate (Z.to_nat n) v.

Definition __init__ (dimension : Z) (budget : option Z) (num_workers : Z) : exn + t :=
  p ← Portfolio.__init__ dimension budget num_workers;
  match budget with
  | None => inl AssertionError
  | Some budget =>
      shares ← intshare (num_workers - 1) 4;
      match shares with
      | [nw1; nw2; nw3; nw4] =>
          let which_optim := repeat_item 0 nw1 ++ repeat_item 1 nw2 ++ repeat_item 2 nw3
                               ++ [3] ++ repeat_item 4 nw4 in
          if negb (Py.len which_optim =? num_workers) then inl AssertionError
          else
            optims ← Py.display
              [construct cls_CMA dimension None nw1;
               construct cls_TwoPointsDE dimension None nw2;
               construct cls_PSO dimension None nw3;
               construct cls_SQP dimension (Some 1) 1;
               b ← py_floordiv budget (Py.len which_optim);
               construct cls_ScrHammersleySearch dimension (Some (b * nw4)) 1];
            inr {| portfolio := Portfolio.set_who_asked ∅ (Portfolio.set_optims optims p);
                   which_optim := which_optim |}
      | _ => inl ValueError
      end
  end.

Definition _internal_ask : py t Point :=
  self ← get;
  i ← lift (Portfolio.py_mod (Base._num_ask (Portfolio.base (portfolio self)))
              (Py.len (which_optim self)));
  optim_index ← lift (Py.index (which_optim self) i);
  on_portfolio (Portfolio.dispatch optim_index).

Definition _internal_tell (x : Point) (value : float) : py t unit :=
  on_portfolio (Portfolio._internal_tell x value).

(** The second loop of [ParaSQPCMA.__init__]; [guess i] is the normal
    vector drawn at round [i]. *)
Definition sqp_members (dimension : Z) (guess : Z → Point) (rounds : list Z)
    : exn + list Sub :=
  Py.display ((λ i, sqp ← construct cls_SQP dimension (Some 1) 1;
                    inr (if 0 <? i then set_initial_guess (guess i) sqp else sqp)) <$> rounds).

Definition ParaSQPCMA__init__ (guess : Z → Point)
    (dimension : Z) (budget : option Z) (num_workers : Z) : exn + t :=
  self ← __init__ dimension budget num_workers;
  match budget with
  | None => inl AssertionError
  | Some budget =>
      let nw := num_workers / 2 in
      let which_optim := repeat_item 0 nw ++ ((λ i, i + 1) <$> Py.range 0 (num_workers - nw)) in
      if negb (Py.len which_optim =? num_workers) then inl AssertionError
      else
        cma ← construct cls_CMA dimension None nw;
        sqps ← sqp_members dimension guess (Py.range 0 (num_workers - nw));
        inr {| portfolio :=
                 Portfolio.set_who_asked ∅ (Portfolio.set_optims (cma :: sqps) (portfolio self));
               which_optim := which_optim |}
  end.

End methods.

End ParaPortfolio.

(** ** ASCMADEthird and the classes derived from it *)

Module ASCMADEthird.

(** [best_optim] is [None] or an integer. *)
Record t {members : Members} : Type := {
  portfolio : Portfolio.t;
  budget_before_choosing : Z;
  best_optim : option Z
}.

Section methods.
Context {members : Members}.

Definition set_portfolio (v : Portfolio.t) (self : t) : t :=
  {| portfolio := v; budget_before_choosing := budget_before_choosing self;
     best_optim := best_optim self |}.
Definition set_budget_before_choosing (v : Z) (self : t) : t :=
  {| portfolio := portfolio self; budget_before_choosing := v; best_optim := best_optim self |}.
Definition set_best_optim (v : option Z) (self : t) : t :=
  {| portfolio := portfolio self; budget_before_choosing := budget_before_choosing self;
     best_optim := v |}.

Definition on_portfolio {A} (m : py Portfolio.t A) : py t A :=
  λ self, let '(p, r) := m (portfolio self) in (set_portfolio p self, r).

(** [self.optims = l], in a constructor. *)
Definition with_optims (l : list Sub) (self : t) : t :=
  set_portfolio (Portfolio.set_optims l (portfolio self)) self.

Definition __init__ (dimension : Z) (budget : option Z) (num_workers : Z) : exn + t :=
  p ← Portfolio.__init__ dimension budget num_workers;
  match budget with
  | None => inl AssertionError
  | Some budget =>
      optims ← Py.display [construct cls_CMA dimension None num_workers;
                           construct cls_LhsDE dimension None num_workers];
      inr {| portfolio := Portfolio.set_who_asked ∅ (Portfolio.set_optims optims p);
             budget_before_choosing := budget / 3;
             best_optim := Some (-1) |}
  end.

(** [enumerate(l)]. *)
Definition enumerate {A} (l : list A) : list (Z * A) :=
  imap (λ i a, (Z.of_nat i, a)) l.

(** The [for] loop of the selection: the index and the value it ends
    with. *)
Definition select_best (optims : list Sub) : Z * float :=
  foldl (λ '(optim_index, best_value) '(i, optim),
           let val := sub_pessimistic optim in
           if negb (Float.gtb val best_value) then (i, val) else (optim_index, best_value))
        (-1, Float.inf) (enumerate optims).

(** The index [_internal_ask] delegates to. *)
Definition choose : py t Z :=
  self ← get;
  if 0 <? budget_before_choosing self then
    modify (set_budget_before_choosing (budget_before_choosing self - 1));;
    lift (Portfolio.py_mod (Base._num_ask (Portfolio.base (portfolio self)))
            (Py.len (Portfolio.optims (portfolio self))))
  else
    match best_optim self with
    | None =>
        let optim_index := (select_best (Portfolio.optims (portfolio self))).1 in
        modify (set_best_optim (Some optim_index));;
        mret optim_index
    | Some optim_index => mret optim_index
    end.

Definition _internal_ask : py t Point :=
  optim_index ← choose;
  on_portfolio (Portfolio.dispatch optim_index).

Definition _internal_tell (x : Point) (value : float) : py t unit :=
  on_portfolio (Portfolio._internal_tell x value).

(** Modelled from the spec: [base.Optimizer.ask], as for [Portfolio]. *)
Definition ask : py t Point :=
  x ← _internal_ask;
  on_portfolio (modify (λ p, Portfolio.set_base
                               (Base.set_num_ask (Base._num_ask (Portfolio.base p) + 1)
                                  (Portfolio.base p)) p));;
  mret x.

Definition three (c : optimizer_class) (dimension num_workers : Z) : exn + list Sub :=
  Py.display [construct c dimension None num_workers;
              construct c dimension None num_workers;
              construct c dimension None num_workers].

Definition ASCMADEQRthird__init__ (dimension : Z) (budget : option Z) (num_workers : Z)
    : exn + t :=
  self ← __init__ dimension budget num_workers;
  optims ← Py.display [construct cls_CMA dimension None num_workers;
                       construct cls_LhsDE dimension None num_workers;
                       construct cls_ScrHaltonSearch dimension None num_workers];
  inr (with_optims optims self).

Definition ASCMA2PDEthird__init__ (dimension : Z) (budget : option Z) (num_workers : Z)
    : exn + t :=
  self ← ASCMADEQRthird__init__ dimension budget num_workers;
  optims ← Py.display [construct cls_CMA dimension None num_workers;
                       construct cls_TwoPointsDE dimension None num_workers];
  inr (with_optims optims self).

Definition CMandAS2__init__ (dimension : Z) (budget : option Z) (num_workers : Z) : exn + t :=
  self ← __init__ dimension budget num_workers;
  optims ← Py.display [construct cls_TwoPointsDE dimension None num_workers];
  let self := with_optims optims self in
  match budget with
  | None => inl AssertionError
  | Some budget =>
      let self := set_budget_before_choosing (2 * budget) self in
      self ← (if budget <? 201
              then optims ← Py.display [construct cls_OnePlusOne dimension None num_workers];
                   inr (with_optims optims self)
              else inr self);
      if (50 * dimension <? budget) || (num_workers <? 30)
      then optims ← three cls_CMA dimension num_workers;
           inr (set_budget_before_choosing (budget / 10) (with_optims optims self))
      else inr self
  end.

Definition CMandAS__init__ (dimension : Z) (budget : option Z) (num_workers : Z) : exn + t :=
  self ← CMandAS2__init__ dimension budget num_workers;
  optims ← Py.display [construct cls_TwoPointsDE dimension None num_workers];
  let self := with_optims optims self in
  match budget with
  | None => inl AssertionError
  | Some budget =>
      let self := set_budget_before_choosing (2 * budget) self in
      self ← (if budget <? 201
              then optims ← Py.display [construct cls_OnePlusOne dimension None num_workers];
                   inr (set_budget_before_choosing (2 * budget) (with_optims optims self))
              else inr self);
      if (50 * dimension <? budget) || (num_workers <? 30)
      then optims ← Py.display [construct cls_CMA dimension None num_workers;
                                construct cls_CMA dimension None num_workers];
           inr (set_budget_before_choosing (budget / 3) (with_optims optims self))
      else inr self
  end.

Definition CM__init__ (dimension : Z) (budget : option Z) (num_workers : Z) : exn + t :=
  self ← CMandAS2__init__ dimension budget num_workers;
  match budget with
  | None => inl AssertionError
  | Some budget =>
      optims ← Py.display [construct cls_TwoPointsDE dimension None num_workers];
      let self := with_optims optims self in
      let self := set_budget_before_choosing (2 * budget) self in
      self ← (if budget <? 201
              then optims ← Py.display [construct cls_OnePlusOne dimension None num_workers];
                   inr (with_optims optims self)
              else inr self);
      if 50 * dimension <? budget
      then optims ← Py.display [construct cls_CMA dimension None num_workers];
           inr (with_optims optims self)
      else inr self
  end.

Definition MultiCMA__init__ (dimension : Z) (budget : option Z) (num_workers : Z) : exn + t :=
  self ← CM__init__ dimension budget num_workers;
  match budget with
  | None => inl AssertionError
  | Some budget =>
      optims ← three cls_CMA dimension num_workers;
      inr (set_budget_before_choosing (budget / 10) (with_optims optims self))
  end.

Definition TripleCMA__init__ (dimension : Z) (budget : option Z) (num_workers : Z) : exn + t :=
  self ← CM__init__ dimension budget num_workers;
  match budget with
  | None => inl AssertionError
  | Some budget =>
      optims ← three cls_CMA dimension num_workers;
      inr (set_budget_before_choosing (budget / 3) (with_optims optims self))
  end.

Definition MultiScaleCMA__init__ (dimension : Z) (budget : option Z) (num_workers : Z)
    : exn + t :=
  self ← CM__init__ dimension budget num_workers;
  optims ← Py.display [construct cls_CMA dimension None num_workers;
                       construct cls_MilliCMA dimension None num_workers;
                       construct cls_MicroCMA dimension None num_workers];
  let self := with_optims optims self in
  match budget with
  | None => inl AssertionError
  | Some budget => inr (set_budget_before_choosing (budget / 3) self)
  end.

End methods.

End ASCMADEthird.

(** * Instances for the examples *)

(** Mutation operators that hand their argument back. *)
Definition identity_mutations : Mutations :=
  {| discrete_mutation := λ x, x;
     doerr_discrete_mutation := λ x, x;
     doubledoerr_discrete_mutation := λ x, x;
     portfolio_discrete_mutation := λ x, x;
     crossover := λ x _, x;
     get_roulette := λ archive n, (λ kv, kv.1) <$> take (Z.to_nat n) archive |}.

(** A one-plus-one optimizer with the discrete mutation, as
    [DiscreteOnePlusOne] is registered. *)
Definition discrete_one_plus_one : OnePlusOne.t :=
  OnePlusOne.set_parameters
    {| OnePlusOne.noise_handling := None;
       OnePlusOne.mutation := "discrete";
       OnePlusOne.crossover_flag := false |}
    (OnePlusOne.__init__ 2 None 1).

(** Draws of an ask: a unit normal vector and a unit Cauchy vector. *)
Definition unit_draws : OnePlusOne.Draws :=
  {| OnePlusOne.choice := 0;
     OnePlusOne.normal := [Float.of_Z 1; Float.of_Z 1];
     OnePlusOne.standard_cauchy := [Float.of_Z 1; Float.of_Z 1] |}.


(** The values of [np.exp], [np.log], [**] and [norm.ppf] at the
    arguments the examples meet, where they are exact ([exp 0 = 1],
    [log 1 = 0], [1 ** y = 1], [x ** 2 = x * x], [ppf 0.5 = 0]), and
    nan elsewhere;
    [np.std] and [np.cov] by their textbook formulas, summing from the
    left. *)
Definition table_exp (x : float) : float :=
  if Float.eqb x Float.zero then Float.of_Z 1 else Float.nan.
Definition table_log (x : float) : float :=
  if Float.eqb x (Float.of_Z 1) then Float.zero else Float.nan.
Definition table_pow (x y : float) : float :=
  if Float.eqb y (Float.of_Z 2) then Float.mul x x
  else if Float.eqb x (Float.of_Z 1) then Float.of_Z 1 else Float.nan.
Definition table_ppf (x : float) : float :=
  if Float.eqb x (Float.lit 5 10) then Float.zero
  else if Float.eqb x Float.zero then S754_infinity true else Float.nan.

Definition mean_of (l : list float) : float := Float.div (Py.fsum l) (Float.of_Z (Py.len l)).
Definition textbook_std (l : list float) : float :=
  let m := mean_of l in
  Float.sqrt (mean_of ((λ x, Float.mul (Float.sub x m) (Float.sub x m)) <$> l)).

(** The coordinate [i] of every point. *)
Definition column (pop : list Point) (i : nat) : list float :=
  (λ p, default Float.nan (p !! i)) <$> pop.
Definition textbook_cov (pop : list Point) : Vec.Matrix :=
  let d := match pop with [] => 0%nat | p :: _ => length p end in
  let centred i := let m := mean_of (column pop i) in (λ x, Float.sub x m) <$> column pop i in
  (λ i, (λ j, Float.div (Py.fsum (zip_with Float.mul (centred i) (centred j)))
                        (Float.of_Z (Py.len pop - 1)))
          <$> seq 0 d) <$> seq 0 d.

Definition table_numerics : Numerics :=
  {| np_exp := table_exp; np_log := table_log; pow := table_pow;
     np_std := textbook_std; np_cov := textbook_cov; norm_ppf := table_ppf |}.

(** A solver double, as a test would write it: it keeps its population
    size and the batches it was told, and either accepts every batch
    or raises [RuntimeError] on every batch. *)
Definition solver_double (accepts : bool) : Solver :=
  {| ES := Z * list (list Point * list float);
     CMAEvolutionStrategy := λ x0 sigma0 popsize diagonal, (popsize, []);
     es_ask := λ e, (e, Returns (replicate (Z.to_nat e.1) [Float.zero]));
     es_tell := λ xs ys e,
       ((e.1, e.2 ++ [(xs, ys)]),
        if accepts then Returns tt else Raises (RuntimeError "rejected"));
     es_popsize := λ e, e.1;
     es_xbest := λ e, [Float.zero] |}.

(** Member doubles, as a test would write them: a member keeps its
    class, counts its asks, records what it is told, and estimates its
    best by the least value told (infinite when none was). Its [n]-th
    ask answers the point [(n)], so two members answer equal points.
    The construction of a CMA raises when the dimension is below one,
    as [CMA.__init__] does on the logarithm of the dimension:
    [OverflowError] at zero and [ValueError] below. *)
Record member_double : Type := {
  member_class : optimizer_class;
  asked : Z;
  told : list (Point * float);
  initial_guess : option Point
}.

Definition is_cma (c : optimizer_class) : bool :=
  match c with cls_CMA | cls_MilliCMA | cls_MicroCMA => true | _ => false end.

Definition new_double (c : optimizer_class) : member_double :=
  {| member_class := c; asked := 0; told := []; initial_guess := None |}.

Definition members_double : Members :=
  {| Sub := member_double;
     construct := λ c dimension budget num_workers,
       if is_cma c && (dimension <? 1)
       then inl (if dimension =? 0 then OverflowError else ValueError)
       else inr (new_double c);
     sub_ask := λ m,
       ({| member_class := member_class m; asked := asked m + 1; told := told m;
           initial_guess := initial_guess m |},
        Returns [Float.of_Z (asked m)]);
     sub_tell := λ x value m,
       ({| member_class := member_class m; asked := asked m; told := told m ++ [(x, value)];
           initial_guess := initial_guess m |},
        Returns tt);
     sub_pessimistic := λ m, foldl Float.min Float.inf (snd <$> told m);
     set_initial_guess := λ g m,
       {| member_class := member_class m; asked := asked m; told := told m;
          initial_guess := Some g |} |}.

(** * Properties *)

(** Unfolding of the method monad. *)
Ltac py_unfold :=
  unfold mbind, mret, py_mbind, py_mret, exn_mbind, exn_mret,
    Py.bind, Py.ret, Py.get, Py.gets, Py.modify, Py.raise, Py.assert, Py.lift in *.
Ltac py_simpl := py_unfold; simpl in *.

(** The same by reduction, leaving every other definition folded. *)
Ltac py_red :=
  unfold mbind, mret, py_mbind, py_mret, exn_mbind, exn_mret,
    Py.bind, Py.lift, Py.assert, Py.gets, Py.get, Py.modify, Py.raise, Py.ret;
  cbn [fst snd].

(** ** One-plus-one: the step size *)

Section one_plus_one.
Context {mutations : Mutations}.
Import OnePlusOne.

(** A tell returns, and changes [_sigma] alone. *)
Lemma tell_effect (self : t) (x : Point) (value : float) :
  _internal_tell x value self
  = (set_sigma (Float.mul (_sigma self)
                  (if Float.leb value (Base.mean (pessimistic self))
                   then Float.of_Z 2 else Float.lit 84 100)) self,
     Returns tt).
Proof. reflexivity. Qed.

Lemma tell_with_sigma (cb : string → Base.Best) (x : Point) (value : float) (self : t) :
  _sigma (tell_with cb x value self) = Float.mul (_sigma self) (factor (cb, x, value)).
Proof. reflexivity. Qed.

Lemma run_tells_sigma (script : list ((string → Base.Best) * Point * float)) (self : t) :
  _sigma (run_tells script self) = foldl Float.mul (_sigma self) (factor <$> script).
Proof.
  revert self. induction script as [|[[cb x] v] script IH]; intros self; [reflexivity|].
  unfold run_tells in *. simpl. rewrite IH. reflexivity.
Qed.

(** The mutations that read [_sigma] in [_internal_ask]. *)
Definition reads_sigma (p : Parameters) : bool :=
  str_eq (mutation p) "gaussian" || str_eq (mutation p) "cauchy".

Lemma ask_ignores_sigma (rng : Draws) (self : t) (sg : float) :
  reads_sigma (_parameters self) = false →
  snd (_internal_ask rng (set_sigma sg self)) = snd (_internal_ask rng self).
Proof.
  unfold reads_sigma. intros Hkind. apply orb_false_elim in Hkind as [Hg Hc].
  unfold _internal_ask. py_simpl.
  destruct (Base._num_ask (base self) =? 0); [reflexivity|].
  change (noisy_ask rng (set_sigma sg self)) with (noisy_ask rng self).
  change (pessimistic (set_sigma sg self)) with (pessimistic self).
  assert (Hmut : mutating rng (set_sigma sg self) = mutating rng self).
  { unfold mutating; simpl. rewrite Hg, Hc. reflexivity. }
  rewrite Hmut.
  destruct (noisy_ask rng self) as [[e|p]|]; simpl; try reflexivity.
  destruct (crossover_flag _ && _ && _); simpl; [reflexivity|].
  destruct (mutating rng self); reflexivity.
Qed.

(** C2 (as amended). A tell of the one-plus-one optimizer returns
    and multiplies the step size by 2 when the told value is at most
    the mean of the pessimistic best, by 0.84 otherwise, and touches
    nothing else; this holds whatever mutation is configured. After a
    script of tells the step size is the initial one multiplied, in
    turn, by the factors of the script. What Gaussian and Cauchy
    mutation have of their own is that they read the step size: under
    any other mutation an ask answers the same whatever the step size
    is. *)
Theorem one_fifth_rule_on_every_tell (self : t) (x : Point) (value : float)
    (script : list ((string → Base.Best) * Point * float)) (rng : Draws) (sg : float) :
  let self' := fst (_internal_tell x value self) in
  snd (_internal_tell x value self) = Returns tt
  ∧ _sigma self' = Float.mul (_sigma self)
                     (if Float.leb value (Base.mean (pessimistic self))
                      then Float.of_Z 2 else Float.lit 84 100)
  ∧ base self' = base self
  ∧ _parameters self' = _parameters self
  ∧ _sigma (run_tells script self) = foldl Float.mul (_sigma self) (factor <$> script)
  ∧ (reads_sigma (_parameters self) = false →
     snd (_internal_ask rng (set_sigma sg self)) = snd (_internal_ask rng self)).
Proof.
  rewrite tell_effect. simpl. repeat split.
  - apply run_tells_sigma.
  - apply ask_ignores_sigma.
Qed.

End one_plus_one.

(** The discrete optimizer after one ask: its second ask does not
    depend on the step size. *)
Lemma one_fifth_rule_witness :
  let self := OnePlusOne.set_base (Base.set_num_ask 1 (OnePlusOne.base discrete_one_plus_one))
                discrete_one_plus_one in
  reads_sigma (OnePlusOne._parameters self) = false
  ∧ snd (OnePlusOne._internal_ask (mutations := identity_mutations) unit_draws
           (OnePlusOne.set_sigma (Float.of_Z 8) self))
    = snd (OnePlusOne._internal_ask (mutations := identity_mutations) unit_draws self).
Proof.
  intros self. split; [reflexivity|].
  apply (one_fifth_rule_on_every_tell (mutations := identity_mutations) self [] Float.zero [] unit_draws
           (Float.of_Z 8)).
  reflexivity.
Defined.

(** C2 (as stated) fails: under the discrete mutation a tell of a
    value below the mean of the pessimistic best doubles the step
    size, from 1 to 2. *)
Lemma discrete_tell_doubles_sigma :
  let self := discrete_one_plus_one in
  let told := fst (OnePlusOne._internal_tell [Float.zero; Float.zero] (Float.of_Z 3) self) in
  OnePlusOne.ParametrizedOnePlusOne None "discrete" false = inr (OnePlusOne._parameters self)
  ∧ reads_sigma (OnePlusOne._parameters self) = false
  ∧ OnePlusOne._sigma self = Float.of_Z 1
  ∧ OnePlusOne._sigma told = Float.of_Z 2
  ∧ OnePlusOne._sigma told ≠ OnePlusOne._sigma self.
Proof.
  intros self told. repeat split; try (vm_compute; reflexivity).
  vm_compute. discriminate.
Qed.

(** ** CMA: the buffer of tells and the recommendation *)

Section cma.
Context {numerics : Numerics} {solver : Solver}.
Import CMA.

(** The solver a call works with: the one in place, or a fresh one. *)
Definition solver_of (self : t) : ES := default (new_es self) (es self).

(** The state once [x] and [value] are in the buffer. *)
Definition buffered (x : Point) (value : float) (self : t) : t :=
  set_listy (listy self ++ [value]) (set_listx (listx self ++ [x])
    (set_es (Some (solver_of self)) self)).

Lemma ensure_es_effect (self : t) :
  ensure_es self = (set_es (Some (solver_of self)) self, Returns (solver_of self)).
Proof.
  unfold ensure_es, solver_of. py_simpl.
  destruct self as [b [e|] i lx ly q]; reflexivity.
Qed.

(** What [_internal_tell] does, case by case. *)
Lemma tell_cases (x : Point) (value : float) (self : t) :
  _internal_tell x value self =
  let self1 := buffered x value self in
  if es_popsize (solver_of self) <=? Py.len (listx self1) then
    match es_tell (listx self1) (listy self1) (solver_of self) with
    | (e', Returns _) => (set_listy [] (set_listx [] (set_es (Some e') self1)), Returns tt)
    | (e', Raises (RuntimeError _)) => (set_es (Some e') self1, Returns tt)
    | (e', Raises e) => (set_es (Some e') self1, Raises e)
    end
  else (self1, Returns tt).
Proof.
  unfold _internal_tell. unfold mbind at 1. unfold py_mbind, Py.bind.
  rewrite ensure_es_effect. py_simpl. unfold on_es, try_tell, on_es. simpl.
  destruct (es_popsize (solver_of self) <=? _); [|reflexivity].
  simpl.
  destruct (es_tell _ _ _) as [e' [[]|[]]]; reflexivity.
Qed.

Lemma ask_installs_solver (self : t) : is_Some (es (fst (_internal_ask self))).
Proof.
  unfold _internal_ask. unfold mbind at 1. unfold py_mbind, Py.bind.
  rewrite ensure_es_effect. py_simpl. unfold on_es. simpl.
  destruct (bool_decide (to_be_asked self = [])); simpl.
  - destruct (es_ask (solver_of self)) as [e' [batch|e]]; simpl; [|eauto].
    destruct (to_be_asked self ++ batch); simpl; eauto.
  - destruct (to_be_asked self); simpl; eauto.
Qed.

Lemma tell_installs_solver (x : Point) (value : float) (self : t) :
  is_Some (es (fst (_internal_tell x value self))).
Proof.
  rewrite tell_cases. simpl.
  destruct (es_popsize (solver_of self) <=? _); [|simpl; eauto].
  destruct (es_tell _ _ _) as [e' [[]|[]]]; simpl; eauto.
Qed.

(** C5 (as amended). A tell of CMA appends the pair to the buffer.
    Below the population size of the solver nothing else happens.
    From the population size on, the whole buffer is submitted: when
    the solver accepts it the buffer is emptied; when the solver
    raises [RuntimeError] the tell still returns, and the buffer is
    left as submitted, so the next tell adds to the rejected points
    and submits them again. *)
Theorem cma_tell_keeps_a_rejected_batch (x : Point) (value : float) (self : t) :
  let e := solver_of self in
  let self1 := buffered x value self in
  listx self1 = listx self ++ [x]
  ∧ listy self1 = listy self ++ [value]
  ∧ (Py.len (listx self1) < es_popsize e → _internal_tell x value self = (self1, Returns tt))
  ∧ (es_popsize e ≤ Py.len (listx self1) →
     ∀ e', es_tell (listx self1) (listy self1) e = (e', Returns tt) →
     _internal_tell x value self
     = (set_listy [] (set_listx [] (set_es (Some e') self1)), Returns tt))
  ∧ (es_popsize e ≤ Py.len (listx self1) →
     ∀ e' msg, es_tell (listx self1) (listy self1) e = (e', Raises (RuntimeError msg)) →
     let self2 := fst (_internal_tell x value self) in
     snd (_internal_tell x value self) = Returns tt
     ∧ es self2 = Some e'
     ∧ listx self2 = listx self ++ [x]
     ∧ listy self2 = listy self ++ [value]
     ∧ ∀ x' value', listx (buffered x' value' self2) = listx self ++ [x; x']).
Proof.
  intros e self1. rewrite tell_cases. subst e self1. cbv zeta.
  split; [reflexivity|]. split; [reflexivity|]. split; [|split].
  - intros Hlt. apply Z.leb_gt in Hlt. rewrite Hlt. reflexivity.
  - intros Hle e' Hacc. apply Z.leb_le in Hle. rewrite Hle, Hacc. reflexivity.
  - intros Hle e' msg Hrej. apply Z.leb_le in Hle. rewrite Hle, Hrej. simpl.
    repeat split. intros x' value'. rewrite <- app_assoc. reflexivity.
Qed.

(** C6. A CMA that has neither asked nor told hands the exception
    back as its recommendation: the call returns normally, with a
    [RuntimeError] object as its value. This is so for every freshly
    constructed CMA. Once a solver is in place, and every ask and every
    tell puts one in place, the recommendation is the solver's best
    point; the state is the same before and after in both cases. *)
Theorem cma_recommendation_returns_the_exception (self : t) (e : ES) (x : Point) (value : float)
    (dimension : Z) (budget : option Z) (num_workers : Z) :
  _internal_provide_recommendation (set_es None self)
  = (set_es None self,
     Returns (ExceptionObject
                (RuntimeError "Either ask or tell method should have been called before")))
  ∧ match __init__ dimension budget num_workers with
    | inr fresh =>
        _internal_provide_recommendation fresh
        = (fresh,
           Returns (ExceptionObject
                      (RuntimeError "Either ask or tell method should have been called before")))
    | inl _ => True
    end
  ∧ _internal_provide_recommendation (set_es (Some e) self)
    = (set_es (Some e) self, Returns (Array (es_xbest e)))
  ∧ is_Some (es (fst (_internal_ask self)))
  ∧ is_Some (es (fst (_internal_tell x value self))).
Proof.
  split; [reflexivity|]. split.
  - unfold __init__. py_simpl. destruct (Py.int _); [exact I|reflexivity].
  - split; [reflexivity|]. split; [apply ask_installs_solver|apply tell_installs_solver].
Qed.

End cma.

(** Four tells to a CMA of dimension one, whose solver has population
    size four and rejects what it is told, and a fifth. *)
Definition four_points : list (Point * float) :=
  [([Float.of_Z 1], Float.of_Z 1); ([Float.of_Z 2], Float.of_Z 2);
   ([Float.of_Z 3], Float.of_Z 3); ([Float.of_Z 4], Float.of_Z 4)].

Definition cma_tell_all {solver : Solver} (l : list (Point * float)) (self : CMA.t) : CMA.t :=
  foldl (λ s '(x, v), fst (CMA._internal_tell x v s)) self l.

Definition fresh_cma : CMA.t (solver := solver_double false) :=
  match CMA.__init__ (numerics := table_numerics) (solver := solver_double false) 1 None 1 with
  | inr self => self
  | inl _ => CMA.Build_t _ (Base.__init__ 1 None 1) None (CMA.Build_cma_init [] Float.zero 0 false)
               [] [] []
  end.

(** The fourth tell above: the submission is rejected and the buffer
    stays. *)
Lemma cma_tell_witness :
  let self := cma_tell_all (solver := solver_double false) (take 3 four_points) fresh_cma in
  let told := fst (CMA._internal_tell (solver := solver_double false)
                     [Float.of_Z 4] (Float.of_Z 4) self) in
  CMA.__init__ (numerics := table_numerics) (solver := solver_double false) 1 None 1
  = inr fresh_cma
  ∧ CMA.listx told = fst <$> four_points
  ∧ CMA.listx (buffered (solver := solver_double false) [Float.of_Z 5] (Float.of_Z 5) told)
    = (fst <$> four_points) ++ [[Float.of_Z 5]].
Proof.
  intros self told. split; [reflexivity|].
  destruct (cma_tell_keeps_a_rejected_batch (solver := solver_double false)
              [Float.of_Z 4] (Float.of_Z 4) self) as (_ & _ & _ & _ & Hrej).
  specialize (Hrej ltac:(vm_compute; discriminate) _ "rejected" eq_refl).
  destruct Hrej as (_ & _ & Hx & _ & Hnext).
  split; [exact Hx|exact (Hnext [Float.of_Z 5] (Float.of_Z 5))].
Defined.

(** C5 (as stated) fails: after the fourth tell the solver has been
    told the four points and has raised [RuntimeError], and the buffer
    still holds these four points; the fifth tell submits them again,
    with the fifth point. *)
Lemma cma_buffer_survives_rejection :
  let told := cma_tell_all (solver := solver_double false) four_points fresh_cma in
  let again := fst (CMA._internal_tell (solver := solver_double false)
                      [Float.of_Z 5] (Float.of_Z 5) told) in
  let batch := (fst <$> four_points, snd <$> four_points) in
  let batch' := (batch.1 ++ [[Float.of_Z 5]], batch.2 ++ [Float.of_Z 5]) in
  es_popsize (solver_of fresh_cma) = 4
  ∧ snd (es_tell (Solver := solver_double false) batch.1 batch.2 (4, []))
    = Raises (RuntimeError "rejected")
  ∧ CMA.es told = Some (4, [batch])
  ∧ CMA.listx told = batch.1
  ∧ CMA.listy told = batch.2
  ∧ CMA.es again = Some (4, [batch; batch'])
  ∧ CMA.listx again = batch'.1.
Proof. repeat split. Qed.

(** ** Python sequences *)

Lemma in_range_true (i n : Z) : 0 ≤ i < n → (0 <=? i) && (i <? n) = true.
Proof. intros. apply andb_true_intro. split; [apply Z.leb_le|apply Z.ltb_lt]; lia. Qed.

Lemma in_range_false (i n : Z) : ¬ (0 ≤ i < n) → (0 <=? i) && (i <? n) = false.
Proof.
  intros. apply andb_false_iff.
  destruct (Z.leb_spec 0 i); [right; apply Z.ltb_ge; lia|left; reflexivity].
Qed.

Lemma index_nonneg {A} (l : list A) (i : nat) (a : A) :
  l !! i = Some a → Py.index l (Z.of_nat i) = inr a.
Proof.
  intros Hi. unfold Py.index. pose proof (lookup_lt_Some _ _ _ Hi) as Hlt.
  replace (Z.of_nat i <? 0) with false by lia.
  rewrite in_range_true by lia.
  rewrite Nat2Z.id, Hi. reflexivity.
Qed.

Lemma index_minus_one {A} (l : list A) :
  Py.index l (-1) = match last l with Some a => inr a | None => inl IndexError end.
Proof.
  unfold Py.index. simpl. destruct l as [|a l] using rev_ind; [reflexivity|].
  rewrite last_snoc, length_app. simpl.
  rewrite in_range_true by lia.
  replace (Z.to_nat (-1 + Z.of_nat (length l + 1))) with (length l) by lia.
  rewrite lookup_app_r, Nat.sub_diag by lia. reflexivity.
Qed.

Lemma set_item_minus_one {A} (l : list A) (a b : A) :
  Py.set_item (l ++ [a]) (-1) b = inr (l ++ [b]).
Proof.
  unfold Py.set_item. simpl. rewrite length_app. simpl.
  rewrite in_range_true by lia.
  replace (Z.to_nat (-1 + Z.of_nat (length l + 1))) with (length l + 0)%nat by lia.
  rewrite insert_app_r. reflexivity.
Qed.

(** ** Active selection: which member is asked *)

Section selection.
Context {members : Members}.
Import ASCMADEthird.

Lemma choose_round_robin (self : t) :
  0 < budget_before_choosing self →
  choose self
  = Py.lift (Portfolio.py_mod (Base._num_ask (Portfolio.base (portfolio self)))
               (Py.len (Portfolio.optims (portfolio self))))
      (set_budget_before_choosing (budget_before_choosing self - 1) self).
Proof.
  intros Hpos. unfold choose. py_simpl.
  apply Z.ltb_lt in Hpos. rewrite Hpos. reflexivity.
Qed.

Lemma choose_committed (self : t) (i : Z) :
  budget_before_choosing self ≤ 0 → best_optim self = Some i →
  choose self = (self, Returns i).
Proof.
  intros Hle Hbest. unfold choose. py_simpl.
  replace (0 <? budget_before_choosing self) with false by lia.
  rewrite Hbest. reflexivity.
Qed.

Lemma choose_keeps_best_optim (self : t) (i : Z) :
  best_optim self = Some i → best_optim (fst (choose self)) = Some i.
Proof.
  intros Hbest. unfold choose. py_simpl.
  destruct (0 <? budget_before_choosing self); simpl.
  - destruct (Portfolio.py_mod _ _); simpl; exact Hbest.
  - rewrite Hbest. simpl. exact Hbest.
Qed.

Lemma ask_keeps_best_optim (self : t) (i : Z) :
  best_optim self = Some i → best_optim (fst (_internal_ask self)) = Some i.
Proof.
  intros Hbest. unfold _internal_ask. py_simpl.
  pose proof (choose_keeps_best_optim self i Hbest) as Hc.
  destruct (choose self) as [self' [k|e]]; simpl in *; [|exact Hc].
  unfold on_portfolio. destruct (Portfolio.dispatch k (portfolio self')); simpl. exact Hc.
Qed.

(** A constructor that fails, or leaves [best_optim] at [-1]. *)
Definition leaves_minus_one (r : exn + t) : Prop :=
  match r with inr self => best_optim self = Some (-1) | inl _ => True end.

Lemma bind_leaves_minus_one {A} (r : exn + A) (k : A → exn + t) :
  (∀ a, leaves_minus_one (k a)) → leaves_minus_one (r ≫= k).
Proof. destruct r as [e|a]; simpl; [intros _; exact I|intros Hk; apply Hk]. Qed.

Lemma init_leaves_minus_one (dimension : Z) (budget : option Z) (num_workers : Z) :
  leaves_minus_one (__init__ dimension budget num_workers).
Proof.
  unfold __init__. apply bind_leaves_minus_one. intros p.
  destruct budget; [|exact I]. apply bind_leaves_minus_one. intros optims. reflexivity.
Qed.

Lemma then_leaves_minus_one (r : exn + t) (k : t → exn + t) :
  leaves_minus_one r → (∀ self, best_optim self = Some (-1) → leaves_minus_one (k self)) →
  leaves_minus_one (r ≫= k).
Proof. destruct r as [e|self]; simpl; [intros _ _; exact I|intros Hr Hk; apply Hk, Hr]. Qed.

Lemma bind_inr {A B} (a : A) (k : A → exn + B) : inr a ≫= k = k a.
Proof. reflexivity. Qed.

Lemma bind_inl {A B} (e : exn) (k : A → exn + B) : inl e ≫= k = inl e.
Proof. reflexivity. Qed.

Ltac minus_one_step :=
  intros self Hself;
  repeat first
    [ exact I
    | match goal with
      | |- leaves_minus_one (inr _) => simpl; exact Hself
      | |- leaves_minus_one (inr _ ≫= _) => rewrite bind_inr; cbv beta
      | |- leaves_minus_one (inl _ ≫= _) => rewrite bind_inl
      | |- leaves_minus_one ((if ?b then _ else _) ≫= _) => destruct b
      | |- leaves_minus_one ((?r ≫= _) ≫= _) =>
          destruct r; [rewrite bind_inl|rewrite bind_inr; cbv beta]
      | |- leaves_minus_one (match ?b with Some _ => _ | None => _ end) => destruct b
      | |- leaves_minus_one (if ?b then _ else _) => destruct b
      | |- leaves_minus_one (let _ := _ in _) => cbv zeta
      end
    | apply bind_leaves_minus_one; intros ? ].

Lemma CMandAS2_leaves_minus_one (dimension : Z) (budget : option Z) (num_workers : Z) :
  leaves_minus_one (CMandAS2__init__ dimension budget num_workers).
Proof. apply then_leaves_minus_one; [apply init_leaves_minus_one|minus_one_step]. Qed.

Lemma CM_leaves_minus_one (dimension : Z) (budget : option Z) (num_workers : Z) :
  leaves_minus_one (CM__init__ dimension budget num_workers).
Proof. apply then_leaves_minus_one; [apply CMandAS2_leaves_minus_one|minus_one_step]. Qed.

Lemma every_constructor_leaves_minus_one (dimension : Z) (budget : option Z) (num_workers : Z) :
  Forall (λ init, leaves_minus_one (init dimension budget num_workers))
    [__init__; ASCMADEQRthird__init__; ASCMA2PDEthird__init__; CMandAS2__init__;
     CMandAS__init__; CM__init__; MultiCMA__init__; TripleCMA__init__; MultiScaleCMA__init__].
Proof.
  assert (HQR : leaves_minus_one (ASCMADEQRthird__init__ dimension budget num_workers)).
  { apply then_leaves_minus_one; [apply init_leaves_minus_one|minus_one_step]. }
  repeat apply Forall_cons_2; try apply Forall_nil_2;
    try apply init_leaves_minus_one; try apply CMandAS2_leaves_minus_one;
    try apply CM_leaves_minus_one; try exact HQR.
  - apply then_leaves_minus_one; [exact HQR|minus_one_step].
  - apply then_leaves_minus_one; [apply CMandAS2_leaves_minus_one|minus_one_step].
  - apply then_leaves_minus_one; [apply CM_leaves_minus_one|minus_one_step].
  - apply then_leaves_minus_one; [apply CM_leaves_minus_one|minus_one_step].
  - apply then_leaves_minus_one; [apply CM_leaves_minus_one|minus_one_step].
Qed.

(** C7. The asks of the initial phase go round the members. After
    it, an optimizer whose [best_optim] is [-1] asks its last member,
    and it stays so: the selection loop, which runs when [best_optim]
    is [None], is not reached. Every constructor of the family leaves
    [best_optim] at [-1]. So the member asked after the phase is the
    last one of the list and not the one with the lowest pessimistic
    estimate. *)
Theorem ascmade_asks_its_last_member (self : t) (l : list Sub) (o : Sub)
    (dimension : Z) (budget : option Z) (num_workers : Z) :
  budget_before_choosing self ≤ 0 →
  best_optim self = Some (-1) →
  Portfolio.optims (portfolio self) = l ++ [o] →
  let self' := fst (_internal_ask self) in
  snd (_internal_ask self) = snd (sub_ask o)
  ∧ Portfolio.optims (portfolio self') = l ++ [fst (sub_ask o)]
  ∧ (∀ x, snd (sub_ask o) = Returns x →
     Portfolio.who_asked (portfolio self')
     = Ledger.append (Py.key x) (-1) (Portfolio.who_asked (portfolio self)))
  ∧ best_optim self' = Some (-1)
  ∧ budget_before_choosing self' = budget_before_choosing self
  ∧ Forall (λ init, leaves_minus_one (init dimension budget num_workers))
      [__init__; ASCMADEQRthird__init__; ASCMA2PDEthird__init__; CMandAS2__init__;
       CMandAS__init__; CM__init__; MultiCMA__init__; TripleCMA__init__; MultiScaleCMA__init__].
Proof.
  intros Hphase Hbest Hoptims self'. subst self'.
  unfold _internal_ask. unfold mbind, py_mbind, Py.bind.
  rewrite (choose_committed self (-1) Hphase Hbest).
  unfold on_portfolio, Portfolio.dispatch. py_simpl. unfold Portfolio.on_optim.
  rewrite Hoptims, index_minus_one, last_snoc.
  destruct (sub_ask o) as [o' [x|e]] eqn:Hask; simpl;
    rewrite set_item_minus_one; simpl.
  - repeat split; try assumption.
    + intros x' Hx. injection Hx as ->. reflexivity.
    + apply every_constructor_leaves_minus_one.
  - repeat split; try assumption.
    + intros x' Hx. discriminate.
    + apply every_constructor_leaves_minus_one.
Qed.

End selection.

(** ASCMADEthird with a budget of three: one ask of the initial phase,
    answered by the first member (CMA), and the tell of the value 1
    for it. The first member then has the lowest estimate. *)
Definition after_the_phase : ASCMADEthird.t (members := members_double) :=
  match ASCMADEthird.__init__ (members := members_double) 1 (Some 3) 1 with
  | inr self =>
      fst (ASCMADEthird._internal_tell [Float.of_Z 0] (Float.of_Z 1) (fst (ASCMADEthird.ask self)))
  | inl _ =>
      ASCMADEthird.Build_t _ (Portfolio.Build_t _ (Base.__init__ 1 None 1) [] ∅) 0 None
  end.

(** The next ask goes to the second, last member (LhsDE), which has
    been told nothing. *)
Lemma ascmade_last_member_witness :
  let self := after_the_phase in
  let optims := Portfolio.optims (ASCMADEthird.portfolio self) in
  ASCMADEthird.budget_before_choosing self = 0
  ∧ member_class <$> optims = [cls_CMA; cls_LhsDE]
  ∧ told <$> optims = [[([Float.of_Z 0], Float.of_Z 1)]; []]
  ∧ ASCMADEthird.select_best (members := members_double) optims = (0, Float.of_Z 1)
  ∧ asked <$> Portfolio.optims (ASCMADEthird.portfolio (fst (ASCMADEthird._internal_ask self)))
    = [1; 1]
  ∧ Portfolio.who_asked (ASCMADEthird.portfolio (fst (ASCMADEthird._internal_ask self)))
      !! [Float.of_Z 0] = Some [-1].
Proof.
  intros self optims.
  destruct (ascmade_asks_its_last_member (members := members_double) self
              (take 1 optims) (default (new_double cls_LhsDE) (last optims)) 1 None 1)
    as (_ & Hoptims & Hwho & _); [vm_compute; discriminate|reflexivity|reflexivity|].
  split; [reflexivity|]. split; [reflexivity|]. split; [reflexivity|].
  split; [vm_compute; reflexivity|].
  split; [rewrite Hoptims; reflexivity|].
  rewrite (Hwho [Float.of_Z 0] eq_refl). reflexivity.
Defined.

(** ** Portfolios: the budget at construction *)

(** C10. The base class takes [budget = None], and so do the
    optimizers that stand alone (here SPSA, whose gain then uses
    [A = 10]); every class of the portfolio family raises
    [AssertionError] on it, whatever the dimension and the number of
    workers: [Portfolio], [ParaPortfolio], [ParaSQPCMA], [ASCMADEthird]
    and the eight classes derived from it. *)
Theorem portfolios_reject_a_missing_budget {members : Members}
    (dimension num_workers : Z) (guess : Z → Point) :
  Base.budget (Base.__init__ dimension None num_workers) = None
  ∧ (0 ≤ dimension →
     ∃ spsa, SPSA.__init__ dimension None num_workers = inr spsa ∧ SPSA.A spsa = 10)
  ∧ Portfolio.__init__ dimension None num_workers = inl AssertionError
  ∧ ParaPortfolio.__init__ dimension None num_workers = inl AssertionError
  ∧ ParaPortfolio.ParaSQPCMA__init__ guess dimension None num_workers = inl AssertionError
  ∧ Forall (λ init, init dimension None num_workers = inl AssertionError)
      [ASCMADEthird.__init__; ASCMADEthird.ASCMADEQRthird__init__;
       ASCMADEthird.ASCMA2PDEthird__init__; ASCMADEthird.CMandAS2__init__;
       ASCMADEthird.CMandAS__init__; ASCMADEthird.CM__init__;
       ASCMADEthird.MultiCMA__init__; ASCMADEthird.TripleCMA__init__;
       ASCMADEthird.MultiScaleCMA__init__].
Proof.
  split; [reflexivity|]. split.
  - intros Hd. unfold SPSA.__init__. replace (dimension <? 0) with false by lia. eauto.
  - split; [reflexivity|]. split; [reflexivity|]. split; [reflexivity|].
    repeat constructor.
Qed.

(** With a budget, the same constructors build an optimizer: the
    assertion is what stops them above. *)
Lemma portfolios_reject_a_missing_budget_witness :
  (∃ spsa, SPSA.__init__ 2 None 1 = inr spsa ∧ SPSA.A spsa = 10)
  ∧ Portfolio.__init__ (members := members_double) 2 None 1 = inl AssertionError
  ∧ is_Some (match Portfolio.__init__ (members := members_double) 2 (Some 100) 1 with
             | inr p => Some p | inl _ => None end).
Proof.
  destruct (portfolios_reject_a_missing_budget (members := members_double) 2 1 (λ _, []))
    as (_ & Hspsa & Hp & _).
  split; [apply Hspsa; lia|]. split; [exact Hp|]. simpl. eauto.
Defined.

(** ** SPSA: the two-call cycle *)

Section spsa.
Context {numerics : Numerics}.
Import SPSA.

(** The states an SPSA optimizer goes through: a constructed one, and
    what asks and tells, in any order, make of it. *)
Inductive reachable : t → Prop :=
| reachable_init dimension budget num_workers self :
    __init__ dimension budget num_workers = inr self → reachable self
| reachable_ask bits self :
    reachable self → reachable (fst (_internal_ask bits self))
| reachable_tell x value self :
    reachable self → reachable (fst (_internal_tell x value self)).

(** [idx] counts the tells; the first fills [ym], the second [yp], and
    [init] falls when both are filled. *)
Definition cycle_invariant (self : t) : Prop :=
  0 ≤ idx self
  ∧ (init self = true ↔ idx self < 2)
  ∧ (is_Some (ym self) ↔ 1 ≤ idx self)
  ∧ (is_Some (yp self) ↔ 2 ≤ idx self).

(** The perturbation drawn from [bits]. *)
Definition fresh_delta (bits : list Z) : Delta := IntArray ((λ b, 2 * b - 1) <$> bits).

Lemma ask_keeps_the_cycle (bits : list Z) (self : t) :
  let self' := fst (_internal_ask bits self) in
  idx self' = idx self ∧ init self' = init self ∧ ym self' = ym self ∧ yp self' = yp self
  ∧ c self' = c self ∧ a self' = a self ∧ A self' = A self.
Proof.
  unfold _internal_ask. py_simpl.
  destruct (idx self mod 2 =? 0); simpl.
  - destruct (init self) eqn:Hi; simpl.
    + destruct (ck _ _); simpl; repeat split; assumption.
    + destruct (yp self) as [p|] eqn:Hp, (ym self) as [m|] eqn:Hm; simpl;
        try (repeat split; assumption).
      destruct (gradient_gain self (idx self) p m); simpl; [repeat split; assumption|].
      destruct (ck _ _); simpl; repeat split; assumption.
  - destruct (ck _ _); simpl; repeat split.
Qed.

(** Linear arithmetic with [mod 2]. *)
Ltac parity := solve [lia | Z.div_mod_to_equations; lia].

(** The arithmetic content of the invariant, field by field. *)
Ltac cycle_facts :=
  repeat match goal with
         | H : true = true ↔ _ |- _ => apply proj1 in H; specialize (H eq_refl)
         | H : false = true ↔ ?P |- _ =>
             assert (¬ P) by (let X := fresh in intros X; apply H in X; discriminate); clear H
         | H : is_Some (Some _) ↔ _ |- _ => apply proj1 in H; specialize (H ltac:(eauto))
         | H : is_Some None ↔ ?P |- _ =>
             assert (¬ P)
               by (let X := fresh in intros X; apply H in X; destruct X; discriminate);
             clear H
         | H : (_ =? _) = true |- _ => apply Z.eqb_eq in H
         | H : (_ =? _) = false |- _ => apply Z.eqb_neq in H
         end.

Lemma tell_effect_spsa (x : Point) (value : float) (self : t) :
  cycle_invariant self →
  _internal_tell x value self
  = (set_init (bool_decide (idx self < 1))
       (set_idx (idx self + 1)
          (if idx self mod 2 =? 0 then set_ym (Some value) self else set_yp (Some value) self)),
     Returns tt).
Proof.
  intros (Hidx & Hinit & Hym & Hyp).
  destruct self as [b i k d m p tt av A c a]. simpl in *.
  unfold _internal_tell. py_simpl.
  destruct (k mod 2 =? 0) eqn:Hpar; simpl;
    destruct i, m as [m|], p as [p|]; simpl; cycle_facts;
    try (exfalso; parity);
    unfold set_init, set_idx, set_ym, set_yp; simpl;
    repeat case_bool_decide; try reflexivity; try (exfalso; parity).
Qed.

Lemma reachable_invariant (self : t) : reachable self → cycle_invariant self.
Proof.
  induction 1 as [d b nw self Hinit|bits self Hr IH|x value self Hr IH].
  - unfold __init__ in Hinit. destruct (d <? 0); [discriminate|].
    injection Hinit as <-. unfold cycle_invariant. simpl.
    repeat split; try lia; intros; try reflexivity;
      match goal with H : is_Some None |- _ => destruct H; discriminate end.
  - destruct (ask_keeps_the_cycle bits self) as (Hi & Hn & Hm & Hp & _).
    unfold cycle_invariant. rewrite Hi, Hn, Hm, Hp. exact IH.
  - rewrite (tell_effect_spsa x value self IH).
    destruct IH as (Hidx & Hinit & Hym & Hyp). unfold cycle_invariant.
    destruct self as [b i k d m p tt av A c a]. simpl in *.
    destruct (k mod 2 =? 0) eqn:Hpar; simpl;
      destruct i, m as [m|], p as [p|]; cycle_facts; try (exfalso; parity);
      repeat split; intros; try parity; try (case_bool_decide; (reflexivity || parity));
      try (eexists; reflexivity);
      repeat match goal with
             | H : is_Some None |- _ => destruct H; discriminate
             | H : bool_decide _ = true |- _ => apply bool_decide_eq_true in H
             end; try parity.
Qed.

(** The gradient step and the running average of an even ask past the
    first cycle. *)
Definition stepped (self : t) (a_k c_k y_plus y_minus : float) : Point :=
  minus (t_ self)
    (times_delta
       (Float.div (Float.div (Float.mul a_k (Float.sub y_plus y_minus)) (Float.of_Z 2)) c_k)
       (delta self)).
Definition averaged (self : t) (t' : Point) : Point :=
  Vec.add (avg self) (Vec.div (Vec.sub t' (avg self)) (Float.of_Z (idx self / 2 + 1))).

(** C9. In every state SPSA reaches, with [k] the number of tells so
    far: the gains are [c / (k//2 + 1) ** 0.101] and
    [a / (k//2 + 1 + A) ** 0.602]; a tell stores the value in [ym]
    when [k] is even and in [yp] when [k] is odd, and makes [k] one
    more; an ask at an even [k] draws a fresh perturbation and answers
    [t - c_k * delta], after leaving [t] and [avg] alone when [k = 0]
    and, from [k = 2] on, after the step
    [t -= a_k * (yp - ym) / 2 / c_k * delta] on the stored pair and
    previous perturbation and the update
    [avg += (t - avg) / (k//2 + 1)]; an ask at an odd [k] changes
    nothing and answers [t + c_k * delta]. *)
Theorem spsa_two_call_cycle (self : t) (bits : list Z) (x : Point) (value : float) :
  reachable self →
  let k := idx self in
  ck self k = Py.truediv (c self) (pow (Float.of_Z (k / 2 + 1)) (Float.lit 101 1000))
  ∧ ak self k = Py.truediv (a self) (pow (Float.of_Z (k / 2 + 1 + A self)) (Float.lit 602 1000))
  ∧ _internal_tell x value self
    = (set_init (bool_decide (k < 1))
         (set_idx (k + 1)
            (if k mod 2 =? 0 then set_ym (Some value) self else set_yp (Some value) self)),
       Returns tt)
  ∧ (k = 0 → ∀ c_k, ck self k = inr c_k →
     _internal_ask bits self
     = (set_delta (fresh_delta bits) self,
        Returns (minus (t_ self) (times_delta c_k (fresh_delta bits)))))
  ∧ (k mod 2 = 0 → k ≠ 0 →
     ∃ y_plus y_minus, yp self = Some y_plus ∧ ym self = Some y_minus
     ∧ ∀ a_k c_k, ak self k = inr a_k → ck self k = inr c_k →
       let t' := stepped self a_k c_k y_plus y_minus in
       _internal_ask bits self
       = (set_delta (fresh_delta bits) (set_avg (averaged self t') (set_t_ t' self)),
          Returns (minus t' (times_delta c_k (fresh_delta bits)))))
  ∧ (k mod 2 = 1 → ∀ c_k, ck self k = inr c_k →
     _internal_ask bits self = (self, Returns (plus (t_ self) (times_delta c_k (delta self))))).
Proof.
  intros Hreach k. pose proof (reachable_invariant self Hreach) as Hinv.
  split; [reflexivity|]. split; [reflexivity|].
  split; [apply tell_effect_spsa, Hinv|].
  destruct Hinv as (Hidx & Hinit & Hym & Hyp). subst k.
  split; [|split].
  - intros Hk c_k Hck. unfold _internal_ask. py_simpl. rewrite Hk in *. simpl.
    assert (init self = true) as -> by (apply Hinit; lia). simpl.
    change (ck (set_delta (IntArray ((λ b, 2 * b - 1) <$> bits)) self) 0) with (ck self 0).
    rewrite Hck. reflexivity.
  - intros Hpar Hk.
    assert (2 ≤ idx self) as Hge by parity.
    assert (init self = false) as Hi.
    { destruct (init self); [|reflexivity]. assert (idx self < 2) by (apply Hinit; reflexivity). lia. }
    destruct (proj2 Hyp Hge) as [y_plus Hp]. destruct (proj2 Hym ltac:(lia)) as [y_minus Hm].
    exists y_plus, y_minus. split; [exact Hp|]. split; [exact Hm|].
    intros a_k c_k Hak Hck t'. unfold _internal_ask. py_simpl.
    replace (idx self mod 2 =? 0) with true by (symmetry; apply Z.eqb_eq; exact Hpar).
    rewrite Hi, Hp, Hm. simpl. unfold gradient_gain. py_simpl. rewrite Hak, Hck. simpl.
    match goal with
    | |- context [ck ?s (idx self)] =>
        change (ck s (idx self)) with (ck self (idx self))
    end.
    rewrite Hck. reflexivity.
  - intros Hpar c_k Hck. unfold _internal_ask. py_simpl.
    replace (idx self mod 2 =? 0) with false by (symmetry; apply Z.eqb_neq; lia).
    rewrite Hck. reflexivity.
Qed.

End spsa.

(** SPSA in dimension one after its first ask, which drew the
    perturbation [(1)], and the tell of its value. *)
Definition fresh_spsa : SPSA.t :=
  match SPSA.__init__ 1 None 1 with
  | inr self => self
  | inl _ => SPSA.Build_t (Base.__init__ 1 None 1) true 0 (SPSA.Scalar Float.nan) None None
               [] [] 0 Float.zero Float.zero
  end.

Definition spsa_after_one_tell : SPSA.t :=
  fst (SPSA._internal_tell [Float.lit (-1) 10] (Float.of_Z 3)
         (fst (SPSA._internal_ask (numerics := table_numerics) [1] fresh_spsa))).

(** The first ask answered [(-0.1)]; the second answers [(0.1)] and
    changes nothing. *)
Lemma spsa_two_call_cycle_witness :
  snd (SPSA._internal_ask (numerics := table_numerics) [1] fresh_spsa)
  = Returns [Float.sub Float.zero (Float.lit 1 10)]
  ∧ SPSA.idx spsa_after_one_tell = 1
  ∧ SPSA._internal_ask (numerics := table_numerics) [0] spsa_after_one_tell
    = (spsa_after_one_tell, Returns [Float.lit 1 10]).
Proof.
  assert (Hfresh : reachable (numerics := table_numerics) fresh_spsa).
  { apply (reachable_init 1 None 1). reflexivity. }
  split; [|split; [reflexivity|]].
  - destruct (spsa_two_call_cycle (numerics := table_numerics) fresh_spsa [1] [] Float.zero Hfresh)
      as (_ & _ & _ & Hfirst & _).
    rewrite (Hfirst eq_refl (Float.lit 1 10)); [|vm_compute; reflexivity].
    vm_compute. reflexivity.
  - destruct (spsa_two_call_cycle (numerics := table_numerics) spsa_after_one_tell [0] []
                Float.zero) as (_ & _ & _ & _ & _ & Hodd).
    { apply reachable_tell, reachable_ask, Hfresh. }
    rewrite (Hodd eq_refl (Float.lit 1 10)); [|vm_compute; reflexivity].
    vm_compute. reflexivity.
Defined.

(** ** The first ask *)

Section first_ask.
Context {numerics : Numerics} {mutations : Mutations}.

Lemma one_plus_one_first_ask (rng : OnePlusOne.Draws) (self : OnePlusOne.t) :
  Base._num_ask (OnePlusOne.base self) = 0 →
  OnePlusOne._internal_ask rng self
  = (self, Returns (Vec.zeros (Base.dimension (OnePlusOne.base self)))).
Proof. intros H0. unfold OnePlusOne._internal_ask. py_simpl. rewrite H0. reflexivity. Qed.

Lemma tbpsa_first_ask (rng : TBPSA.Draws) (dimension : Z) (budget : option Z)
    (num_workers : Z) (self : TBPSA.t) :
  TBPSA.__init__ dimension budget num_workers = inr self →
  snd (TBPSA._internal_ask rng self)
  = Returns (Vec.add (Vec.zeros dimension)
               (Vec.scale
                  (Float.mul (Float.of_Z 1)
                     (np_exp (Float.div (TBPSA.normal rng) (Float.sqrt (Float.of_Z dimension)))))
                  (TBPSA.normal_vector rng))).
Proof.
  unfold TBPSA.__init__. destruct (dimension <? 0); [discriminate|].
  intros [= <-]. reflexivity.
Qed.

Lemma length_zeros (n : Z) : length (Vec.zeros n) = Z.to_nat n.
Proof. apply length_replicate. Qed.

Lemma length_identity (n : Z) : length (Vec.identity n) = Z.to_nat n.
Proof. unfold Vec.identity. rewrite length_fmap. apply length_seq. Qed.

Lemma eda_first_ask (rng : EDA.Draws) (dimension : Z) (budget : option Z)
    (num_workers : Z) (self : EDA.t) :
  EDA.__init__ dimension budget num_workers = inr self →
  snd (EDA._internal_ask rng self)
  = Returns (Vec.scale
               (Float.mul (Float.of_Z 1)
                  (np_exp (Float.div (EDA.normal rng) (Float.sqrt (Float.of_Z dimension)))))
               (EDA.multivariate_normal rng (Vec.zeros dimension) (Vec.identity dimension))).
Proof.
  unfold EDA.__init__, TBPSA.__init__. py_simpl. destruct (dimension <? 0); [discriminate|].
  intros [= <-]. unfold EDA._internal_ask. py_simpl.
  unfold Py.len. rewrite length_zeros, length_identity, Z.eqb_refl. reflexivity.
Qed.

Lemma spsa_first_ask (bits : list Z) (dimension : Z) (budget : option Z)
    (num_workers : Z) (self : SPSA.t) :
  SPSA.__init__ dimension budget num_workers = inr self →
  snd (SPSA._internal_ask bits self)
  = match SPSA.ck self 0 with
    | inr c_0 => Returns (SPSA.minus (Vec.zeros dimension)
                            (SPSA.times_delta c_0 (fresh_delta bits)))
    | inl e => Raises e
    end.
Proof.
  unfold SPSA.__init__. destruct (dimension <? 0); [discriminate|].
  intros [= <-]. unfold SPSA._internal_ask. py_simpl.
  match goal with |- context [SPSA.ck ?s 0] => change (SPSA.ck s 0) with
    (Py.truediv (Float.lit 1 10) (pow (Float.of_Z (0 / 2 + 1)) (Float.lit 101 1000))) end.
  unfold SPSA.ck. simpl.
  destruct (Py.truediv _ _); reflexivity.
Qed.

End first_ask.

(** ** Particle swarm: the swarm of the first ask *)

Section pso_first_ask.
Context {numerics : Numerics}.
Import PSO.

(** The swarm after the loop that creates the particles [idxs]. *)
Definition created (rng : Draws) (idxs : list Z) (self : t) : t :=
  set_pop (pop self ++ ((λ i, ndarray (uniform_position rng i)) <$> idxs))
    (set_pop_best (pop_best self ++ ((λ i, ndarray (uniform_position rng i)) <$> idxs))
       (set_pop_speed (pop_speed self ++ (uniform_speed rng <$> idxs))
          (set_pop_best_fitness (pop_best_fitness self ++ ((λ _, Float.inf) <$> idxs))
             (set_pop_fitness (pop_fitness self ++ ((λ _, None) <$> idxs)) self)))).

Lemma for_each_create_particle (rng : Draws) (idxs : list Z) (self : t) :
  for_each idxs (create_particle rng) self = (created rng idxs self, Returns tt).
Proof.
  revert self. induction idxs as [|i idxs IH]; intros self.
  - destruct self. unfold created. simpl. rewrite !app_nil_r. reflexivity.
  - simpl. unfold mbind, py_mbind, Py.bind.
    change (create_particle rng i self) with (created rng [i] self, Returns tt).
    cbv beta iota. rewrite IH. destruct self. unfold created. simpl. rewrite <- !app_assoc. reflexivity.
Qed.

Lemma range_cons (a b : Z) : a < b → Py.range a b = a :: Py.range (a + 1) b.
Proof.
  intros Hlt. unfold Py.range.
  replace (Z.to_nat (b - a)) with (S (Z.to_nat (b - (a + 1)))) by lia.
  simpl. rewrite <- fmap_S_seq, <- list_fmap_compose. f_equal; [lia|].
  apply list_fmap_ext. intros _ i _. simpl. lia.
Qed.

Lemma created_queue (rng : Draws) (idxs : list Z) (self : t) :
  queue (created rng idxs self) = queue self.
Proof. reflexivity. Qed.

Lemma prepare_first (rng : Draws) (self : t) :
  index self = -1 →
  prepare rng self
  = (created rng (Py.range 0 (llambda self))
       (set_pso_best_fitness Float.inf (set_pso_best None (set_index 0 self))),
     Returns tt).
Proof.
  intros Hindex. unfold prepare. py_red. unfold set_index at 1. cbn [index].
  rewrite Hindex. change (-1 + 1 =? 0) with true. py_red.
  rewrite for_each_create_particle. reflexivity.
Qed.

Lemma advance_unevaluated (rng : Draws) (location : Z) (self : t) (particle : seq) :
  Py.index (pop_fitness self) location = inr None →
  Py.index (pop self) location = inr particle →
  advance rng location self = (self, Returns tt).
Proof.
  intros Hfitness Hpop. unfold advance. py_red. rewrite Hfitness. py_red.
  rewrite Hpop. reflexivity.
Qed.

Lemma emit_effect (location : Z) (self : t) (particle : seq) :
  Py.index (pop self) location = inr particle →
  emit location self
  = match to_real (items particle) with
    | inr guy =>
        (set_queue (tail (queue self))
           (set_locations (Ledger.append (Py.key guy) location (locations self)) self),
         Returns guy)
    | inl e => (self, Raises e)
    end.
Proof.
  intros Hpop. unfold emit. py_red. rewrite Hpop. py_red.
  destruct (to_real (items particle)); reflexivity.
Qed.

(** The first ask of a new swarm: the swarm is created, and the answer
    is the image by [to_real] of the uniform position drawn for the
    particle [0]. *)
Lemma pso_first_ask (rng : Draws) (dimension : Z) (budget : option Z) (num_workers : Z) :
  snd (_internal_ask rng (__init__ dimension budget num_workers))
  = match to_real (uniform_position rng 0) with
    | inr guy => Returns guy
    | inl e => Raises e
    end.
Proof.
  unfold _internal_ask. py_red. rewrite prepare_first by reflexivity.
  py_red. rewrite created_queue.
  change (queue _) with (Py.range 0 (Z.max 40 num_workers)).
  change (llambda _) with (Z.max 40 num_workers).
  rewrite (range_cons 0 (Z.max 40 num_workers)) by lia.
  cbv beta iota.
  rewrite (advance_unevaluated rng 0 _ (ndarray (uniform_position rng 0)));
    [|reflexivity|reflexivity].
  rewrite (emit_effect 0 _ (ndarray (uniform_position rng 0))) by reflexivity.
  cbn [items]. destruct (to_real (uniform_position rng 0)); reflexivity.
Qed.

End pso_first_ask.

(** C8 (as amended). The one-plus-one optimizer answers the all-zero
    point of its dimension to an ask at ask counter 0, whatever its
    parameters and the draws. The other optimizers have no case for
    the first ask: a new TBPSA answers its center, the origin, plus
    the normal vector drawn, scaled by the mutated step size; a new
    EDA the multivariate sample drawn around the origin, scaled
    likewise; a new SPSA the origin minus [c_0] times the perturbation
    drawn; a new PSO the image by [to_real] of the uniform position
    drawn for its first particle. *)
Theorem first_ask_is_the_origin_for_one_plus_one {numerics : Numerics} {mutations : Mutations}
    (self : OnePlusOne.t) (rng : OnePlusOne.Draws)
    (dimension : Z) (budget : option Z) (num_workers : Z)
    (tbpsa_rng : TBPSA.Draws) (eda_rng : EDA.Draws) (bits : list Z) (pso_rng : PSO.Draws) :
  let at_zero := OnePlusOne.set_base (Base.set_num_ask 0 (OnePlusOne.base self)) self in
  OnePlusOne._internal_ask rng at_zero
  = (at_zero, Returns (Vec.zeros (Base.dimension (OnePlusOne.base self))))
  ∧ match TBPSA.__init__ dimension budget num_workers with
    | inr tbpsa =>
        snd (TBPSA._internal_ask tbpsa_rng tbpsa)
        = Returns (Vec.add (Vec.zeros dimension)
                     (Vec.scale (TBPSA.mutated_sigma tbpsa (TBPSA.normal tbpsa_rng))
                        (TBPSA.normal_vector tbpsa_rng)))
    | inl _ => True
    end
  ∧ match EDA.__init__ dimension budget num_workers with
    | inr eda =>
        snd (EDA._internal_ask eda_rng eda)
        = Returns (Vec.scale (TBPSA.mutated_sigma (EDA.population eda) (EDA.normal eda_rng))
                     (EDA.multivariate_normal eda_rng (Vec.zeros dimension)
                        (Vec.identity dimension)))
    | inl _ => True
    end
  ∧ match SPSA.__init__ dimension budget num_workers with
    | inr spsa =>
        snd (SPSA._internal_ask bits spsa)
        = match SPSA.ck spsa 0 with
          | inr c_0 => Returns (SPSA.minus (Vec.zeros dimension)
                                  (SPSA.times_delta c_0 (fresh_delta bits)))
          | inl e => Raises e
          end
    | inl _ => True
    end
  ∧ snd (PSO._internal_ask pso_rng (PSO.__init__ dimension budget num_workers))
    = match PSO.to_real (PSO.uniform_position pso_rng 0) with
      | inr guy => Returns guy
      | inl e => Raises e
      end.
Proof.
  intros at_zero. split; [exact (one_plus_one_first_ask rng at_zero eq_refl)|].
  split.
  { destruct (TBPSA.__init__ dimension budget num_workers) as [|tbpsa] eqn:Hinit; [exact I|].
    rewrite (tbpsa_first_ask tbpsa_rng _ _ _ _ Hinit).
    unfold TBPSA.__init__ in Hinit. destruct (dimension <? 0); [discriminate|].
    injection Hinit as <-. reflexivity. }
  split.
  { destruct (EDA.__init__ dimension budget num_workers) as [|eda] eqn:Hinit; [exact I|].
    rewrite (eda_first_ask eda_rng _ _ _ _ Hinit).
    unfold EDA.__init__, TBPSA.__init__ in Hinit. py_simpl.
    destruct (dimension <? 0); [discriminate|]. injection Hinit as <-. reflexivity. }
  split.
  { destruct (SPSA.__init__ dimension budget num_workers) as [|spsa] eqn:Hinit; [exact I|].
    apply (spsa_first_ask bits _ _ _ _ Hinit). }
  apply pso_first_ask.
Qed.

(** New optimizers of dimension one. *)
Definition fresh_tbpsa : TBPSA.t :=
  match TBPSA.__init__ 1 None 1 with
  | inr self => self
  | inl _ => TBPSA.Build_t (Base.__init__ 1 None 1) Float.zero 0 0 [] [] [] [] [] [] []
  end.

Definition unit_tbpsa_draws : TBPSA.Draws :=
  {| TBPSA.normal := Float.zero; TBPSA.normal_vector := [Float.of_Z 1] |}.

(** C8 (as stated) fails: at ask counter 0, a new SPSA of dimension
    one answers [(-0.1)] or [(0.1)] as the bit drawn is 1 or 0, and a
    new TBPSA answers [(1)] when the normal draws are 0 for the step
    size and 1 for the coordinate; none is the origin. *)
Lemma first_ask_off_the_origin :
  SPSA.__init__ 1 None 1 = inr fresh_spsa
  ∧ Base._num_ask (SPSA.base fresh_spsa) = 0
  ∧ snd (SPSA._internal_ask (numerics := table_numerics) [1] fresh_spsa)
    = Returns [Float.sub Float.zero (Float.lit 1 10)]
  ∧ snd (SPSA._internal_ask (numerics := table_numerics) [0] fresh_spsa)
    = Returns [Float.sub Float.zero (Float.mul (Float.lit 1 10) (Float.of_Z (-1)))]
  ∧ [Float.sub Float.zero (Float.lit 1 10)] ≠ Vec.zeros 1
  ∧ [Float.sub Float.zero (Float.mul (Float.lit 1 10) (Float.of_Z (-1)))] ≠ Vec.zeros 1
  ∧ TBPSA.__init__ 1 None 1 = inr fresh_tbpsa
  ∧ Base._num_ask (TBPSA.base fresh_tbpsa) = 0
  ∧ snd (TBPSA._internal_ask (numerics := table_numerics) unit_tbpsa_draws fresh_tbpsa)
    = Returns [Float.of_Z 1]
  ∧ [Float.of_Z 1] ≠ Vec.zeros 1.
Proof.
  repeat split; try (vm_compute; reflexivity); vm_compute; discriminate.
Qed.

(** ** Comprehensions over a range *)

Lemma pick_range {A} (l : list A) (n : nat) (a : Z) :
  0 ≤ a → a + Z.of_nat n ≤ Py.len l →
  Py.pick l (Py.range a (a + Z.of_nat n)) = inr (take n (drop (Z.to_nat a) l)).
Proof.
  revert a. induction n as [|n IH]; intros a Ha Hlen.
  - unfold Py.range. replace (Z.to_nat (a + Z.of_nat 0 - a)) with 0%nat by lia. reflexivity.
  - rewrite range_cons by lia. simpl.
    unfold Py.len in Hlen.
    destruct (lookup_lt_is_Some_2 l (Z.to_nat a)) as [x Hx]; [lia|].
    replace a with (Z.of_nat (Z.to_nat a)) at 1 by lia.
    rewrite (index_nonneg l _ x Hx).
    replace (a + Z.of_nat (S n)) with ((a + 1) + Z.of_nat n) by lia.
    rewrite IH by (unfold Py.len; lia).
    rewrite (drop_S l x (Z.to_nat a) Hx). simpl.
    replace (Z.to_nat (a + 1)) with (S (Z.to_nat a)) by lia. reflexivity.
Qed.

(** ** Population-size adaptation *)

Section adaptation.
Context {numerics : Numerics}.
Import TBPSA.

(** The statistic in the words of the specification: the means of two
    samples, their standard errors [np.std / sqrt(llambda - 1)], and
    [z = (mean1 - mean2) / sqrt(se1 ** 2 + se2 ** 2)]. *)
Definition standard_error (sample : list float) (llambda : Z) : float :=
  Float.div (np_std sample) (Float.sqrt (Float.of_Z (llambda - 1))).

Definition two_sample_z (sample1 sample2 : list float) (llambda : Z) : exn + float :=
  mean1 ← Py.truediv (Py.fsum sample1) (Float.of_Z llambda);
  mean2 ← Py.truediv (Py.fsum sample2) (Float.of_Z llambda);
  inr (Float.div (Float.sub mean1 mean2)
         (Float.sqrt (Float.add (pow (standard_error sample1 llambda) (Float.of_Z 2))
                        (pow (standard_error sample2 llambda) (Float.of_Z 2))))).

(** The population sizes after the step, in the words of the
    specification: [llambda = 4 mu], raised to [num_workers] with
    [mu = llambda // 4] when there are several workers; and the archive
    emptied. *)
Definition adapted (new_mu : Z) (self : t) : t :=
  let llambda := 4 * new_mu in
  let llambda' := if 1 <? num_workers self then Z.max llambda (num_workers self) else llambda in
  let mu' := if 1 <? num_workers self then llambda' / 4 else new_mu in
  set_archive_fitness [] (set_llambda llambda' (set_mu mu' self)).

Lemma z_statistic_of_fifths (archive : list float) (llambda : Z) :
  0 ≤ llambda → 5 * llambda ≤ Py.len archive →
  z_statistic archive llambda
  = two_sample_z (take (Z.to_nat llambda) archive)
      (take (Z.to_nat llambda) (drop (Z.to_nat (4 * llambda)) archive)) llambda.
Proof.
  intros Hpos Hlen. unfold z_statistic, two_sample_z, standard_error.
  pose proof (pick_range archive (Z.to_nat llambda) 0) as Hfirst.
  pose proof (pick_range archive (Z.to_nat llambda) (4 * llambda)) as Hlast.
  rewrite Z2Nat.id in Hfirst, Hlast by lia.
  replace (4 * llambda + llambda) with (5 * llambda) in Hlast by lia.
  rewrite Z.add_0_l in Hfirst.
  rewrite Hfirst, Hlast by lia.
  py_simpl. rewrite drop_0.
  destruct (Py.truediv (Py.fsum (take _ archive)) _); [reflexivity|].
  simpl. destruct (Py.truediv _ _); reflexivity.
Qed.

(** C3. A tell of TBPSA, PCEDA or MPCEDA first appends the value to
    the fitness archive. Below [5 llambda] values nothing more happens
    to the population sizes. When the archive reaches [5 llambda]
    values, one adaptation step runs: the first [llambda] values and
    those at the indices [4 llambda .. 5 llambda - 1] give the
    two-sample statistic [z]; if [z < 2] then [mu] is doubled,
    otherwise [mu] becomes [int(mu * 0.84)], and not less than the
    dimension; then [llambda = 4 mu], and with more than one worker
    [llambda] is raised to [num_workers] and [mu] set to
    [llambda // 4]; and the archive is emptied. *)
Theorem population_size_adaptation (value : float) (self : t) (x : Point) (eda : EDA.t) :
  let archive := archive_fitness self ++ [value] in
  let appended := set_archive_fitness archive self in
  0 ≤ llambda self →
  (Py.len archive < 5 * llambda self →
   population_size_test value self = (appended, Returns tt))
  ∧ (5 * llambda self ≤ Py.len archive →
     z_statistic archive (llambda self)
     = two_sample_z (take (Z.to_nat (llambda self)) archive)
         (take (Z.to_nat (llambda self)) (drop (Z.to_nat (4 * llambda self)) archive))
         (llambda self)
     ∧ ∀ z, z_statistic archive (llambda self) = inr z →
         (Float.ltb z (Float.of_Z 2) = true →
          population_size_test value self = (adapted (mu self * 2) appended, Returns tt))
         ∧ (Float.ltb z (Float.of_Z 2) = false →
            ∀ m, Py.int (Float.mul (Float.of_Z (mu self)) (Float.lit 84 100)) = inr m →
            population_size_test value self
            = (adapted (Z.max m (dimension self)) appended, Returns tt)))
  ∧ _internal_tell x value self
    = (population_size_test value;; move_to_evaluated x value;;
       self ← get;
       if llambda self <=? Py.len (evaluated_population self) then
         let sorted_pop := sorted_pop_with_sigma_and_fitness self in
         modify (set_evaluated_population ((λ p, p.1.1) <$> sorted_pop));;
         modify (set_evaluated_population_sigma ((λ p, p.1.2) <$> sorted_pop));;
         modify (set_evaluated_population_fitness ((λ p, p.2) <$> sorted_pop));;
         new_parent
       else mret tt) self
  ∧ EDA.PCEDA_internal_tell x value eda
    = (EDA.on_population (population_size_test value);;
       EDA.on_population (move_to_evaluated x value);;
       EDA.reestimate EDA.plain_covariance) eda
  ∧ EDA.MPCEDA_internal_tell x value eda
    = (EDA.on_population (population_size_test value);;
       EDA.on_population (move_to_evaluated x value);;
       EDA.reestimate EDA.blended_covariance) eda.
Proof.
  intros archive appended Hpos. subst archive appended.
  split; [|split; [|repeat split]].
  - intros Hlt. unfold population_size_test. py_simpl.
    replace (5 * llambda self <=? Py.len (archive_fitness self ++ [value])) with false
      by (symmetry; apply Z.leb_gt; exact Hlt).
    reflexivity.
  - intros Hge. split; [apply z_statistic_of_fifths; assumption|].
    intros z Hz. assert (Htest : (5 * llambda self <=? Py.len (archive_fitness self ++ [value])) = true)
      by (apply Z.leb_le; exact Hge).
    split.
    + intros Hsmall. unfold population_size_test. py_simpl.
      rewrite Htest, Hz. simpl. rewrite Hsmall. simpl.
      unfold adapted, num_workers. simpl.
      destruct (1 <? Base.num_workers (base self)); destruct self; reflexivity.
    + intros Hlarge m Hm. unfold population_size_test. py_simpl.
      rewrite Htest, Hz. simpl. rewrite Hlarge, Hm. simpl.
      unfold adapted, num_workers, dimension. simpl.
      replace (if m <? Base.dimension (base self) then Base.dimension (base self) else m)
        with (Z.max m (Base.dimension (base self)))
        by (destruct (Z.ltb_spec m (Base.dimension (base self))); lia).
      destruct (1 <? Base.num_workers (base self)); destruct self; reflexivity.
Qed.

End adaptation.

(** A TBPSA of dimension one ([mu = 1], [llambda = 4]) that has been
    told 19 values, the values 1, 2, 3, 4 in turn. *)
Definition nineteen_values : list float :=
  Float.of_Z <$> [1; 2; 3; 4; 1; 2; 3; 4; 1; 2; 3; 4; 1; 2; 3; 4; 1; 2; 3].

Definition tbpsa_before_the_test : TBPSA.t :=
  TBPSA.set_archive_fitness nineteen_values fresh_tbpsa.

(** The twentieth value brings the archive to [5 llambda]: the two
    fifths have the same mean, [z] is zero, and [mu] is doubled. *)
Lemma population_size_adaptation_witness :
  let told := fst (TBPSA.population_size_test (numerics := table_numerics) (Float.of_Z 4)
                     tbpsa_before_the_test) in
  TBPSA.z_statistic (numerics := table_numerics) (nineteen_values ++ [Float.of_Z 4]) 4
  = inr Float.zero
  ∧ TBPSA.mu tbpsa_before_the_test = 1
  ∧ TBPSA.llambda tbpsa_before_the_test = 4
  ∧ TBPSA.mu told = 2
  ∧ TBPSA.llambda told = 8
  ∧ TBPSA.archive_fitness told = [].
Proof.
  intros told.
  destruct (population_size_adaptation (numerics := table_numerics) (Float.of_Z 4)
              tbpsa_before_the_test [] (EDA.Build_t tbpsa_before_the_test []))
    as (_ & Hreach & _); [vm_compute; discriminate|].
  destruct Hreach as (_ & Hstep); [vm_compute; discriminate|].
  destruct (Hstep Float.zero) as (Hdouble & _); [vm_compute; reflexivity|].
  subst told. rewrite Hdouble by (vm_compute; reflexivity).
  repeat split; vm_compute; reflexivity.
Defined.

(** ** Equality of floats and of points, and the keys of a dictionary *)



(** ** The pending-request ledger *)

Section fifo.
Context `{Countable K} {X V : Type}.

(** The points [X] with their equality [eqb], the [==] of the
    language, and the key a dictionary files each one under. *)
Variable eqb : X → X → bool.
Variable key : X → option K.
Hypothesis eqb_key : ∀ x y, eqb x y = true ↔ ∃ k, key x = Some k ∧ key y = Some k.

























End fifo.


(** ** Methods that leave a part of the state alone *)

Section preserves.
Context {S B : Type} (f : S → B).

(** [m] leaves [f self] as it was, whatever [m] returns or raises. *)
Definition preserves {A} (m : py S A) : Prop := ∀ s, f (fst (m s)) = f s.

Lemma preserves_ret {A} (a : A) : preserves (mret a).
Proof. intros s. reflexivity. Qed.

Lemma preserves_raise {A} (e : exn) : preserves (Py.raise (A := A) e).
Proof. intros s. reflexivity. Qed.

Lemma preserves_lift {A} (r : exn + A) : preserves (Py.lift r).
Proof. intros s. destruct r; reflexivity. Qed.

Lemma preserves_assert (b : bool) : preserves (Py.assert b).
Proof. intros s. destruct b; reflexivity. Qed.

Lemma preserves_get : preserves Py.get.
Proof. intros s. reflexivity. Qed.

Lemma preserves_gets {A} (g : S → A) : preserves (Py.gets g).
Proof. intros s. reflexivity. Qed.

Lemma preserves_modify (g : S → S) : (∀ s, f (g s) = f s) → preserves (Py.modify g).
Proof. intros Hg s. apply Hg. Qed.

Lemma preserves_bind {A C} (m : py S A) (k : A → py S C) :
  preserves m → (∀ a, preserves (k a)) → preserves (m ≫= k).
Proof.
  intros Hm Hk s. unfold mbind, py_mbind, Py.bind. specialize (Hm s).
  destruct (m s) as [s' [a|e]]; simpl in *; [|exact Hm].
  rewrite (Hk a s'). exact Hm.
Qed.

Lemma preserves_for_each {A} (l : list A) (body : A → py S unit) :
  (∀ a, preserves (body a)) → preserves (for_each l body).
Proof.
  intros Hbody. induction l as [|a l IH]; simpl.
  - apply preserves_ret.
  - apply preserves_bind; [apply Hbody|intros _; exact IH].
Qed.

End preserves.

Create HintDb py_methods.
#[global] Hint Unfold PSO.mutate_speed PSO.move_particle PSO.create_particle : py_methods.

Ltac preserves_step :=
  first
    [ apply preserves_bind; [|intros ?]
    | apply preserves_ret
    | apply preserves_raise
    | apply preserves_lift
    | apply preserves_assert
    | apply preserves_get
    | apply preserves_gets
    | apply preserves_for_each; intros ?
    | apply preserves_modify; intros ?; reflexivity
    | match goal with
      | |- preserves _ (if ?b then _ else _) => destruct b
      | |- preserves _ (match ?x with _ => _ end) => destruct x
      end
    | progress autounfold with py_methods ].
Ltac preserves_all := repeat preserves_step.

(** ** The ledgers of the particle swarm and of the portfolios *)


Section pso_ledger.
Context {numerics : Numerics}.
Import PSO.




Lemma advance_keeps_locations (rng : Draws) (location : Z) :
  preserves locations (advance rng location).
Proof. unfold advance. preserves_all. Qed.

Lemma advance_keeps_queue (rng : Draws) (location : Z) :
  preserves queue (advance rng location).
Proof. unfold advance. preserves_all. Qed.

Lemma prepare_keeps_locations (rng : Draws) : preserves locations (prepare rng).
Proof. unfold prepare. preserves_all. Qed.

Lemma prepare_keeps_queue (rng : Draws) : preserves queue (prepare rng).
Proof. unfold prepare. preserves_all. Qed.







(** What an ask of the swarm does to the ledger when it answers: the
    particle at the head of the queue of the swarm leaves it and joins
    the back of the queue of the point answered. *)
Lemma pso_ask_ledger (rng : Draws) (self : t) (guy : Point) :
  snd (_internal_ask rng self) = Returns guy →
  ∃ location rest,
    queue self = location :: rest
    ∧ locations (fst (_internal_ask rng self))
      = Ledger.append (Py.key guy) location (locations self)
    ∧ queue (fst (_internal_ask rng self)) = rest.
Proof.
  unfold _internal_ask. unfold mbind, py_mbind, Py.bind.
  pose proof (prepare_keeps_locations rng self) as Hloc.
  pose proof (prepare_keeps_queue rng self) as Hqueue.
  destruct (prepare rng self) as [self1 [[]|e]]; cbn [fst snd] in *; [|discriminate].
  unfold Py.get. rewrite Hqueue.
  destruct (queue self) as [|location rest] eqn:Hq; [discriminate|].
  pose proof (advance_keeps_locations rng location self1) as Hloc2.
  pose proof (advance_keeps_queue rng location self1) as Hqueue2.
  destruct (advance rng location self1) as [self2 [[]|e]]; cbn [fst snd] in *; [|discriminate].
  destruct (Py.index (pop self2) location) as [e|particle] eqn:Hpop.
  { unfold emit. py_red. rewrite Hpop. cbn [fst snd]. discriminate. }
  rewrite (emit_effect location self2 particle Hpop).
  destruct (to_real (items particle)) as [e|guy']; cbn [fst snd]; [discriminate|].
  intros [= ->]. exists location, rest. split; [reflexivity|].
  cbn [locations queue set_queue set_locations]. rewrite Hloc2, Hloc, Hqueue2, Hqueue.
  split; reflexivity.
Qed.

End pso_ledger.

Section portfolio_ledger.
Context {members : Members}.
Import Portfolio.




End portfolio_ledger.



(** A swarm of dimension one whose particles are all drawn at 0.5, so
    that they all answer the point [(0)]; after two asks, two
    particles are pending for this point. *)
Definition coinciding_draws : PSO.Draws :=
  {| PSO.uniform_position := λ _, [Float.lit 5 10];
     PSO.uniform_speed := λ _, [Float.zero];
     PSO.rp := λ _, Float.zero;
     PSO.rg := λ _, Float.zero |}.







(** ** Evolution strategies: the cohort between two re-estimations *)

(** [l.index(x)] answers a position of the list, the first where an
    element is equal to [x], and raises when there is none. *)
Lemma list_index_lt {A} (eqb : A → A → bool) (l : list A) (x : A) (i : nat) :
  Py.list_index eqb l x = inr i → (i < length l)%nat.
Proof.
  revert i. induction l as [|y l IH]; intros i; cbn [Py.list_index length]; [discriminate|].
  destruct (eqb y x); [intros [= <-]; lia|].
  destruct (Py.list_index eqb l x) as [e|j]; [discriminate|].
  intros [= <-]. specialize (IH j eq_refl). lia.
Qed.

Lemma list_index_absent {A} (eqb : A → A → bool) (l : list A) (x : A) :
  Forall (λ y, eqb y x = false) l → Py.list_index eqb l x = inl ValueError.
Proof.
  induction 1 as [|y l Hy Hl IH]; cbn [Py.list_index]; [reflexivity|].
  rewrite Hy, IH. reflexivity.
Qed.

Lemma list_index_first {A} (eqb : A → A → bool) (l1 l2 : list A) (x y : A) :
  Forall (λ z, eqb z x = false) l1 → eqb y x = true →
  Py.list_index eqb (l1 ++ y :: l2) x = inr (length l1).
Proof.
  intros Hl1 Hy. induction Hl1 as [|z l1 Hz Hl1 IH]; cbn [Py.list_index app length].
  - rewrite Hy. reflexivity.
  - rewrite Hz, IH. reflexivity.
Qed.

Lemma list_index_found {A} (eqb : A → A → bool) (l : list A) (x : A) (i : nat) :
  Py.list_index eqb l x = inr i →
  ∃ y, l !! i = Some y ∧ eqb y x = true ∧ Forall (λ z, eqb z x = false) (take i l).
Proof.
  revert i. induction l as [|y l IH]; intros i; cbn [Py.list_index]; [discriminate|].
  destruct (eqb y x) eqn:Hy.
  - intros [= <-]. exists y. repeat split; [exact Hy|constructor].
  - destruct (Py.list_index eqb l x) as [e|j]; [discriminate|].
    intros [= <-]. destruct (IH j eq_refl) as (z & Hz & Hzx & Hbefore).
    exists z. split; [exact Hz|]. split; [exact Hzx|].
    cbn [take]. constructor; assumption.
Qed.

Section cohort.
Context {numerics : Numerics}.
Import TBPSA.

(** The state once the pending point at the position [idx], with
    step size [sg], has been told [value] as the point [x]. *)
Definition moved_at (idx : nat) (x : Point) (sg value : float) (self : t) : t :=
  set_unevaluated_population_sigma (delete idx (unevaluated_population_sigma self))
    (set_unevaluated_population (delete idx (unevaluated_population self))
       (set_evaluated_population_sigma (evaluated_population_sigma self ++ [sg])
          (set_evaluated_population_fitness (evaluated_population_fitness self ++ [value])
             (set_evaluated_population (evaluated_population self ++ [x]) self)))).

Lemma move_at (idx : nat) (x : Point) (value sg : float) (self : t) :
  Py.list_index Py.tuple_eqb (unevaluated_population self) x = inr idx →
  unevaluated_population_sigma self !! idx = Some sg →
  move_to_evaluated x value self = (moved_at idx x sg value self, Returns tt).
Proof.
  intros Hidx Hsg. unfold move_to_evaluated. py_red. rewrite Hidx. py_red.
  cbn [unevaluated_population_sigma unevaluated_population set_evaluated_population
       set_evaluated_population_fitness].
  rewrite (index_nonneg _ _ _ Hsg). py_red. unfold Py.del_item.
  cbn [unevaluated_population_sigma unevaluated_population set_evaluated_population
       set_evaluated_population_fitness set_evaluated_population_sigma
       set_unevaluated_population].
  pose proof (list_index_lt _ _ _ _ Hidx) as Hlt.
  pose proof (lookup_lt_Some _ _ _ Hsg) as Hlt'.
  rewrite !bool_decide_eq_true_2 by assumption. reflexivity.
Qed.

Lemma test_below (value : float) (self : t) :
  Py.len (archive_fitness self) + 1 < 5 * llambda self →
  population_size_test value self
  = (set_archive_fitness (archive_fitness self ++ [value]) self, Returns tt).
Proof.
  intros Hlt. unfold population_size_test. py_red.
  cbn [llambda archive_fitness set_archive_fitness].
  replace (5 * llambda self <=? Py.len (archive_fitness self ++ [value])) with false;
    [reflexivity|].
  symmetry. apply Z.leb_gt. unfold Py.len in *. rewrite length_app. simpl. lia.
Qed.

(** The center and the step size that "computing the new parent"
    assigns, from the sorted points and their step sizes. *)
Definition mean_of_best (mu : Z) (points : list Point) : Point :=
  Vec.div (Vec.sum (take (Z.to_nat mu) points)) (Float.of_Z mu).
Definition geometric_mean_of_best (mu : Z) (sigmas : list float) : float :=
  np_exp (Float.div (Py.fsum (np_log <$> take (Z.to_nat mu) sigmas)) (Float.of_Z mu)).

Definition with_new_parent (self : t) : t :=
  set_evaluated_population_fitness []
    (set_evaluated_population_sigma []
       (set_evaluated_population []
          (set_sigma (geometric_mean_of_best (mu self) (evaluated_population_sigma self))
             (set_current_center (mean_of_best (mu self) (evaluated_population self)) self)))).

Lemma new_parent_effect (self : t) :
  1 ≤ mu self →
  mu self ≤ Py.len (evaluated_population self) →
  mu self ≤ Py.len (evaluated_population_sigma self) →
  new_parent self = (with_new_parent self, Returns tt).
Proof.
  intros Hmu Hpop Hsig. unfold new_parent. py_red.
  pose proof (pick_range (evaluated_population self) (Z.to_nat (mu self)) 0) as Hp.
  pose proof (pick_range (evaluated_population_sigma self) (Z.to_nat (mu self)) 0) as Hs.
  rewrite Z2Nat.id, Z.add_0_l in Hp, Hs by lia. change (Z.to_nat 0) with 0%nat in Hp, Hs.
  rewrite drop_0 in Hp. rewrite drop_0 in Hs.
  rewrite Hp by lia. py_red.
  replace (mu self <=? 0) with false by lia. py_red.
  cbn [evaluated_population_sigma set_current_center mu].
  rewrite Hs by lia. reflexivity.
Qed.

(** The tells of the family in one shape: the population-size test
    or not, the move, and the re-estimation with the covariance of the
    class. *)
Definition eda_tell (test : bool) (new_covariance : Vec.Matrix → list Point → Vec.Matrix)
    (x : Point) (value : float) : py EDA.t unit :=
  (if test then EDA.on_population (population_size_test value) else mret tt);;
  EDA.on_population (move_to_evaluated x value);;
  EDA.reestimate new_covariance.

Lemma tells_of_the_family (x : Point) (value : float) (self : EDA.t) :
  EDA._internal_tell x value self = eda_tell false EDA.scaled_covariance x value self
  ∧ EDA.PCEDA_internal_tell x value self = eda_tell true EDA.plain_covariance x value self
  ∧ EDA.MPCEDA_internal_tell x value self = eda_tell true EDA.blended_covariance x value self
  ∧ EDA.MEDA_internal_tell x value self = eda_tell false EDA.blended_covariance x value self.
Proof. repeat split. Qed.

(** TBPSA tells as PCEDA does, without a covariance. *)
Lemma tbpsa_tells_as_eda (x : Point) (value : float) (self : t) (covariance : Vec.Matrix) :
  _internal_tell x value self
  = let told := eda_tell true (λ old _, old) x value (EDA.Build_t self covariance) in
    (EDA.population (fst told), snd told).
Proof.
  unfold _internal_tell, eda_tell, EDA.reestimate, EDA.on_population. py_red.
  cbn [EDA.population EDA.set_population EDA.covariance EDA.set_covariance].
  destruct (population_size_test value self) as [p1 [[]|e]]; cbn [fst snd]; [|reflexivity].
  cbn [EDA.population EDA.set_population EDA.covariance EDA.set_covariance].
  destruct (move_to_evaluated x value p1) as [p2 [[]|e]]; cbn [fst snd]; [|reflexivity].
  cbn [EDA.population EDA.set_population EDA.covariance EDA.set_covariance].
  destruct (llambda p2 <=? Py.len (evaluated_population p2)); [|reflexivity].
  cbn [EDA.population EDA.set_population EDA.covariance EDA.set_covariance fst snd].
  destruct (new_parent _) as [p3 r]. reflexivity.
Qed.

End cohort.

(** ** The order of floats and [sorted] *)

Lemma SFcompare_antisym (a b : float) : SFcompare b a = CompOpp <$> SFcompare a b.
Proof.
  destruct a as [[]|[]| |[] m1 e1], b as [[]|[]| |[] m2 e2]; try reflexivity; simpl;
    rewrite (Z.compare_antisym e1 e2); destruct (e1 ?= e2); simpl; try reflexivity;
    change (Pos.compare_cont Eq m2 m1) with (Pos.compare m2 m1);
    change (Pos.compare_cont Eq m1 m2) with (Pos.compare m1 m2);
    rewrite (Pos.compare_antisym m1 m2); destruct (m1 ?= m2)%positive; reflexivity.
Qed.

Lemma float_ltb_asym (a b : float) : Float.ltb a b = true → Float.ltb b a = false.
Proof.
  unfold Float.ltb, SFltb. rewrite (SFcompare_antisym a b).
  destruct (SFcompare a b) as [[]|]; simpl; congruence.
Qed.

Lemma float_eqb_sym (a b : float) : Float.eqb a b = Float.eqb b a.
Proof.
  unfold Float.eqb, SFeqb. rewrite (SFcompare_antisym a b).
  destruct (SFcompare a b) as [[]|]; reflexivity.
Qed.

Lemma float_eqb_not_ltb (a b : float) : Float.eqb a b = true → Float.ltb a b = false.
Proof.
  unfold Float.eqb, Float.ltb, SFeqb, SFltb. destruct (SFcompare a b) as [[]|]; congruence.
Qed.

(** Two floats that are not nan compare one way or the other. *)
Lemma float_leb_total (a b : float) :
  Float.isnan a = false → Float.isnan b = false → Float.ltb b a = false → Float.leb a b = true.
Proof.
  unfold Float.ltb, Float.leb, SFltb, SFleb. rewrite (SFcompare_antisym a b).
  destruct a as [[]|[]| |[] m1 e1], b as [[]|[]| |[] m2 e2]; simpl; try congruence;
    destruct (e1 ?= e2); simpl; try congruence;
    destruct (Pos.compare_cont Eq m1 m2); simpl; congruence.
Qed.

Lemma tuple_eqb_sym (a b : list float) : Py.tuple_eqb a b = Py.tuple_eqb b a.
Proof.
  revert b. induction a as [|x a IH]; intros [|y b]; simpl; try reflexivity.
  rewrite (float_eqb_sym x y), (IH b). reflexivity.
Qed.

Lemma tuple_ltb_asym (a b : list float) : Py.tuple_ltb a b = true → Py.tuple_ltb b a = false.
Proof.
  revert b. induction a as [|x a IH]; intros [|y b]; simpl; try congruence.
  rewrite (float_eqb_sym y x). destruct (Float.eqb x y); [apply IH|apply float_ltb_asym].
Qed.

Lemma entry_ltb_asym (a b : float * Point * float) :
  TBPSA.entry_ltb a b = true → TBPSA.entry_ltb b a = false.
Proof.
  destruct a as [[f1 i1] s1], b as [[f2 i2] s2]. unfold TBPSA.entry_ltb.
  rewrite (float_eqb_sym f2 f1), (tuple_eqb_sym i2 i1).
  destruct (Float.eqb f1 f2); simpl; [|apply float_ltb_asym].
  destruct (Py.tuple_eqb i1 i2); simpl; [apply float_ltb_asym|apply tuple_ltb_asym].
Qed.

Section sorted.
Context {A : Type} (lt : A → A → bool).
Hypothesis lt_asym : ∀ a b, lt a b = true → lt b a = false.

(** [a] may stand before [b]: [b < a] does not hold. *)
Definition not_after (a b : A) : Prop := lt b a = false.

Lemma insert_permutation (a : A) (l : list A) : Py.insert lt a l ≡ₚ a :: l.
Proof.
  induction l as [|b l IH]; simpl; [reflexivity|].
  destruct (lt a b); [reflexivity|]. rewrite IH. apply Permutation_swap.
Qed.

Lemma sorted_permutation (l : list A) : Py.sorted lt l ≡ₚ l.
Proof.
  unfold Py.sorted. rewrite <- (app_nil_l l) at 2. generalize (@nil A) as acc.
  induction l as [|a l IH]; intros acc; simpl.
  - rewrite app_nil_r. reflexivity.
  - rewrite IH, insert_permutation. simpl. apply Permutation_middle.
Qed.

Lemma sorted_length (l : list A) : length (Py.sorted lt l) = length l.
Proof. apply Permutation_length, sorted_permutation. Qed.

Lemma insert_hd (a b : A) (l : list A) :
  not_after b a → HdRel not_after b l → HdRel not_after b (Py.insert lt a l).
Proof.
  intros Hba Hbl. destruct l as [|c l]; simpl.
  - constructor. exact Hba.
  - destruct (lt a c); constructor; [exact Hba|]. inversion Hbl; assumption.
Qed.

Lemma insert_Sorted (a : A) (l : list A) :
  Sorted not_after l → Sorted not_after (Py.insert lt a l).
Proof.
  induction 1 as [|b l Hsorted IH Hhd]; simpl.
  - repeat constructor.
  - destruct (lt a b) eqn:Hab.
    + constructor; [constructor; assumption|]. constructor. apply lt_asym, Hab.
    + constructor; [exact IH|]. apply insert_hd; assumption.
Qed.

Lemma sorted_Sorted (l : list A) : Sorted not_after (Py.sorted lt l).
Proof.
  unfold Py.sorted. assert (Hnil : Sorted not_after (@nil A)) by constructor.
  revert Hnil. generalize (@nil A) as acc.
  induction l as [|a l IH]; intros acc Hacc; simpl; [exact Hacc|].
  apply IH, insert_Sorted, Hacc.
Qed.

End sorted.

(** The fitness of an entry of the cohort. *)
Definition fitness_of (entry : float * Point * float) : float := entry.1.1.

Lemma Sorted_by_fitness (l : list (float * Point * float)) :
  Forall (λ entry, Float.isnan (fitness_of entry) = false) l →
  Sorted (not_after TBPSA.entry_ltb) l →
  Sorted (λ a b, Float.leb (fitness_of a) (fitness_of b) = true) l.
Proof.
  intros Hnan Hsorted. induction Hsorted as [|a l Hsorted IH Hhd]; [constructor|].
  apply Forall_cons in Hnan as [Ha Hl]. constructor; [apply IH, Hl|].
  destruct Hhd as [|b l Hab]; constructor.
  apply Forall_cons in Hl as [Hb _].
  destruct a as [[f1 i1] s1], b as [[f2 i2] s2]. unfold fitness_of in *. simpl in *.
  apply float_leb_total; try assumption.
  unfold not_after, TBPSA.entry_ltb in Hab.
  destruct (Float.eqb f2 f1) eqn:Heq; simpl in Hab; [|exact Hab].
  apply float_eqb_not_ltb, Heq.
Qed.

(** ** Evolution strategies: the re-estimation *)

Section reestimation.
Context {numerics : Numerics}.
Import TBPSA.

(** The archive after the first block of a tell, for the classes that
    have this block. *)
Definition appended_if (test : bool) (value : float) (p : t) : t :=
  if test then set_archive_fitness (archive_fitness p ++ [value]) p else p.

(** The three evaluated lists, sorted together. *)
Definition with_sorted (p : t) : t :=
  let sorted_pop := sorted_pop_with_sigma_and_fitness p in
  set_evaluated_population_fitness ((λ q, q.2) <$> sorted_pop)
    (set_evaluated_population_sigma ((λ q, q.1.2) <$> sorted_pop)
       (set_evaluated_population ((λ q, q.1.1) <$> sorted_pop) p)).

Lemma on_population_effect {A} (m : py t A) (e : EDA.t) :
  EDA.on_population m e
  = (EDA.set_population (fst (m (EDA.population e))) e, snd (m (EDA.population e))).
Proof. unfold EDA.on_population. destruct (m (EDA.population e)); reflexivity. Qed.

Lemma test_phase (test : bool) (value : float) (e : EDA.t) :
  (test = true →
   Py.len (archive_fitness (EDA.population e)) + 1 < 5 * llambda (EDA.population e)) →
  (if test then EDA.on_population (population_size_test value) else mret tt) e
  = (EDA.set_population (appended_if test value (EDA.population e)) e, Returns tt).
Proof.
  intros Harchive. destruct test; simpl.
  - rewrite on_population_effect, test_below by (apply Harchive; reflexivity). reflexivity.
  - destruct e; reflexivity.
Qed.

Lemma reestimate_skip (new_covariance : Vec.Matrix → list Point → Vec.Matrix) (e : EDA.t) :
  Py.len (evaluated_population (EDA.population e)) < llambda (EDA.population e) →
  EDA.reestimate new_covariance e = (e, Returns tt).
Proof.
  intros Hlt. unfold EDA.reestimate. py_red.
  replace (llambda (EDA.population e) <=? Py.len (evaluated_population (EDA.population e)))
    with false by lia.
  reflexivity.
Qed.

Lemma reestimate_effect (new_covariance : Vec.Matrix → list Point → Vec.Matrix) (e : EDA.t) :
  let p := EDA.population e in
  llambda p ≤ Py.len (evaluated_population p) →
  1 ≤ mu p →
  mu p ≤ Py.len (evaluated_population (with_sorted p)) →
  mu p ≤ Py.len (evaluated_population_sigma (with_sorted p)) →
  EDA.reestimate new_covariance e
  = ({| EDA.population := with_new_parent (with_sorted p);
        EDA.covariance :=
          new_covariance (EDA.covariance e) (evaluated_population (with_sorted p)) |},
     Returns tt).
Proof.
  intros p Hge Hmu Hpop Hsig. subst p. unfold EDA.reestimate. py_red.
  replace (llambda (EDA.population e) <=? Py.len (evaluated_population (EDA.population e)))
    with true by lia.
  unfold EDA.on_population. py_red.
  cbn [EDA.population EDA.set_population EDA.covariance EDA.set_covariance].
  change (set_evaluated_population_fitness _ _) with (with_sorted (EDA.population e)).
  rewrite (new_parent_effect (with_sorted (EDA.population e))) by assumption.
  reflexivity.
Qed.

(** A tell up to its last block: once its first block has returned
    and the point is found at the position [idx], what is left is
    the re-estimation, on the state with the point moved. *)
Lemma eda_tell_at (test : bool) (new_covariance : Vec.Matrix → list Point → Vec.Matrix)
    (x : Point) (value sg : float) (idx : nat) (e e1 : EDA.t) :
  (if test then EDA.on_population (population_size_test value) else mret tt) e
  = (e1, Returns tt) →
  Py.list_index Py.tuple_eqb (unevaluated_population (EDA.population e1)) x = inr idx →
  unevaluated_population_sigma (EDA.population e1) !! idx = Some sg →
  eda_tell test new_covariance x value e
  = EDA.reestimate new_covariance
      (EDA.set_population (moved_at idx x sg value (EDA.population e1)) e1).
Proof.
  intros Hfirst Hidx Hsg. unfold eda_tell. unfold mbind, py_mbind, Py.bind.
  rewrite Hfirst, on_population_effect, (move_at idx x value sg _ Hidx Hsg). reflexivity.
Qed.

(** The sorted lists are as long as the lists. *)
Lemma with_sorted_lengths (p : t) :
  length (evaluated_population_sigma p) = length (evaluated_population p) →
  length (evaluated_population_fitness p) = length (evaluated_population p) →
  length (evaluated_population (with_sorted p)) = length (evaluated_population p)
  ∧ length (evaluated_population_sigma (with_sorted p)) = length (evaluated_population p).
Proof.
  intros Hs Hf. unfold with_sorted, sorted_pop_with_sigma_and_fitness, zip3.
  cbn [evaluated_population evaluated_population_sigma set_evaluated_population_fitness
       set_evaluated_population_sigma set_evaluated_population].
  rewrite !length_fmap, sorted_length, !length_zip. lia.
Qed.

(** The re-estimation of a full population. *)
Lemma reestimate_full (new_covariance : Vec.Matrix → list Point → Vec.Matrix) (e : EDA.t) :
  let p := EDA.population e in
  llambda p ≤ Py.len (evaluated_population p) →
  1 ≤ mu p ≤ Py.len (evaluated_population p) →
  length (evaluated_population_sigma p) = length (evaluated_population p) →
  length (evaluated_population_fitness p) = length (evaluated_population p) →
  EDA.reestimate new_covariance e
  = ({| EDA.population := with_new_parent (with_sorted p);
        EDA.covariance :=
          new_covariance (EDA.covariance e) (evaluated_population (with_sorted p)) |},
     Returns tt).
Proof.
  intros p Hfull Hmu Hs Hf. destruct (with_sorted_lengths p Hs Hf) as [Hlp Hls].
  unfold Py.len in *. apply reestimate_effect; fold p; unfold Py.len; lia.
Qed.

(** One tell, whatever its first block did to the sizes: below the
    population size the point is moved and nothing else happens; at
    the population size the population is re-estimated. *)
Lemma eda_tell_law (test : bool) (new_covariance : Vec.Matrix → list Point → Vec.Matrix)
    (x : Point) (value sg : float) (idx : nat) (e e1 : EDA.t) :
  let p1 := EDA.population e1 in
  let full := moved_at idx x sg value p1 in
  (if test then EDA.on_population (population_size_test value) else mret tt) e
  = (e1, Returns tt) →
  Py.list_index Py.tuple_eqb (unevaluated_population p1) x = inr idx →
  unevaluated_population_sigma p1 !! idx = Some sg →
  length (evaluated_population_sigma p1) = length (evaluated_population p1) →
  length (evaluated_population_fitness p1) = length (evaluated_population p1) →
  1 ≤ mu p1 ≤ Py.len (evaluated_population p1) + 1 →
  eda_tell test new_covariance x value e
  = if Py.len (evaluated_population p1) + 1 <? llambda p1
    then (EDA.set_population full e1, Returns tt)
    else ({| EDA.population := with_new_parent (with_sorted full);
             EDA.covariance :=
               new_covariance (EDA.covariance e1) (evaluated_population (with_sorted full)) |},
          Returns tt).
Proof.
  intros p1 full Hfirst Hidx Hsg Hs Hf Hmu.
  rewrite (eda_tell_at test new_covariance x value sg idx e e1 Hfirst Hidx Hsg). fold p1 full.
  assert (Hlen : Py.len (evaluated_population full) = Py.len (evaluated_population p1) + 1).
  { unfold full, moved_at, Py.len.
    cbn [evaluated_population set_unevaluated_population_sigma set_unevaluated_population
         set_evaluated_population_sigma set_evaluated_population_fitness
         set_evaluated_population].
    rewrite length_app. cbn [length]. lia. }
  destruct (Z.ltb_spec (Py.len (evaluated_population p1) + 1) (llambda p1)) as [Hbelow|Hfull].
  - apply reestimate_skip. cbn [EDA.population EDA.set_population]. fold full.
    rewrite Hlen. exact Hbelow.
  - rewrite reestimate_full; cbn [EDA.population EDA.set_population EDA.covariance]; fold full.
    + destruct e1; reflexivity.
    + rewrite Hlen. exact Hfull.
    + rewrite Hlen. exact Hmu.
    + unfold full, moved_at.
      cbn [evaluated_population evaluated_population_sigma
           set_unevaluated_population_sigma set_unevaluated_population
           set_evaluated_population_sigma set_evaluated_population_fitness
           set_evaluated_population].
      rewrite !length_app, Hs. reflexivity.
    + unfold full, moved_at.
      cbn [evaluated_population evaluated_population_fitness
           set_unevaluated_population_sigma set_unevaluated_population
           set_evaluated_population_sigma set_evaluated_population_fitness
           set_evaluated_population].
      rewrite !length_app, Hf. reflexivity.
Qed.

(** An individual of the cohort: the point told, the step size it
    was drawn with, and the value told for it. *)
Definition points (inds : list (Point * float * float)) : list Point := (λ i, i.1.1) <$> inds.
Definition step_sizes (inds : list (Point * float * float)) : list float :=
  (λ i, i.1.2) <$> inds.
Definition values (inds : list (Point * float * float)) : list float := (λ i, i.2) <$> inds.

(** The individuals are told in turn, each as a point that is
    pending: the first pending point equal to the point told leaves
    the pending lists, with its step size, which is the step size of
    the individual. [taken] answers the pending lists that are left,
    or nothing when a point is not pending when it is told. *)
Fixpoint taken (pending : list Point) (sigmas : list float)
    (cohort : list (Point * float * float)) : option (list Point * list float) :=
  match cohort with
  | [] => Some (pending, sigmas)
  | (x, sg, _) :: rest =>
      match Py.list_index Py.tuple_eqb pending x with
      | inr idx =>
          if bool_decide (sigmas !! idx = Some sg)
          then taken (delete idx pending) (delete idx sigmas) rest
          else None
      | inl _ => None
      end
  end.

Lemma taken_app (pending : list Point) (sigmas : list float)
    (inds more : list (Point * float * float)) :
  taken pending sigmas (inds ++ more)
  = match taken pending sigmas inds with
    | Some (pending', sigmas') => taken pending' sigmas' more
    | None => None
    end.
Proof.
  revert pending sigmas. induction inds as [|[[x sg] v] inds IH]; intros pending sigmas;
    [reflexivity|].
  cbn [taken app]. destruct (Py.list_index Py.tuple_eqb pending x) as [e|idx]; [reflexivity|].
  destruct (bool_decide (sigmas !! idx = Some sg)); [apply IH|reflexivity].
Qed.

(** The tells of the individuals, in turn. *)
Definition tell_all (test : bool) (new_covariance : Vec.Matrix → list Point → Vec.Matrix)
    (inds : list (Point * float * float)) : py EDA.t unit :=
  for_each inds (λ i, eda_tell test new_covariance i.1.1 i.2).

(** The population after tells that re-estimate nothing: the
    individuals told have joined the evaluated lists, and the pending
    lists are what is left of them. *)
Definition fed_with (test : bool) (cohort : list (Point * float * float))
    (pending : list Point) (sigmas : list float) (p : t) : t :=
  set_unevaluated_population_sigma sigmas
    (set_unevaluated_population pending
       (set_evaluated_population_sigma (evaluated_population_sigma p ++ step_sizes cohort)
          (set_evaluated_population_fitness (evaluated_population_fitness p ++ values cohort)
             (set_evaluated_population (evaluated_population p ++ points cohort)
                (if test then set_archive_fitness (archive_fitness p ++ values cohort) p
                 else p))))).

Lemma fed_with_cons (test : bool) (cohort : list (Point * float * float))
    (pending : list Point) (sigmas : list float) (idx : nat) (x : Point) (sg v : float)
    (p : t) :
  fed_with test cohort pending sigmas (moved_at idx x sg v (appended_if test v p))
  = fed_with test ((x, sg, v) :: cohort) pending sigmas p.
Proof.
  unfold fed_with, moved_at, appended_if, points, step_sizes, values.
  destruct p, test; cbn; rewrite <- !app_assoc; reflexivity.
Qed.

Lemma fed_with_nothing (test : bool) (p : t) :
  fed_with test [] (unevaluated_population p) (unevaluated_population_sigma p) p = p.
Proof.
  unfold fed_with, points, step_sizes, values. destruct p, test; cbn; rewrite !app_nil_r;
    reflexivity.
Qed.

Lemma feed_below (test : bool) (new_covariance : Vec.Matrix → list Point → Vec.Matrix)
    (inds : list (Point * float * float)) (e : EDA.t) (pending' : list Point)
    (sigmas' : list float) :
  let p := EDA.population e in
  taken (unevaluated_population p) (unevaluated_population_sigma p) inds
  = Some (pending', sigmas') →
  (test = true → Py.len (archive_fitness p) + Py.len inds < 5 * llambda p) →
  Py.len (evaluated_population p) + Py.len inds < llambda p →
  tell_all test new_covariance inds e
  = (EDA.set_population (fed_with test inds pending' sigmas' p) e, Returns tt).
Proof.
  revert e. induction inds as [|[[x sg] v] inds IH]; intros e p Htaken Harchive Hbelow;
    subst p.
  - injection Htaken as <- <-. rewrite fed_with_nothing. destruct e; reflexivity.
  - cbn [taken] in Htaken.
    destruct (Py.list_index Py.tuple_eqb (unevaluated_population (EDA.population e)) x)
      as [err|idx] eqn:Hidx; [discriminate|].
    destruct (bool_decide (unevaluated_population_sigma (EDA.population e) !! idx = Some sg))
      eqn:Hsg; [|discriminate].
    apply bool_decide_eq_true_1 in Hsg.
    unfold Py.len in Harchive, Hbelow. cbn [length] in Harchive, Hbelow.
    unfold tell_all in *. cbn [for_each fst snd]. unfold mbind, py_mbind, Py.bind.
    rewrite (eda_tell_at test new_covariance x v sg idx e
               (EDA.set_population (appended_if test v (EDA.population e)) e));
      [|apply test_phase; intros Ht; specialize (Harchive Ht); unfold Py.len; lia
       |cbn [EDA.population EDA.set_population]; destruct test; exact Hidx
       |cbn [EDA.population EDA.set_population]; destruct test; exact Hsg].
    cbn [EDA.population EDA.set_population].
    rewrite reestimate_skip.
    + rewrite IH.
      * cbn [EDA.population EDA.set_population]. rewrite fed_with_cons.
        destruct e; reflexivity.
      * cbn [EDA.population EDA.set_population]. unfold moved_at.
        cbn [unevaluated_population unevaluated_population_sigma
             set_unevaluated_population_sigma set_unevaluated_population].
        destruct test; exact Htaken.
      * intros Ht. specialize (Harchive Ht). subst test.
        cbn [EDA.population EDA.set_population]. unfold moved_at, appended_if, Py.len.
        cbn [archive_fitness llambda set_unevaluated_population_sigma
             set_unevaluated_population set_evaluated_population_sigma
             set_evaluated_population_fitness set_evaluated_population set_archive_fitness].
        rewrite length_app. cbn [length]. lia.
      * cbn [EDA.population EDA.set_population]. unfold moved_at, Py.len.
        cbn [evaluated_population llambda set_unevaluated_population_sigma
             set_unevaluated_population set_evaluated_population_sigma
             set_evaluated_population_fitness set_evaluated_population].
        rewrite length_app. cbn [length]. destruct test; cbn; lia.
    + cbn [EDA.population EDA.set_population]. unfold moved_at, Py.len.
      cbn [evaluated_population llambda set_unevaluated_population_sigma
           set_unevaluated_population set_evaluated_population_sigma
           set_evaluated_population_fitness set_evaluated_population].
      rewrite length_app. cbn [length]. destruct test; cbn; lia.
Qed.

Lemma for_each_app {S A} (l1 l2 : list A) (body : A → py S unit) (s : S) :
  for_each (l1 ++ l2) body s
  = match for_each l1 body s with
    | (s', Returns _) => for_each l2 body s'
    | (s', Raises e) => (s', Raises e)
    end.
Proof.
  revert s. induction l1 as [|a l1 IH]; intros s; [reflexivity|].
  simpl. unfold mbind, py_mbind, Py.bind.
  destruct (body a s) as [s' [[]|e]]; [apply IH|reflexivity].
Qed.

Lemma for_each_one {S A} (a : A) (body : A → py S unit) (s : S) :
  for_each [a] body s = body a s.
Proof.
  simpl. unfold mbind, py_mbind, Py.bind. destruct (body a s) as [s' [[]|e]]; reflexivity.
Qed.

(** The entry of the cohort that [sorted] compares: the value first. *)
Definition entry (i : Point * float * float) : float * Point * float := (i.2, i.1.1, i.1.2).

Lemma zip3_entries (inds : list (Point * float * float)) :
  zip3 (values inds) (points inds) (step_sizes inds) = entry <$> inds.
Proof.
  induction inds as [|[[x sg] v] inds IH]; [reflexivity|].
  unfold zip3, values, points, step_sizes in *. rewrite !fmap_cons. cbn [zip zip_with].
  f_equal. exact IH.
Qed.

(** The sorted cohort: its points and their step sizes, best first. *)
Definition sorted_cohort (cohort : list (Point * float * float)) : list (float * Point * float) :=
  Py.sorted entry_ltb (entry <$> cohort).
Definition sorted_points (cohort : list (Point * float * float)) : list Point :=
  (λ en, en.1.2) <$> sorted_cohort cohort.
Definition sorted_step_sizes (cohort : list (Point * float * float)) : list float :=
  (λ en, en.2) <$> sorted_cohort cohort.

Lemma with_sorted_lists (cohort : list (Point * float * float)) (q : t) :
  evaluated_population q = points cohort →
  evaluated_population_sigma q = step_sizes cohort →
  evaluated_population_fitness q = values cohort →
  evaluated_population (with_sorted q) = sorted_points cohort
  ∧ evaluated_population_sigma (with_sorted q) = sorted_step_sizes cohort.
Proof.
  intros Hp Hs Hf. unfold with_sorted, sorted_pop_with_sigma_and_fitness.
  cbn [evaluated_population evaluated_population_sigma set_evaluated_population_fitness
       set_evaluated_population_sigma set_evaluated_population].
  rewrite Hp, Hs, Hf, zip3_entries. unfold sorted_points, sorted_step_sizes, sorted_cohort.
  rewrite <- !list_fmap_compose.
  split; apply list_fmap_ext; intros _ [[f i] sg] _; reflexivity.
Qed.

Lemma sorted_points_length (cohort : list (Point * float * float)) :
  length (sorted_points cohort) = length cohort.
Proof.
  unfold sorted_points, sorted_cohort. rewrite length_fmap, sorted_length, length_fmap.
  reflexivity.
Qed.

Lemma sorted_step_sizes_length (cohort : list (Point * float * float)) :
  length (sorted_step_sizes cohort) = length cohort.
Proof.
  unfold sorted_step_sizes, sorted_cohort. rewrite length_fmap, sorted_length, length_fmap.
  reflexivity.
Qed.

(** The state after the tells of a whole cohort, from a state with
    nothing evaluated: the tells of all but the last individual, and
    the tell of the last. *)
Lemma feed_cohort (test : bool) (new_covariance : Vec.Matrix → list Point → Vec.Matrix)
    (inds : list (Point * float * float)) (last : Point * float * float) (e : EDA.t)
    (pending' : list Point) (sigmas' : list float) :
  let p := EDA.population e in
  let cohort := inds ++ [last] in
  evaluated_population p = [] →
  evaluated_population_sigma p = [] →
  evaluated_population_fitness p = [] →
  taken (unevaluated_population p) (unevaluated_population_sigma p) cohort
  = Some (pending', sigmas') →
  Py.len cohort = llambda p →
  1 ≤ mu p ≤ llambda p →
  (test = true → Py.len (archive_fitness p) + llambda p < 5 * llambda p) →
  (∃ pending sigmas,
     tell_all test new_covariance inds e
     = (EDA.set_population (fed_with test inds pending sigmas p) e, Returns tt)
     ∧ taken pending sigmas [last] = Some (pending', sigmas'))
  ∧ ∃ complete,
      tell_all test new_covariance cohort e
      = ({| EDA.population := with_new_parent complete;
            EDA.covariance := new_covariance (EDA.covariance e) (sorted_points cohort) |},
         Returns tt)
      ∧ evaluated_population complete = sorted_points cohort
      ∧ evaluated_population_sigma complete = sorted_step_sizes cohort
      ∧ mu complete = mu p
      ∧ llambda complete = llambda p
      ∧ unevaluated_population complete = pending'
      ∧ unevaluated_population_sigma complete = sigmas'.
Proof.
  intros p cohort Hep Hes Hef Htaken Hlen Hmu Harchive. subst p cohort.
  unfold Py.len in *. rewrite length_app in Hlen. cbn [length] in Hlen.
  rewrite taken_app in Htaken.
  destruct (taken (unevaluated_population (EDA.population e))
              (unevaluated_population_sigma (EDA.population e)) inds)
    as [[pending sigmas]|] eqn:Hinds; [|discriminate].
  pose proof (feed_below test new_covariance inds e pending sigmas Hinds) as Hfed.
  cbv zeta in Hfed. unfold Py.len in Hfed.
  specialize (Hfed ltac:(intros Ht; specialize (Harchive Ht); lia)
                   ltac:(rewrite Hep; cbn [length]; lia)).
  split; [exists pending, sigmas; split; [exact Hfed|exact Htaken]|].
  destruct last as [[x sg] v]. cbn [taken] in Htaken.
  destruct (Py.list_index Py.tuple_eqb pending x) as [err|idx] eqn:Hidx; [discriminate|].
  destruct (bool_decide (sigmas !! idx = Some sg)) eqn:Hsg; [|discriminate].
  apply bool_decide_eq_true_1 in Hsg. injection Htaken as <- <-.
  set (q := fed_with test inds pending sigmas (EDA.population e)) in *.
  set (q1 := moved_at idx x sg v (appended_if test v q)).
  assert (Hq1p : evaluated_population q1 = points (inds ++ [(x, sg, v)])).
  { unfold q1, q, moved_at, fed_with, points. destruct test; cbn; rewrite Hep, fmap_app;
      reflexivity. }
  assert (Hq1s : evaluated_population_sigma q1 = step_sizes (inds ++ [(x, sg, v)])).
  { unfold q1, q, moved_at, fed_with, step_sizes. destruct test; cbn;
      rewrite Hes, fmap_app; reflexivity. }
  assert (Hq1f : evaluated_population_fitness q1 = values (inds ++ [(x, sg, v)])).
  { unfold q1, q, moved_at, fed_with, values. destruct test; cbn; rewrite Hef, fmap_app;
      reflexivity. }
  assert (Hsizes : mu q1 = mu (EDA.population e) ∧ llambda q1 = llambda (EDA.population e)).
  { unfold q1, q, moved_at, fed_with. destruct test; split; reflexivity. }
  destruct Hsizes as [Hm Hl].
  destruct (with_sorted_lists (inds ++ [(x, sg, v)]) q1 Hq1p Hq1s Hq1f) as [Hsp Hss].
  exists (with_sorted q1).
  unfold tell_all. rewrite for_each_app.
  fold (tell_all test new_covariance inds e). rewrite Hfed, for_each_one. cbn [fst snd].
  rewrite (eda_tell_at test new_covariance x v sg idx (EDA.set_population q e)
             (EDA.set_population (appended_if test v q) e)).
  - cbn [EDA.population EDA.set_population]. fold q1.
    rewrite reestimate_full; cbn [EDA.population EDA.set_population EDA.covariance].
    + rewrite Hsp. split; [reflexivity|]. split; [reflexivity|]. split; [exact Hss|].
      unfold with_sorted.
      cbn [mu llambda unevaluated_population unevaluated_population_sigma
           set_evaluated_population_fitness set_evaluated_population_sigma
           set_evaluated_population].
      split; [exact Hm|]. split; [exact Hl|].
      unfold q1, moved_at. destruct test; split; reflexivity.
    + rewrite Hl, Hq1p. unfold Py.len, points. rewrite length_fmap, length_app.
      cbn [length]. lia.
    + rewrite Hm, Hq1p. unfold Py.len, points. rewrite length_fmap, length_app.
      cbn [length]. lia.
    + rewrite Hq1p, Hq1s. unfold points, step_sizes. rewrite !length_fmap. reflexivity.
    + rewrite Hq1p, Hq1f. unfold points, values. rewrite !length_fmap. reflexivity.
  - rewrite test_phase.
    + destruct e; reflexivity.
    + intros Ht. specialize (Harchive Ht). subst test.
      cbn [EDA.population EDA.set_population]. unfold q, fed_with, Py.len, values.
      cbn [archive_fitness llambda set_unevaluated_population_sigma
           set_unevaluated_population set_evaluated_population_sigma
           set_evaluated_population_fitness set_evaluated_population set_archive_fitness].
      rewrite length_app, length_fmap. lia.
  - cbn [EDA.population EDA.set_population]. unfold q, fed_with.
    destruct test; exact Hidx.
  - cbn [EDA.population EDA.set_population]. unfold q, fed_with.
    destruct test; exact Hsg.
Qed.

Lemma for_each_ext {S A} (l : list A) (f g : A → py S unit) (s : S) :
  (∀ a s, f a s = g a s) → for_each l f s = for_each l g s.
Proof.
  intros Hfg. revert s. induction l as [|a l IH]; intros s; [reflexivity|].
  simpl. unfold mbind, py_mbind, Py.bind. rewrite Hfg.
  destruct (g a s) as [s' [[]|e]]; [apply IH|reflexivity].
Qed.

(** The four classes that keep a covariance, with the tell of each. *)
Inductive variant : Type := class_EDA | class_PCEDA | class_MPCEDA | class_MEDA.

Definition tell_of (v : variant) : Point → float → py EDA.t unit :=
  match v with
  | class_EDA => EDA._internal_tell
  | class_PCEDA => EDA.PCEDA_internal_tell
  | class_MPCEDA => EDA.MPCEDA_internal_tell
  | class_MEDA => EDA.MEDA_internal_tell
  end.

(** The covariance each class assigns at a re-estimation. *)
Definition covariance_of (v : variant) (old : Vec.Matrix) (pop : list Point) : Vec.Matrix :=
  match v with
  | class_EDA => Vec.mscale (Float.lit 1 10) (np_cov pop)
  | class_PCEDA => np_cov pop
  | class_MPCEDA | class_MEDA =>
      Vec.madd (Vec.mscale (Float.lit 9 10) old) (Vec.mscale (Float.lit 1 10) (np_cov pop))
  end.

(** The classes whose tell starts with the population-size test. *)
Definition tests (v : variant) : bool :=
  match v with class_PCEDA | class_MPCEDA => true | class_EDA | class_MEDA => false end.

Lemma tell_of_variant (v : variant) (x : Point) (value : float) (self : EDA.t) :
  tell_of v x value self = eda_tell (tests v) (covariance_of v) x value self.
Proof. destruct v; reflexivity. Qed.

(** The tells of the individuals, in turn. *)
Definition tell_cohort {S} (tell : Point → float → py S unit)
    (inds : list (Point * float * float)) : py S unit :=
  for_each inds (λ i, tell i.1.1 i.2).

Lemma tell_cohort_variant (v : variant) (inds : list (Point * float * float)) (e : EDA.t) :
  tell_cohort (tell_of v) inds e = tell_all (tests v) (covariance_of v) inds e.
Proof. apply for_each_ext. intros i s. apply tell_of_variant. Qed.

Lemma tell_cohort_tbpsa (inds : list (Point * float * float)) (p : t) (covariance : Vec.Matrix) :
  tell_cohort _internal_tell inds p
  = let told := tell_all true (λ old _, old) inds (EDA.Build_t p covariance) in
    (EDA.population (fst told), snd told).
Proof.
  revert p covariance. induction inds as [|[[x sg] v] inds IH]; intros p covariance;
    [reflexivity|].
  unfold tell_cohort, tell_all in *. cbv zeta in *. simpl.
  unfold mbind, py_mbind, Py.bind.
  rewrite (tbpsa_tells_as_eda x v p covariance). cbv zeta.
  destruct (eda_tell true (λ old _, old) x v (EDA.Build_t p covariance)) as [[p1 c1] [[]|ex]];
    cbn [fst snd EDA.population]; [|reflexivity].
  apply IH.
Qed.

(** An individual whose value, point and step size hold no nan. With
    a nan among them [sorted] compares entries that [<] does not
    order, and what it answers depends on the algorithm of the
    runtime and on the identity of the objects compared. *)
Definition without_nan (i : Point * float * float) : Prop :=
  Float.isnan i.2 = false ∧ existsb Float.isnan i.1.1 = false ∧ Float.isnan i.1.2 = false.

(** The evaluated lists of a state, as individuals. *)
Definition evaluated (q : t) : list (Point * float * float) :=
  zip (zip (evaluated_population q) (evaluated_population_sigma q))
    (evaluated_population_fitness q).

Lemma fed_with_fields (test : bool) (cohort : list (Point * float * float))
    (pending : list Point) (sigmas : list float) (p : t) :
  let q := fed_with test cohort pending sigmas p in
  current_center q = current_center p
  ∧ sigma q = sigma p
  ∧ evaluated_population q = evaluated_population p ++ points cohort
  ∧ evaluated_population_sigma q = evaluated_population_sigma p ++ step_sizes cohort
  ∧ evaluated_population_fitness q = evaluated_population_fitness p ++ values cohort
  ∧ unevaluated_population q = pending
  ∧ unevaluated_population_sigma q = sigmas.
Proof. unfold fed_with. destruct test; repeat split. Qed.

(** C4 (as amended). Take a state with nothing evaluated and
    [llambda] individuals that are told in turn, in any order, each
    as a point that is pending, with [1 <= mu <= llambda] and no nan
    among their values, points and step sizes; an individual has the
    step size of the first pending point equal to the point told.
    For the classes that run the population-size test, let the
    archive stay below [5 llambda] during these tells. The tells of
    all but the last individual return and leave the center, the step
    size and the covariance as they were, with the individuals told
    in the evaluated lists. The tells of all [llambda] return; the
    center is then the mean of the first [mu] points of the cohort
    sorted, the step size the exponential of the mean logarithm of
    their step sizes, the evaluated lists are empty and the
    unevaluated lists hold the pending points that were not told.
    The sorted cohort is a permutation of the cohort, in the order of
    the values. The covariance is [0.1 cov] of the sorted points for
    EDA, [cov] for PCEDA and [0.9 old + 0.1 cov] for MPCEDA and MEDA.
    TBPSA does the same with the center, the step size and the lists,
    and keeps no covariance. Whatever the archive, and whatever the
    population-size test has made of [mu] and [llambda] when it
    returns, one tell moves the first pending point equal to its
    point and no more while the evaluated list is below the
    [llambda] the test has left, and re-estimates as above, with the
    [mu] the test has left, when the list reaches it. *)
Theorem cohort_reestimation (v : variant) (inds : list (Point * float * float))
    (last : Point * float * float) (pending' : list Point) (sigmas' : list float) (e : EDA.t) :
  let p := EDA.population e in
  let cohort := inds ++ [last] in
  let quiet := Py.len (archive_fitness p) + llambda p < 5 * llambda p in
  evaluated_population p = [] →
  evaluated_population_sigma p = [] →
  evaluated_population_fitness p = [] →
  taken (unevaluated_population p) (unevaluated_population_sigma p) cohort
  = Some (pending', sigmas') →
  Py.len cohort = llambda p →
  1 ≤ mu p ≤ llambda p →
  Forall without_nan cohort →
  let before := tell_cohort (tell_of v) inds e in
  let after := tell_cohort (tell_of v) cohort e in
  let tbpsa_before := tell_cohort _internal_tell inds p in
  let tbpsa_after := tell_cohort _internal_tell cohort p in
  ((tests v = true → quiet) →
   (snd before = Returns tt
    ∧ current_center (EDA.population (fst before)) = current_center p
    ∧ sigma (EDA.population (fst before)) = sigma p
    ∧ EDA.covariance (fst before) = EDA.covariance e
    ∧ evaluated (EDA.population (fst before)) = inds
    ∧ taken (unevaluated_population (EDA.population (fst before)))
        (unevaluated_population_sigma (EDA.population (fst before))) [last]
      = Some (pending', sigmas'))
   ∧ (snd after = Returns tt
      ∧ current_center (EDA.population (fst after))
        = mean_of_best (mu p) (sorted_points cohort)
      ∧ sigma (EDA.population (fst after))
        = geometric_mean_of_best (mu p) (sorted_step_sizes cohort)
      ∧ EDA.covariance (fst after) = covariance_of v (EDA.covariance e) (sorted_points cohort)
      ∧ evaluated_population (EDA.population (fst after)) = []
      ∧ evaluated_population_sigma (EDA.population (fst after)) = []
      ∧ evaluated_population_fitness (EDA.population (fst after)) = []
      ∧ unevaluated_population (EDA.population (fst after)) = pending'
      ∧ unevaluated_population_sigma (EDA.population (fst after)) = sigmas'))
  ∧ (sorted_cohort cohort ≡ₚ entry <$> cohort
     ∧ Sorted (not_after entry_ltb) (sorted_cohort cohort)
     ∧ Sorted (λ a b, Float.leb (fitness_of a) (fitness_of b) = true) (sorted_cohort cohort))
  ∧ (quiet →
     (snd tbpsa_before = Returns tt
      ∧ current_center (fst tbpsa_before) = current_center p
      ∧ sigma (fst tbpsa_before) = sigma p
      ∧ evaluated (fst tbpsa_before) = inds
      ∧ taken (unevaluated_population (fst tbpsa_before))
          (unevaluated_population_sigma (fst tbpsa_before)) [last]
        = Some (pending', sigmas'))
     ∧ (snd tbpsa_after = Returns tt
        ∧ current_center (fst tbpsa_after) = mean_of_best (mu p) (sorted_points cohort)
        ∧ sigma (fst tbpsa_after) = geometric_mean_of_best (mu p) (sorted_step_sizes cohort)
        ∧ evaluated_population (fst tbpsa_after) = []
        ∧ evaluated_population_sigma (fst tbpsa_after) = []
        ∧ evaluated_population_fitness (fst tbpsa_after) = []
        ∧ unevaluated_population (fst tbpsa_after) = pending'
        ∧ unevaluated_population_sigma (fst tbpsa_after) = sigmas'))
  ∧ (∀ (e0 e1 : EDA.t) (x : Point) (value sg : float) (idx : nat),
       let p1 := EDA.population e1 in
       let full := moved_at idx x sg value p1 in
       (if tests v then EDA.on_population (population_size_test value) else mret tt) e0
       = (e1, Returns tt) →
       Py.list_index Py.tuple_eqb (unevaluated_population p1) x = inr idx →
       unevaluated_population_sigma p1 !! idx = Some sg →
       length (evaluated_population_sigma p1) = length (evaluated_population p1) →
       length (evaluated_population_fitness p1) = length (evaluated_population p1) →
       1 ≤ mu p1 ≤ Py.len (evaluated_population p1) + 1 →
       Forall without_nan (evaluated full) →
       tell_of v x value e0
       = if Py.len (evaluated_population p1) + 1 <? llambda p1
         then (EDA.set_population full e1, Returns tt)
         else ({| EDA.population := with_new_parent (with_sorted full);
                  EDA.covariance :=
                    covariance_of v (EDA.covariance e1)
                      (evaluated_population (with_sorted full)) |},
               Returns tt))
  ∧ (∀ (p0 p1 : t) (x : Point) (value sg : float) (idx : nat),
       let full := moved_at idx x sg value p1 in
       population_size_test value p0 = (p1, Returns tt) →
       Py.list_index Py.tuple_eqb (unevaluated_population p1) x = inr idx →
       unevaluated_population_sigma p1 !! idx = Some sg →
       length (evaluated_population_sigma p1) = length (evaluated_population p1) →
       length (evaluated_population_fitness p1) = length (evaluated_population p1) →
       1 ≤ mu p1 ≤ Py.len (evaluated_population p1) + 1 →
       Forall without_nan (evaluated full) →
       _internal_tell x value p0
       = if Py.len (evaluated_population p1) + 1 <? llambda p1
         then (full, Returns tt)
         else (with_new_parent (with_sorted full), Returns tt)).
Proof.
  intros p cohort quiet Hep Hes Hef Htaken Hlen Hmu Hnan before after tbpsa_before tbpsa_after.
  assert (Hsorted : Sorted (not_after entry_ltb) (sorted_cohort cohort))
    by apply (sorted_Sorted entry_ltb entry_ltb_asym).
  assert (Hcohort : ∀ q, evaluated_population q = [] ++ points inds →
                         evaluated_population_sigma q = [] ++ step_sizes inds →
                         evaluated_population_fitness q = [] ++ values inds →
                         evaluated q = inds).
  { intros q Hp Hs Hf. unfold evaluated. rewrite Hp, Hs, Hf. cbn [app].
    unfold points, step_sizes, values. clear.
    induction inds as [|[[x sg] value] inds IH]; [reflexivity|].
    rewrite !fmap_cons. cbn [zip zip_with fst snd]. f_equal. exact IH. }
  split; [|split; [|split; [|split]]].
  - intros Hquiet.
    destruct (feed_cohort (tests v) (covariance_of v) inds last e pending' sigmas'
                Hep Hes Hef Htaken Hlen Hmu Hquiet)
      as ((pending & sigmas & Hfed & Hlast) & (c & Hall & Hcp & Hcs & Hcm & Hcl & Hcu & Hcus)).
    split.
    + subst before. rewrite tell_cohort_variant, Hfed. cbn [fst snd].
      destruct (fed_with_fields (tests v) inds pending sigmas p)
        as (Hc & Hs & Hfp & Hfs & Hff & Hfu & Hfus). cbv zeta in *.
      destruct e as [p0 c0]. cbn [EDA.population EDA.covariance EDA.set_population] in *.
      subst p. rewrite Hfu, Hfus. rewrite Hep in Hfp. rewrite Hes in Hfs. rewrite Hef in Hff.
      repeat match goal with |- _ ∧ _ => split end;
        try reflexivity; try assumption.
      apply Hcohort; assumption.
    + subst after. rewrite tell_cohort_variant. fold cohort in Hall. rewrite Hall.
      cbn [fst snd EDA.population EDA.covariance]. unfold with_new_parent.
      cbn [current_center sigma evaluated_population evaluated_population_sigma
           evaluated_population_fitness unevaluated_population unevaluated_population_sigma
           set_evaluated_population_fitness set_evaluated_population_sigma
           set_evaluated_population set_sigma set_current_center].
      rewrite Hcp, Hcs, Hcm. repeat split; assumption.
  - split; [apply sorted_permutation|]. split; [exact Hsorted|].
    apply Sorted_by_fitness; [|exact Hsorted].
    unfold sorted_cohort. rewrite (sorted_permutation entry_ltb (entry <$> cohort)).
    apply Forall_fmap. apply (Forall_impl _ _ _ Hnan). intros i (Hi & _). exact Hi.
  - intros Hquiet.
    destruct (feed_cohort true (λ old _, old) inds last e pending' sigmas'
                Hep Hes Hef Htaken Hlen Hmu (λ _, Hquiet))
      as ((pending & sigmas & Hfed & Hlast) & (c & Hall & Hcp & Hcs & Hcm & Hcl & Hcu & Hcus)).
    split.
    + subst tbpsa_before. rewrite (tell_cohort_tbpsa inds p (EDA.covariance e)). cbv zeta.
      replace (EDA.Build_t p (EDA.covariance e)) with e by (destruct e; reflexivity).
      rewrite Hfed. cbn [fst snd].
      destruct (fed_with_fields true inds pending sigmas p)
        as (Hc & Hs & Hfp & Hfs & Hff & Hfu & Hfus). cbv zeta in *.
      destruct e as [p0 c0]. cbn [EDA.population EDA.covariance EDA.set_population] in *.
      subst p. rewrite Hfu, Hfus. rewrite Hep in Hfp. rewrite Hes in Hfs. rewrite Hef in Hff.
      repeat match goal with |- _ ∧ _ => split end;
        try reflexivity; try assumption.
      apply Hcohort; assumption.
    + subst tbpsa_after. rewrite (tell_cohort_tbpsa cohort p (EDA.covariance e)). cbv zeta.
      replace (EDA.Build_t p (EDA.covariance e)) with e by (destruct e; reflexivity).
      fold cohort in Hall. rewrite Hall.
      cbn [fst snd EDA.population EDA.covariance]. unfold with_new_parent.
      cbn [current_center sigma evaluated_population evaluated_population_sigma
           evaluated_population_fitness unevaluated_population unevaluated_population_sigma
           set_evaluated_population_fitness set_evaluated_population_sigma
           set_evaluated_population set_sigma set_current_center].
      rewrite Hcp, Hcs, Hcm. repeat split; assumption.
  - intros e0 e1 x value sg idx p1 full Hfirst Hidx Hsg Hs Hf Hmu1 _.
    rewrite tell_of_variant.
    exact (eda_tell_law (tests v) (covariance_of v) x value sg idx e0 e1
             Hfirst Hidx Hsg Hs Hf Hmu1).
  - intros p0 p1 x value sg idx full Hfirst Hidx Hsg Hs Hf Hmu1 _.
    rewrite (tbpsa_tells_as_eda x value p0 (EDA.covariance e)). cbv zeta.
    rewrite (eda_tell_law true (λ old _, old) x value sg idx
               (EDA.Build_t p0 (EDA.covariance e)) (EDA.Build_t p1 (EDA.covariance e)));
      cbn [EDA.population]; try assumption.
    + fold full. destruct (Py.len (evaluated_population p1) + 1 <? llambda p1); reflexivity.
    + rewrite on_population_effect. cbn [EDA.population EDA.set_population].
      rewrite Hfirst. reflexivity.
Qed.

End reestimation.

(** A new EDA and a new TBPSA of dimension one ([mu = 1],
    [llambda = 4]) asked four times: the step-size draw is 0, and the
    samples are the points [(k)] for [k] in [ks], in turn. *)
Definition fresh_eda : EDA.t :=
  match EDA.__init__ 1 None 1 with
  | inr self => self
  | inl _ => EDA.Build_t fresh_tbpsa []
  end.

Definition eda_asked (ks : list Z) : EDA.t :=
  foldl (λ self k,
           fst (EDA._internal_ask (numerics := table_numerics)
                  {| EDA.normal := Float.zero;
                     EDA.multivariate_normal := λ _ _, [Float.of_Z k] |} self))
        fresh_eda ks.

Definition tbpsa_asked (ks : list Z) : TBPSA.t :=
  foldl (λ self k,
           fst (TBPSA._internal_ask (numerics := table_numerics)
                  {| TBPSA.normal := Float.zero; TBPSA.normal_vector := [Float.of_Z k] |} self))
        fresh_tbpsa ks.

(** The individuals [(k)], of step size 1, told the values [vs]. *)
Definition individuals (ks vs : list Z) : list (Point * float * float) :=
  zip_with (λ k v, ([Float.of_Z k], Float.of_Z 1, Float.of_Z v)) ks vs.

(** The points 3, 1, 4, 2 of an EDA, told their own values in the
    order 1, 3, 2, 4: three tells change neither the center nor the
    covariance; the fourth moves the center to the best point, [(1)],
    and replaces the covariance by a tenth of that of the four
    points. *)
Lemma cohort_reestimation_witness :
  let e := eda_asked [3; 1; 4; 2] in
  let inds := individuals [1; 3; 2] [1; 3; 2] in
  let last := ([Float.of_Z 4], Float.of_Z 1, Float.of_Z 4) in
  let before := fst (tell_cohort (tell_of (numerics := table_numerics) class_EDA) inds e) in
  let after :=
    fst (tell_cohort (tell_of (numerics := table_numerics) class_EDA) (inds ++ [last]) e) in
  TBPSA.unevaluated_population (EDA.population e)
  = [[Float.of_Z 3]; [Float.of_Z 1]; [Float.of_Z 4]; [Float.of_Z 2]]
  ∧ TBPSA.llambda (EDA.population e) = 4
  ∧ TBPSA.mu (EDA.population e) = 1
  ∧ TBPSA.current_center (EDA.population before) = [Float.zero]
  ∧ EDA.covariance before = [[Float.of_Z 1]]
  ∧ evaluated (EDA.population before) = inds
  ∧ TBPSA.unevaluated_population (EDA.population before) = [[Float.of_Z 4]]
  ∧ TBPSA.current_center (EDA.population after) = [Float.of_Z 1]
  ∧ TBPSA.sigma (EDA.population after) = Float.of_Z 1
  ∧ EDA.covariance after
    = Vec.mscale (Float.lit 1 10)
        (textbook_cov [[Float.of_Z 1]; [Float.of_Z 2]; [Float.of_Z 3]; [Float.of_Z 4]])
  ∧ TBPSA.evaluated_population (EDA.population after) = []
  ∧ TBPSA.unevaluated_population (EDA.population after) = [].
Proof.
  intros e inds last before after.
  destruct (cohort_reestimation (numerics := table_numerics) class_EDA inds last [] [] e)
    as (Hmain & _); try (vm_compute; reflexivity).
  - vm_compute. split; discriminate.
  - repeat constructor.
  - destruct Hmain as ((_ & Hc & _ & Hcov & Hev & _) & (_ & Hc' & Hs' & Hcov' & He' & _ & _ & Hu' & _));
      [discriminate|].
    split; [vm_compute; reflexivity|]. do 2 (split; [reflexivity|]).
    split; [exact (eq_trans Hc eq_refl)|]. split; [exact (eq_trans Hcov eq_refl)|].
    split; [exact Hev|]. split; [vm_compute; reflexivity|].
    split; [etransitivity; [exact Hc'|vm_compute; reflexivity]|].
    split; [etransitivity; [exact Hs'|vm_compute; reflexivity]|].
    split; [etransitivity; [exact Hcov'|vm_compute; reflexivity]|].
    split; [exact He'|exact Hu'].
Defined.

(** Asks of a TBPSA in any state, with the step-size draw 0 and the
    samples [(k)] for [k] in [ks]; what is pending in a state, told
    the values [vs]; and one cohort: four asks, and the four points
    told the values 1, 2, 3, 4. *)
Definition tbpsa_asks (ks : list Z) (self : TBPSA.t) : TBPSA.t :=
  foldl (λ self k,
           fst (TBPSA._internal_ask (numerics := table_numerics)
                  {| TBPSA.normal := Float.zero; TBPSA.normal_vector := [Float.of_Z k] |} self))
        self ks.

Definition pending_told (self : TBPSA.t) (vs : list Z) : list (Point * float * float) :=
  zip (zip (TBPSA.unevaluated_population self) (TBPSA.unevaluated_population_sigma self))
    (Float.of_Z <$> vs).

Definition tbpsa_cohort (self : TBPSA.t) : TBPSA.t * outcome unit :=
  let asked := tbpsa_asks [1; 2; 3; 4] self in
  tell_cohort (TBPSA._internal_tell (numerics := table_numerics))
    (pending_told asked [1; 2; 3; 4]) asked.

Definition after_cohorts (n : nat) : TBPSA.t :=
  Nat.iter n (λ self, fst (tbpsa_cohort self)) fresh_tbpsa.

(** C4 (as stated) fails in two ways. TBPSA keeps no covariance: the
    cohorts 1, 2, 3, 4 and 1, 20, 30, 40, told the values 1, 2, 3, 4,
    have different covariances and leave a TBPSA in the same state,
    with the center at the best point, [(1)]; an EDA told the same
    cohorts ends with two different covariances. And a cohort of
    [llambda] individuals may end with no re-estimation: a new TBPSA
    of dimension one ([mu = 1], [llambda = 4]) is asked four points
    and told the values 1, 2, 3, 4, five times. The first four
    cohorts each end with a re-estimation, and leave 16 values in the
    archive. The tell of the fourth individual of the fifth cohort
    brings the archive to [5 llambda]; the two fifths compared have
    the same mean, so [mu] becomes 2 and [llambda] 8, and the four
    individuals stay in the evaluated lists: the center stays [(4)],
    and is not the best point of the cohort, [(5)]. *)
Lemma tbpsa_cohorts_off_the_claim :
  let told_values := [1; 2; 3; 4] in
  let near := individuals [1; 2; 3; 4] told_values in
  let far := individuals [1; 20; 30; 40] told_values in
  let tbpsa_tell := TBPSA._internal_tell (numerics := table_numerics) in
  let eda_tell := EDA._internal_tell (numerics := table_numerics) in
  let tbpsa_near := tell_cohort tbpsa_tell near (tbpsa_asked [1; 2; 3; 4]) in
  let tbpsa_far := tell_cohort tbpsa_tell far (tbpsa_asked [1; 20; 30; 40]) in
  let eda_near := tell_cohort eda_tell near (eda_asked [1; 2; 3; 4]) in
  let eda_far := tell_cohort eda_tell far (eda_asked [1; 20; 30; 40]) in
  let start := after_cohorts 4 in
  let asked := tbpsa_asks [1; 2; 3; 4] start in
  let fifth := pending_told asked [1; 2; 3; 4] in
  let told := tell_cohort tbpsa_tell fifth asked in
  (TBPSA.llambda fresh_tbpsa = 4
   ∧ TBPSA.unevaluated_population (tbpsa_asked [1; 2; 3; 4]) = points near
   ∧ TBPSA.unevaluated_population (tbpsa_asked [1; 20; 30; 40]) = points far
   ∧ snd tbpsa_near = Returns tt
   ∧ snd tbpsa_far = Returns tt
   ∧ textbook_cov (points near) ≠ textbook_cov (points far)
   ∧ fst tbpsa_near = fst tbpsa_far
   ∧ TBPSA.current_center (fst tbpsa_near) = [Float.of_Z 1]
   ∧ TBPSA.evaluated_population (fst tbpsa_near) = []
   ∧ EDA.covariance (fst eda_near) = Vec.mscale (Float.lit 1 10) (textbook_cov (points near))
   ∧ EDA.covariance (fst eda_far) = Vec.mscale (Float.lit 1 10) (textbook_cov (points far))
   ∧ EDA.covariance (fst eda_near) ≠ EDA.covariance (fst eda_far))
  ∧ ((λ n, snd (tbpsa_cohort (after_cohorts n))) <$> [0; 1; 2; 3; 4]%nat
     = replicate 5 (Returns tt)
     ∧ (λ n, TBPSA.current_center (after_cohorts n)) <$> [1; 2; 3; 4]%nat
       = [[Float.of_Z 1]; [Float.of_Z 2]; [Float.of_Z 3]; [Float.of_Z 4]]
     ∧ Py.len (TBPSA.archive_fitness start) = 16
     ∧ TBPSA.evaluated_population start = []
     ∧ TBPSA.unevaluated_population start = []
     ∧ TBPSA.mu asked = 1
     ∧ TBPSA.llambda asked = 4
     ∧ TBPSA.unevaluated_population asked
       = [[Float.of_Z 5]; [Float.of_Z 6]; [Float.of_Z 7]; [Float.of_Z 8]]
     ∧ points fifth = TBPSA.unevaluated_population asked
     ∧ values fifth = Float.of_Z <$> told_values
     ∧ snd told = Returns tt
     ∧ TBPSA.current_center asked = [Float.of_Z 4]
     ∧ TBPSA.current_center (fst told) = [Float.of_Z 4]
     ∧ TBPSA.sigma (fst told) = TBPSA.sigma asked
     ∧ TBPSA.evaluated_population (fst told) = points fifth
     ∧ TBPSA.unevaluated_population (fst told) = []
     ∧ TBPSA.mu (fst told) = 2
     ∧ TBPSA.llambda (fst told) = 8
     ∧ TBPSA.archive_fitness (fst told) = []
     ∧ mean_of_best 1 (sorted_points fifth) = [Float.of_Z 5]).
Proof.
  intros told_values near far tbpsa_tell eda_tell tbpsa_near tbpsa_far eda_near eda_far
    start asked fifth told.
  split.
  - repeat match goal with |- _ ∧ _ => split end;
      try (vm_compute; reflexivity); vm_compute; discriminate.
  - repeat match goal with |- _ ∧ _ => split end; vm_compute; reflexivity.
Qed.

(** * Further properties of the optimizers *)

(** ** The shares of the portfolios *)

Lemma foldl_add_shift (l : list Z) (a : Z) : foldl Z.add a l = a + foldl Z.add 0 l.
Proof.
  revert a. induction l as [|x l IH]; intros a; cbn [foldl]; [lia|].
  rewrite (IH (a + x)), (IH (0 + x)). lia.
Qed.

Lemma isum_app (l1 l2 : list Z) :
  ParaPortfolio.isum (l1 ++ l2) = ParaPortfolio.isum l1 + ParaPortfolio.isum l2.
Proof. unfold ParaPortfolio.isum. rewrite foldl_app. apply foldl_add_shift. Qed.

Lemma isum_replicate (n : nat) (v : Z) :
  ParaPortfolio.isum (replicate n v) = Z.of_nat n * v.
Proof.
  induction n as [|n IH]; [reflexivity|].
  change (replicate (S n) v) with ([v] ++ replicate n v). rewrite isum_app, IH.
  unfold ParaPortfolio.isum. simpl. lia.
Qed.

Lemma index_middle {A} (l1 l2 : list A) (v : A) :
  Py.index (l1 ++ v :: l2) (Z.of_nat (length l1)) = inr v.
Proof. apply index_nonneg. rewrite lookup_app_r, Nat.sub_diag by lia. reflexivity. Qed.

Lemma set_item_middle {A} (l1 l2 : list A) (v w : A) :
  Py.set_item (l1 ++ v :: l2) (Z.of_nat (length l1)) w = inr (l1 ++ w :: l2).
Proof.
  unfold Py.set_item. rewrite length_app. cbn [length].
  destruct (Z.ltb_spec (Z.of_nat (length l1)) 0) as [Hneg|_]; [lia|].
  rewrite in_range_true by lia. rewrite Nat2Z.id.
  replace (length l1) with (length l1 + 0)%nat at 1 by lia.
  rewrite insert_app_r. reflexivity.
Qed.

(** The loop of [intshare] from [a] entries raised, with [b] more to
    raise: it raises them and stops. *)
Lemma intshare_loop_raises (q : Z) (c b : nat) :
  ∀ (a rounds : nat) (n : Z),
    (b ≤ rounds)%nat →
    n = q * Z.of_nat (a + b + c) + Z.of_nat (a + b) →
    ParaPortfolio.intshare_loop rounds n (replicate a (q + 1) ++ replicate (b + c) q)
      (Z.of_nat a)
    = inr (replicate (a + b) (q + 1) ++ replicate c q).
Proof.
  induction b as [|b IH]; intros a rounds n Hrounds Hn.
  - assert (Hsum : (ParaPortfolio.isum (replicate a (q + 1) ++ replicate (0 + c) q) <? n)
                   = false).
    { rewrite isum_app, !isum_replicate. apply Z.ltb_ge. nia. }
    rewrite Nat.add_0_r. destruct rounds; simpl; simpl in Hsum; rewrite Hsum; reflexivity.
  - destruct rounds as [|rounds]; [lia|].
    assert (Hsum : (ParaPortfolio.isum (replicate a (q + 1) ++ replicate (S b + c) q) <? n)
                   = true).
    { rewrite isum_app, !isum_replicate. apply Z.ltb_lt. nia. }
    cbn [ParaPortfolio.intshare_loop]. rewrite Hsum.
    change (replicate (S b + c) q) with (q :: replicate (b + c) q).
    pose proof (index_middle (replicate a (q + 1)) (replicate (b + c) q) q) as Hget.
    pose proof (set_item_middle (replicate a (q + 1)) (replicate (b + c) q) q (q + 1)) as Hset.
    rewrite length_replicate in Hget, Hset.
    rewrite Hget. unfold mbind, exn_mbind. rewrite Hset.
    replace (replicate a (q + 1) ++ (q + 1) :: replicate (b + c) q)
      with (replicate (S a) (q + 1) ++ replicate (b + c) q)
      by (rewrite replicate_S_end, <- app_assoc; reflexivity).
    replace (Z.of_nat a + 1) with (Z.of_nat (S a)) by lia.
    rewrite (IH (S a) rounds n) by lia.
    replace (S a + b)%nat with (a + S b)%nat by lia. reflexivity.
Qed.

(** [intshare(n, m)] shares [n] among [m]: [m] integers that sum to
    [n], the first [n % m] of them [n // m + 1] and the others
    [n // m]. With [m = 0] the division raises; with [m < 0] the list
    is empty, so that a positive [n] is never reached and [x[0]]
    raises. *)
Theorem intshare_shares (n m : Z) :
  match m ?= 0 with
  | Eq => ParaPortfolio.intshare n m = inl ZeroDivisionError
  | Lt => ParaPortfolio.intshare n m = if 0 <? n then inl IndexError else inr []
  | Gt =>
      ∃ x, ParaPortfolio.intshare n m = inr x
           ∧ x = replicate (Z.to_nat (n mod m)) (n / m + 1)
                 ++ replicate (Z.to_nat (m - n mod m)) (n / m)
           ∧ Py.len x = m
           ∧ ParaPortfolio.isum x = n
  end.
Proof.
  unfold ParaPortfolio.intshare, ParaPortfolio.py_floordiv.
  destruct (Z.compare_spec m 0) as [->|Hneg|Hpos].
  - reflexivity.
  - replace (m =? 0) with false by lia. unfold mbind, exn_mbind.
    replace (Z.to_nat m) with 0%nat by lia. simpl.
    change (ParaPortfolio.isum []) with 0. reflexivity.
  - replace (m =? 0) with false by lia. unfold mbind, exn_mbind.
    pose proof (Z.mod_pos_bound n m Hpos) as Hr.
    pose proof (Z.div_mod n m ltac:(lia)) as Hdiv.
    eexists. split; [|split; [reflexivity|split]].
    + rewrite length_replicate.
      pose proof (intshare_loop_raises (n / m) (Z.to_nat (m - n mod m)) (Z.to_nat (n mod m))
                    0 (Z.to_nat m) n) as Hloop.
      cbn [replicate app Nat.add] in Hloop.
      replace (Z.to_nat (n mod m) + Z.to_nat (m - n mod m))%nat with (Z.to_nat m) in Hloop
        by lia.
      apply Hloop; [lia|]. rewrite !Z2Nat.id by lia. lia.
    + unfold Py.len. rewrite length_app, !length_replicate. lia.
    + rewrite isum_app, !isum_replicate. rewrite !Z2Nat.id by lia. nia.
Qed.

Section dispatch_tables.
Context {members : Members}.
Import ParaPortfolio.






(** A display that returns has built every item; one that raises,
    raises what one of its items raised. *)
Lemma display_returns {A} (l : list (exn + A)) (r : list A) :
  Py.display l = inr r → l = inr <$> r.
Proof.
  revert r. induction l as [|[e|a] l IH]; intros r; cbn [Py.display].
  - intros [= <-]. reflexivity.
  - discriminate.
  - destruct (Py.display l) as [e|rest]; [discriminate|].
    intros [= <-]. rewrite fmap_cons, (IH rest eq_refl). reflexivity.
Qed.

Lemma display_raises {A} (l : list (exn + A)) (e : exn) :
  Py.display l = inl e → inl e ∈ l.
Proof.
  induction l as [|[e'|a] l IH]; cbn [Py.display].
  - discriminate.
  - intros [= ->]. apply list_elem_of_here.
  - destruct (Py.display l) as [e'|rest]; [|discriminate].
    intros [= ->]. apply list_elem_of_further, IH. reflexivity.
Qed.

Lemma display_built {A} (r : list A) : Py.display (inr <$> r) = inr r.
Proof. induction r as [|a r IH]; [reflexivity|]. rewrite fmap_cons. cbn [Py.display]. rewrite IH. reflexivity. Qed.

Lemma display_length {A} (l : list (exn + A)) (r : list A) :
  Py.display l = inr r → length r = length l.
Proof. intros ->%display_returns. rewrite length_fmap. reflexivity. Qed.






Lemma range_length (a b : Z) : Py.len (Py.range a b) = Z.max 0 (b - a).
Proof. unfold Py.len, Py.range. rewrite length_fmap, length_seq. lia. Qed.



End dispatch_tables.

Section portfolio_budget.
Context {members : Members}.
Import Portfolio.

(** [Portfolio.__init__] with a budget builds a CMA, a [TwoPointsDE]
    and a [ScrHammersleySearch] with budgets that sum to the budget
    and differ by at most one, the earlier member having the larger;
    below [12 * num_workers] it then builds one [ScrHammersleySearch]
    with the whole budget, which replaces the three. It returns when
    these constructions return, with these members and an empty
    table, and else raises what one of them raised: the three
    members are built, and may raise, below [12 * num_workers]
    too. *)
Theorem portfolio_budget_split (dimension budget num_workers : Z) :
  ∃ b1 b2 b3,
    b1 + b2 + b3 = budget
    ∧ b3 ≤ b2 ∧ b2 ≤ b1 ∧ b1 ≤ b3 + 1
    ∧ let three := [construct cls_CMA dimension (Some b1) num_workers;
                    construct cls_TwoPointsDE dimension (Some b2) num_workers;
                    construct cls_ScrHammersleySearch dimension (Some b3) num_workers] in
      let one := [construct cls_ScrHammersleySearch dimension (Some budget) num_workers] in
      match __init__ dimension (Some budget) num_workers with
      | inr self =>
          (∃ built, three = inr <$> built)
          ∧ inr <$> optims self = (if budget <? 12 * num_workers then one else three)
          ∧ who_asked self = ∅
          ∧ Base._num_ask (base self) = 0
      | inl e => inl e ∈ three ++ (if budget <? 12 * num_workers then one else [])
      end.
Proof.
  exists (budget / 3 + of_bool (0 <? budget mod 3)),
    (budget / 3 + of_bool (1 <? budget mod 3)), (budget / 3).
  pose proof (Z.mod_pos_bound budget 3 ltac:(lia)) as Hr.
  split; [unfold of_bool;
          destruct (Z.ltb_spec 0 (budget mod 3)), (Z.ltb_spec 1 (budget mod 3));
          Z.div_mod_to_equations; lia|].
  do 3 (split; [unfold of_bool;
                destruct (Z.ltb_spec 0 (budget mod 3)), (Z.ltb_spec 1 (budget mod 3)); lia|]).
  intros three one. unfold __init__. fold three.
  destruct (Py.display three) as [e|built] eqn:Hthree.
  - rewrite bind_inl. apply elem_of_app. left. exact (display_raises _ _ Hthree).
  - rewrite bind_inr. apply display_returns in Hthree.
    destruct (budget <? 12 * num_workers).
    + fold one. destruct (Py.display one) as [e|single] eqn:Hone.
      * rewrite bind_inl. apply elem_of_app. right. exact (display_raises _ _ Hone).
      * rewrite bind_inr. apply display_returns in Hone.
        cbn [optims who_asked base Base._num_ask Base.__init__].
        split; [exists built; exact Hthree|]. split; [symmetry; exact Hone|].
        split; reflexivity.
    + rewrite bind_inr. cbn [optims who_asked base Base._num_ask Base.__init__].
      split; [exists built; exact Hthree|]. split; [symmetry; exact Hthree|].
      split; reflexivity.
Qed.

End portfolio_budget.

(** On member doubles, in dimension zero: the CMA of a portfolio
    raises, and so does the constructor, below [12 * num_workers]
    too, where the CMA would be replaced. *)
Lemma portfolio_of_dimension_zero :
  Portfolio.__init__ (members := members_double) 0 (Some 100) 1 = inl OverflowError
  ∧ Portfolio.__init__ (members := members_double) 0 (Some 6) 1 = inl OverflowError
  ∧ ASCMADEthird.CM__init__ (members := members_double) (-1) (Some 100) 1 = inl ValueError.
Proof. repeat split. Qed.

(** ** CMA: the queue of points to ask *)

Section cma_asks.
Context {numerics : Numerics} {solver : Solver}.
Import CMA.

(** What [_internal_ask] does, case by case. *)
Lemma ask_cases (self : t) :
  _internal_ask self =
  let self1 := set_es (Some (solver_of self)) self in
  match to_be_asked self with
  | p :: rest => (set_to_be_asked rest self1, Returns p)
  | [] =>
      match es_ask (solver_of self) with
      | (e', Returns (p :: rest)) => (set_to_be_asked rest (set_es (Some e') self1), Returns p)
      | (e', Returns []) => (set_es (Some e') self1, Raises IndexError)
      | (e', Raises e) => (set_es (Some e') self1, Raises e)
      end
  end.
Proof.
  unfold _internal_ask. unfold mbind at 1. unfold py_mbind, Py.bind.
  rewrite ensure_es_effect. py_red. unfold on_es.
  cbn [to_be_asked set_es es set_to_be_asked].
  destruct (to_be_asked self) as [|p rest] eqn:Hq.
  - rewrite bool_decide_eq_true_2 by reflexivity. cbn [es set_es].
    destruct (es_ask (solver_of self)) as [e' [batch|e]];
      cbn [to_be_asked set_es set_to_be_asked]; [|reflexivity].
    rewrite Hq. cbn [app].
    destruct batch; [|reflexivity].
    destruct self; simpl in Hq; subst; reflexivity.
  - rewrite bool_decide_eq_false_2 by discriminate.
    cbn [to_be_asked set_es set_to_be_asked]. rewrite Hq. reflexivity.
Qed.

(** [n] asks in a row, and the points they answer. *)
Fixpoint ask_times (n : nat) : py t (list Point) :=
  match n with
  | O => mret []
  | S n => p ← _internal_ask; ps ← ask_times n; mret (p :: ps)
  end.

Lemma asks_from_the_queue (k : nat) (self : t) (e : ES) :
  es self = Some e →
  (k ≤ length (to_be_asked self))%nat →
  ask_times k self
  = (set_to_be_asked (drop k (to_be_asked self)) self, Returns (take k (to_be_asked self))).
Proof.
  revert self. induction k as [|k IH]; intros self He Hk.
  - destruct self; reflexivity.
  - cbn [ask_times]. unfold mbind at 1. unfold py_mbind, Py.bind. rewrite ask_cases. cbv zeta.
    destruct (to_be_asked self) as [|p rest] eqn:Hq; [simpl in Hk; lia|].
    assert (Hself : set_es (Some (solver_of self)) self = self).
    { unfold solver_of. rewrite He. destruct self; simpl in *; subst; reflexivity. }
    rewrite Hself. unfold mbind, py_mbind, Py.bind.
    rewrite (IH (set_to_be_asked rest self)); cbn [es to_be_asked set_to_be_asked];
      [reflexivity|exact He|simpl in Hk; lia].
Qed.

(** A CMA with an empty queue asks its solver for a batch once and
    then answers the points of this batch in order, one per ask,
    without calling the solver: after [k] asks, for every [k] from
    one to the length of the batch, the queue holds what is left of
    the batch. With a queue that is not empty an ask answers its head
    and leaves the solver alone; an empty batch makes the ask raise
    [IndexError], with the solver as its [ask] left it. *)
Theorem cma_asks_serve_the_batch (self : t) (e' : ES) (batch : list Point) :
  to_be_asked self = [] →
  es_ask (solver_of self) = (e', Returns batch) →
  (∀ k, (1 ≤ k ≤ length batch)%nat →
        ask_times k self
        = (set_to_be_asked (drop k batch) (set_es (Some e') self), Returns (take k batch)))
  ∧ (∀ p rest,
       _internal_ask (set_to_be_asked (p :: rest) self)
       = (set_to_be_asked rest (set_es (Some (solver_of self)) self), Returns p))
  ∧ (batch = [] → _internal_ask self = (set_es (Some e') self, Raises IndexError)).
Proof.
  intros Hq Hask. split; [|split].
  - intros k Hk. destruct k as [|k]; [lia|]. destruct batch as [|p rest]; [simpl in Hk; lia|].
    cbn [ask_times]. unfold mbind at 1. unfold py_mbind, Py.bind. rewrite ask_cases. cbv zeta.
    rewrite Hq, Hask. unfold mbind, py_mbind, Py.bind.
    rewrite (asks_from_the_queue k _ e'); cbn [es to_be_asked set_to_be_asked set_es];
      [reflexivity|reflexivity|simpl in Hk; lia].
  - intros p rest. rewrite ask_cases. reflexivity.
  - intros ->. rewrite ask_cases, Hq, Hask. reflexivity.
Qed.

End cma_asks.

(** A new CMA of dimension one whose solver has population size four
    and answers batches of four points: four asks answer the batch and
    empty the queue. With a solver of population size zero, whose
    batches are empty, the ask raises. *)
Definition serving_cma : CMA.t (solver := solver_double true) :=
  match CMA.__init__ (numerics := table_numerics) (solver := solver_double true) 1 None 1 with
  | inr self => self
  | inl _ => CMA.Build_t _ (Base.__init__ 1 None 1) None (CMA.Build_cma_init [] Float.zero 0 false)
               [] [] []
  end.

Lemma cma_asks_serve_the_batch_witness :
  CMA.__init__ (numerics := table_numerics) (solver := solver_double true) 1 None 1
  = inr serving_cma
  ∧ es_popsize (Solver := solver_double true) (solver_of serving_cma) = 4
  ∧ ask_times (solver := solver_double true) 4 serving_cma
    = (CMA.set_es (solver := solver_double true) (Some (4, [])) serving_cma,
       Returns (replicate 4 [Float.zero]))
  ∧ CMA._internal_ask (solver := solver_double true)
      (CMA.set_es (solver := solver_double true) (Some (0, [])) serving_cma)
    = (CMA.set_es (solver := solver_double true) (Some (0, [])) serving_cma,
       Raises IndexError).
Proof.
  split; [reflexivity|]. split; [reflexivity|].
  destruct (cma_asks_serve_the_batch (solver := solver_double true) serving_cma (4, [])
              (replicate 4 [Float.zero])) as (Hserve & _);
    [reflexivity|reflexivity|].
  destruct (cma_asks_serve_the_batch (solver := solver_double true)
              (CMA.set_es (solver := solver_double true) (Some (0, [])) serving_cma)
              (0, []) []) as (_ & _ & Hempty);
    [reflexivity|reflexivity|].
  split; [apply (Hserve 4%nat); simpl; lia|].
  exact (Hempty eq_refl).
Defined.

(** ** Evolution strategies: the point a tell takes *)

Section pending_points.
Context {numerics : Numerics}.
Import TBPSA.

(** The state once the pending point at position [length before],
    with step size [sg], has been told [value] as [x]. *)
Definition moved_from (before after : list Point) (sigmas_before sigmas_after : list float)
    (x : Point) (sg value : float) (self : t) : t :=
  set_unevaluated_population_sigma (sigmas_before ++ sigmas_after)
    (set_unevaluated_population (before ++ after)
       (set_evaluated_population_sigma (evaluated_population_sigma self ++ [sg])
          (set_evaluated_population_fitness (evaluated_population_fitness self ++ [value])
             (set_evaluated_population (evaluated_population self ++ [x]) self)))).

Lemma move_first_occurrence (before after : list Point) (sigmas_before sigmas_after : list float)
    (x y : Point) (sg value : float) (self : t) :
  unevaluated_population self = before ++ y :: after →
  unevaluated_population_sigma self = sigmas_before ++ sg :: sigmas_after →
  Forall (λ z, Py.tuple_eqb z x = false) before →
  Py.tuple_eqb y x = true →
  length sigmas_before = length before →
  move_to_evaluated x value self
  = (moved_from before after sigmas_before sigmas_after x sg value self, Returns tt).
Proof.
  intros Hpop Hsig Hx Hy Hlen.
  rewrite (move_at (length before) x value sg self).
  - unfold moved_at, moved_from. rewrite Hpop, Hsig, delete_middle, <- Hlen, delete_middle.
    reflexivity.
  - rewrite Hpop. exact (list_index_first Py.tuple_eqb before after x y Hx Hy).
  - rewrite Hsig, <- Hlen, lookup_app_r, Nat.sub_diag by lia. reflexivity.
Qed.

Lemma move_absent (x : Point) (value : float) (self : t) :
  Forall (λ y, Py.tuple_eqb y x = false) (unevaluated_population self) →
  move_to_evaluated x value self = (self, Raises ValueError).
Proof.
  intros Hx. unfold move_to_evaluated. py_red.
  rewrite (list_index_absent Py.tuple_eqb _ x Hx). reflexivity.
Qed.

Lemma population_size_test_keeps_unevaluated (value : float) :
  preserves unevaluated_population (population_size_test value).
Proof. unfold population_size_test. preserves_all. Qed.

Lemma eda_tell_absent (test : bool) (new_covariance : Vec.Matrix → list Point → Vec.Matrix)
    (x : Point) (value : float) (e : EDA.t) :
  let p := EDA.population e in
  Forall (λ y, Py.tuple_eqb y x = false) (unevaluated_population p) →
  (test = true → Py.len (archive_fitness p) + 1 < 5 * llambda p) →
  eda_tell test new_covariance x value e
  = (EDA.set_population (appended_if test value p) e, Raises ValueError).
Proof.
  intros p Hx Harchive. subst p.
  unfold eda_tell. unfold mbind, py_mbind, Py.bind.
  rewrite (test_phase test value e Harchive), on_population_effect.
  cbn [EDA.population EDA.set_population].
  rewrite move_absent by (destruct test; exact Hx).
  cbn [fst snd]. destruct e; reflexivity.
Qed.

Lemma eda_tell_first_occurrence (test : bool)
    (new_covariance : Vec.Matrix → list Point → Vec.Matrix)
    (before after : list Point) (sigmas_before sigmas_after : list float)
    (x y : Point) (sg value : float) (e : EDA.t) :
  let p := EDA.population e in
  unevaluated_population p = before ++ y :: after →
  unevaluated_population_sigma p = sigmas_before ++ sg :: sigmas_after →
  Forall (λ z, Py.tuple_eqb z x = false) before →
  Py.tuple_eqb y x = true →
  length sigmas_before = length before →
  (test = true → Py.len (archive_fitness p) + 1 < 5 * llambda p) →
  Py.len (evaluated_population p) + 1 < llambda p →
  eda_tell test new_covariance x value e
  = (EDA.set_population
       (moved_from before after sigmas_before sigmas_after x sg value
          (appended_if test value p)) e,
     Returns tt).
Proof.
  intros p Hpop Hsig Hx Hy Hlen Harchive Hbelow. subst p.
  unfold eda_tell. unfold mbind, py_mbind, Py.bind.
  rewrite (test_phase test value e Harchive), on_population_effect.
  cbn [EDA.population EDA.set_population].
  rewrite (move_first_occurrence before after sigmas_before sigmas_after x y sg value
             (appended_if test value (EDA.population e)));
    [|destruct test; exact Hpop|destruct test; exact Hsig|exact Hx|exact Hy|exact Hlen].
  cbn [fst snd]. rewrite reestimate_skip; [destruct e; reflexivity|].
  cbn [EDA.population EDA.set_population]. unfold moved_from.
  cbn [llambda evaluated_population set_unevaluated_population_sigma
       set_unevaluated_population set_evaluated_population_sigma
       set_evaluated_population_fitness set_evaluated_population].
  unfold Py.len in *. rewrite length_app. simpl. destruct test; simpl; lia.
Qed.

(** A tell of a point without nan that is equal, as [==] has it on
    tuples of floats, to no point of the unevaluated population
    raises [ValueError]. EDA and MEDA are left as they were; TBPSA,
    PCEDA and MPCEDA have then already put the value in their fitness
    archive, and keep it there. *)
Theorem tell_of_a_point_not_pending (v : variant) (x : Point) (value : float) (e : EDA.t) :
  let p := EDA.population e in
  Py.nan_free x →
  Forall (λ y, Py.tuple_eqb y x = false) (unevaluated_population p) →
  Py.len (archive_fitness p) + 1 < 5 * llambda p →
  tell_of v x value e
  = (if tests v
     then EDA.set_population (set_archive_fitness (archive_fitness p ++ [value]) p) e
     else e,
     Raises ValueError)
  ∧ _internal_tell x value p
    = (set_archive_fitness (archive_fitness p ++ [value]) p, Raises ValueError).
Proof.
  intros p _ Hx Harchive. split.
  - rewrite tell_of_variant, (eda_tell_absent _ _ x value e Hx (λ _, Harchive)).
    unfold appended_if. fold p. destruct (tests v); [reflexivity|destruct e; reflexivity].
  - rewrite (tbpsa_tells_as_eda x value p (EDA.covariance e)). cbv zeta.
    replace (EDA.Build_t p (EDA.covariance e)) with e by (destruct e; reflexivity).
    rewrite (eda_tell_absent _ _ x value e Hx (λ _, Harchive)). reflexivity.
Qed.

(** A tell takes the first point of the unevaluated population that
    is equal to its point, as [==] has it on tuples of floats, with
    the step size drawn when this point was asked: the point told,
    this step size and the value join the evaluated lists, and the
    other pending points, with their step sizes, stay in their order.
    So when a point is pending twice, the tells of it get the step
    sizes in the order of the asks. *)
Theorem tell_takes_the_first_pending_occurrence (v : variant)
    (before after : list Point) (sigmas_before sigmas_after : list float)
    (x y : Point) (sg value : float) (e : EDA.t) :
  let p := EDA.population e in
  unevaluated_population p = before ++ y :: after →
  unevaluated_population_sigma p = sigmas_before ++ sg :: sigmas_after →
  Forall (λ z, Py.tuple_eqb z x = false) before →
  Py.tuple_eqb y x = true →
  length sigmas_before = length before →
  Py.len (archive_fitness p) + 1 < 5 * llambda p →
  Py.len (evaluated_population p) + 1 < llambda p →
  let told := fst (tell_of v x value e) in
  let tbpsa_told := fst (_internal_tell x value p) in
  snd (tell_of v x value e) = Returns tt
  ∧ snd (_internal_tell x value p) = Returns tt
  ∧ EDA.covariance told = EDA.covariance e
  ∧ Forall (λ q : t,
              evaluated_population q = evaluated_population p ++ [x]
              ∧ evaluated_population_sigma q = evaluated_population_sigma p ++ [sg]
              ∧ evaluated_population_fitness q = evaluated_population_fitness p ++ [value]
              ∧ unevaluated_population q = before ++ after
              ∧ unevaluated_population_sigma q = sigmas_before ++ sigmas_after
              ∧ current_center q = current_center p
              ∧ sigma q = sigma p)
      [EDA.population told; tbpsa_told].
Proof.
  intros p Hpop Hsig Hx Hy Hlen Harchive Hbelow told tbpsa_told. subst told tbpsa_told.
  rewrite tell_of_variant,
    (eda_tell_first_occurrence (tests v) _ before after sigmas_before sigmas_after x y sg value e
       Hpop Hsig Hx Hy Hlen (λ _, Harchive) Hbelow).
  rewrite (tbpsa_tells_as_eda x value p (EDA.covariance e)). cbv zeta.
  replace (EDA.Build_t p (EDA.covariance e)) with e by (destruct e; reflexivity).
  rewrite (eda_tell_first_occurrence true _ before after sigmas_before sigmas_after x y sg value e
             Hpop Hsig Hx Hy Hlen (λ _, Harchive) Hbelow).
  cbn [fst snd EDA.population EDA.covariance EDA.set_population]. fold p.
  split; [reflexivity|]. split; [reflexivity|]. split; [reflexivity|].
  repeat constructor; destruct (tests v); reflexivity.
Qed.

End pending_points.

(** An EDA asked the points 1, 0 and 1 again: a tell of 3 raises. *)
Lemma tell_of_a_point_not_pending_witness :
  let e := eda_asked [1; 0; 1] in
  let p := EDA.population e in
  TBPSA.unevaluated_population p = [[Float.of_Z 1]; [Float.zero]; [Float.of_Z 1]]
  ∧ tell_of (numerics := table_numerics) class_EDA [Float.of_Z 3] (Float.of_Z 3) e
    = (e, Raises ValueError)
  ∧ TBPSA._internal_tell (numerics := table_numerics) [Float.of_Z 3] (Float.of_Z 3) p
    = (TBPSA.set_archive_fitness [Float.of_Z 3] p, Raises ValueError).
Proof.
  intros e p.
  assert (Hpending : TBPSA.unevaluated_population p
                     = [[Float.of_Z 1]; [Float.zero]; [Float.of_Z 1]])
    by (vm_compute; reflexivity).
  assert (Habsent : Forall (λ y, Py.tuple_eqb y [Float.of_Z 3] = false)
                      (TBPSA.unevaluated_population p))
    by (rewrite Hpending; repeat constructor).
  assert (Harchive : Py.len (TBPSA.archive_fitness p) + 1 < 5 * TBPSA.llambda p)
    by (vm_compute; reflexivity).
  destruct (tell_of_a_point_not_pending (numerics := table_numerics) class_EDA
              [Float.of_Z 3] (Float.of_Z 3) e eq_refl Habsent Harchive)
    as [Heda Htbpsa].
  split; [exact Hpending|]. split; [exact Heda|].
  etransitivity; [exact Htbpsa|]. f_equal.
Defined.

(** An EDA asked the points 1, 0 and 1 again, and told the point
    [-0.0]: the tell takes the second pending point, [0.0], leaves
    the two others, and puts [-0.0] in the evaluated population. *)
Lemma tell_takes_the_first_pending_occurrence_witness :
  let e := eda_asked [1; 0; 1] in
  let p := EDA.population e in
  let told := fst (tell_of (numerics := table_numerics) class_EDA
                     [S754_zero true] (Float.of_Z 5) e) in
  TBPSA.unevaluated_population p = [[Float.of_Z 1]; [Float.zero]; [Float.of_Z 1]]
  ∧ TBPSA.unevaluated_population (EDA.population told) = [[Float.of_Z 1]; [Float.of_Z 1]]
  ∧ TBPSA.evaluated_population (EDA.population told) = [[S754_zero true]]
  ∧ TBPSA.evaluated_population_fitness (EDA.population told) = [Float.of_Z 5].
Proof.
  intros e p told.
  assert (Hpending : TBPSA.unevaluated_population p
                     = [[Float.of_Z 1]; [Float.zero]; [Float.of_Z 1]])
    by (vm_compute; reflexivity).
  assert (Hsigmas : TBPSA.unevaluated_population_sigma p
                    = [Float.of_Z 1; Float.of_Z 1; Float.of_Z 1])
    by (vm_compute; reflexivity).
  assert (Habsent : Forall (λ z, Py.tuple_eqb z [S754_zero true] = false) [[Float.of_Z 1]])
    by (repeat constructor).
  assert (Harchive : Py.len (TBPSA.archive_fitness p) + 1 < 5 * TBPSA.llambda p)
    by (vm_compute; reflexivity).
  assert (Hbelow : Py.len (TBPSA.evaluated_population p) + 1 < TBPSA.llambda p)
    by (vm_compute; reflexivity).
  destruct (tell_takes_the_first_pending_occurrence (numerics := table_numerics) class_EDA
              [[Float.of_Z 1]] [[Float.of_Z 1]] [Float.of_Z 1] [Float.of_Z 1]
              [S754_zero true] [Float.zero] (Float.of_Z 1) (Float.of_Z 5) e
              Hpending Hsigmas Habsent eq_refl eq_refl Harchive Hbelow)
    as (_ & _ & _ & Hlists).
  apply Forall_cons in Hlists as [(Hp & _ & Hf & Hu & _) _].
  split; [exact Hpending|]. split; [exact Hu|].
  split; [etransitivity; [exact Hp|vm_compute; reflexivity]|].
  etransitivity; [exact Hf|vm_compute; reflexivity].
Defined.

(** ** SPSA: the first cycle *)

Lemma float_mul_nan (x : float) : Float.mul x Float.nan = Float.nan.
Proof. destruct x as [?|?| |? ? ?]; reflexivity. Qed.

Lemma float_add_nan (x : float) : Float.add x Float.nan = Float.nan.
Proof. destruct x as [?|?| |? ? ?]; reflexivity. Qed.

Lemma float_isnan_eq (x : float) : Float.isnan x = true → x = Float.nan.
Proof. destruct x; try discriminate. reflexivity. Qed.

Section spsa_first_cycle.
Context {numerics : Numerics}.
Import SPSA.

(** While [init] holds, the iterate and its average are where the
    constructor put them. *)
Definition at_the_origin (self : t) : Prop :=
  init self = true →
  t_ self = Vec.zeros (dimension self) ∧ avg self = Vec.zeros (dimension self).

Lemma ask_during_init (bits : list Z) (self : t) :
  init self = true →
  let self' := fst (_internal_ask bits self) in
  t_ self' = t_ self ∧ avg self' = avg self ∧ base self' = base self.
Proof.
  intros Hinit. unfold _internal_ask. py_simpl. rewrite Hinit.
  destruct (idx self mod 2 =? 0); simpl.
  - destruct (ck _ _); simpl; repeat split.
  - destruct (ck _ _); simpl; repeat split.
Qed.

Lemma tell_keeps_the_iterate (x : Point) (value : float) (self : t) :
  let self' := fst (_internal_tell x value self) in
  t_ self' = t_ self ∧ avg self' = avg self ∧ base self' = base self
  ∧ (init self' = true → init self = true).
Proof.
  unfold _internal_tell. py_simpl.
  destruct (idx self mod 2 =? 0); simpl;
    destruct (init self) eqn:Hinit; simpl; rewrite ?Hinit; simpl;
    repeat match goal with
           | |- context [bool_decide ?P] => destruct (bool_decide P); simpl
           end;
    rewrite ?Hinit; repeat split; congruence.
Qed.

Lemma reachable_at_the_origin (self : t) : reachable self → at_the_origin self.
Proof.
  induction 1 as [d b nw self Hinit|bits self Hr IH|x value self Hr IH].
  - unfold __init__ in Hinit. destruct (d <? 0); [discriminate|].
    injection Hinit as <-. intros _. split; reflexivity.
  - intros Hinit.
    destruct (ask_keeps_the_cycle bits self) as (_ & Hsame & _).
    rewrite Hsame in Hinit.
    destruct (ask_during_init bits self Hinit) as (Ht & Ha & Hb).
    unfold dimension. rewrite Ht, Ha, Hb. exact (IH Hinit).
  - intros Hinit.
    destruct (tell_keeps_the_iterate x value self) as (Ht & Ha & Hb & Hback).
    unfold dimension. rewrite Ht, Ha, Hb. exact (IH (Hback Hinit)).
Qed.

(** Until two values have been told, SPSA recommends the origin,
    however many times it has been asked: the average moves at an ask
    only once [init] has fallen, which the second tell brings
    about. *)
Theorem spsa_recommends_the_origin_at_first (self : t) :
  reachable self →
  idx self < 2 →
  _internal_provide_recommendation self = (self, Returns (Vec.zeros (dimension self))).
Proof.
  intros Hr Hidx. destruct (reachable_invariant self Hr) as (_ & Hinit & _).
  destruct (reachable_at_the_origin self Hr (proj2 Hinit Hidx)) as [_ Havg].
  unfold _internal_provide_recommendation, Py.gets. rewrite Havg. reflexivity.
Qed.

(** An SPSA asked at an odd count of tells while its perturbation is
    still the float nan of the constructor, as when it is told before
    it is first asked, changes nothing and answers nan in every
    coordinate. *)
Theorem spsa_told_before_asked_answers_nan (self : t) (bits : list Z) (x c_k : float) :
  delta self = Scalar x →
  Float.isnan x = true →
  idx self mod 2 = 1 →
  ck self (idx self) = inr c_k →
  _internal_ask bits self = (self, Returns (replicate (length (t_ self)) Float.nan)).
Proof.
  intros Hdelta Hnan Hodd Hck. apply float_isnan_eq in Hnan. subst x.
  unfold _internal_ask. py_red.
  replace (idx self mod 2 =? 0) with false by lia.
  rewrite Hck. py_red. rewrite Hdelta. unfold plus, times_delta.
  rewrite float_mul_nan. f_equal. f_equal.
  induction (t_ self) as [|ti l IH]; [reflexivity|].
  cbn [fmap list_fmap length replicate]. rewrite float_add_nan. f_equal. exact IH.
Qed.

End spsa_first_cycle.

(** A new SPSA of dimension one, asked twice and told once in between:
    its recommendation is still the origin. *)
Lemma spsa_recommends_the_origin_witness :
  let self := fst (SPSA._internal_ask (numerics := table_numerics) [0] spsa_after_one_tell) in
  SPSA.idx self = 1
  ∧ SPSA._internal_provide_recommendation self = (self, Returns [Float.zero]).
Proof.
  intros self.
  assert (Hr : reachable (numerics := table_numerics) self).
  { apply reachable_ask, reachable_tell, reachable_ask, (reachable_init 1 None 1). reflexivity. }
  assert (Hidx : SPSA.idx self = 1) by (vm_compute; reflexivity).
  split; [exact Hidx|].
  etransitivity;
    [exact (spsa_recommends_the_origin_at_first (numerics := table_numerics) self Hr
              ltac:(rewrite Hidx; reflexivity))|].
  reflexivity.
Defined.

(** A new SPSA of dimension one told a value before any ask: the ask
    that follows answers [(nan)]. *)
Lemma spsa_told_before_asked_witness :
  let self := fst (SPSA._internal_tell [Float.zero] (Float.of_Z 3) fresh_spsa) in
  SPSA.idx self = 1
  ∧ SPSA._internal_ask (numerics := table_numerics) [1] self = (self, Returns [Float.nan]).
Proof.
  intros self.
  assert (Hidx : SPSA.idx self = 1) by (vm_compute; reflexivity).
  split; [exact Hidx|].
  etransitivity;
    [exact (spsa_told_before_asked_answers_nan (numerics := table_numerics) self [1]
              Float.nan (Float.lit 1 10) eq_refl eq_refl
              ltac:(rewrite Hidx; reflexivity) ltac:(vm_compute; reflexivity))|].
  reflexivity.
Defined.

(** ** The order of floats is transitive *)

Ltac float_compare_cases :=
  repeat match goal with
         | H : context [Pos.compare_cont Eq ?a ?b] |- _ =>
             change (Pos.compare_cont Eq a b) with (Pos.compare a b) in H
         | |- context [Pos.compare_cont Eq ?a ?b] =>
             change (Pos.compare_cont Eq a b) with (Pos.compare a b)
         end;
  repeat match goal with
         | H : context [(?a ?= ?b)%Z] |- _ => destruct (Z.compare_spec a b); simpl in H
         | H : context [(?a ?= ?b)%positive] |- _ => destruct (Pos.compare_spec a b); simpl in H
         | |- context [(?a ?= ?b)%Z] => destruct (Z.compare_spec a b); simpl
         | |- context [(?a ?= ?b)%positive] => destruct (Pos.compare_spec a b); simpl
         end;
  try congruence; try lia.

Lemma float_ltb_trans (a b c : float) :
  Float.ltb a b = true → Float.ltb b c = true → Float.ltb a c = true.
Proof.
  unfold Float.ltb, SFltb.
  destruct a as [[]|[]| |[] m1 e1], b as [[]|[]| |[] m2 e2], c as [[]|[]| |[] m3 e3];
    simpl; try congruence; intros Hab Hbc; float_compare_cases.
Qed.

(** ** PSO: the particles stay inside the unit cube *)

Lemma foldl_max_elem (a : float) (l : list float) : foldl Float.max a l ∈ a :: l.
Proof.
  revert a. induction l as [|b l IH]; intros a; simpl; [apply elem_of_cons; left; reflexivity|].
  specialize (IH (Float.max a b)). apply elem_of_cons in IH as [->|IH].
  - unfold Float.max. destruct (Float.gtb b a).
    + apply elem_of_cons; right. apply elem_of_cons; left. reflexivity.
    + apply elem_of_cons; left. reflexivity.
  - apply elem_of_cons; right. apply elem_of_cons; right. exact IH.
Qed.

Lemma foldl_min_elem (a : float) (l : list float) : foldl Float.min a l ∈ a :: l.
Proof.
  revert a. induction l as [|b l IH]; intros a; simpl; [apply elem_of_cons; left; reflexivity|].
  specialize (IH (Float.min a b)). apply elem_of_cons in IH as [->|IH].
  - unfold Float.min. destruct (Float.ltb b a).
    + apply elem_of_cons; right. apply elem_of_cons; left. reflexivity.
    + apply elem_of_cons; left. reflexivity.
  - apply elem_of_cons; right. apply elem_of_cons; right. exact IH.
Qed.

Section pso_bounds.
Context {numerics : Numerics}.
Import PSO.

(** Strictly between 0 and 1, as the assertions of [_internal_tell]
    ask of the largest and of the least coordinate. *)
Definition inside (y : float) : Prop :=
  Float.gtb y (Float.of_Z 0) = true ∧ Float.ltb y (Float.of_Z 1) = true.

Lemma clamp_item_inside (x_ : float) :
  let eps := Float.lit 1 10000000000 in
  inside (Float.max (Float.add (Float.of_Z 0) eps) (Float.min (Float.sub (Float.of_Z 1) eps) x_)).
Proof.
  intros eps. unfold inside, Float.gtb.
  set (lo := Float.add (Float.of_Z 0) eps). set (hi := Float.sub (Float.of_Z 1) eps).
  assert (Hlo0 : Float.ltb (Float.of_Z 0) lo = true) by (vm_compute; reflexivity).
  assert (Hlo1 : Float.ltb lo (Float.of_Z 1) = true) by (vm_compute; reflexivity).
  assert (Hhi0 : Float.ltb (Float.of_Z 0) hi = true) by (vm_compute; reflexivity).
  assert (Hhi1 : Float.ltb hi (Float.of_Z 1) = true) by (vm_compute; reflexivity).
  assert (Hlohi : Float.ltb lo hi = true) by (vm_compute; reflexivity).
  clearbody lo hi. unfold Float.max, Float.min, Float.gtb.
  destruct (Float.ltb x_ hi) eqn:Hx.
  - destruct (Float.ltb lo x_) eqn:Hx'.
    + split; [exact (float_ltb_trans _ _ _ Hlo0 Hx')|exact (float_ltb_trans _ _ _ Hx Hhi1)].
    + split; assumption.
  - rewrite Hlohi. split; assumption.
Qed.

(** The clamping that ends every move of a particle leaves each
    coordinate strictly between 0 and 1, whatever it was, nan
    included; so the largest is below 1 and the least above 0, and
    the two assertions a tell makes on a particle that has moved
    hold. *)
Theorem pso_clamp_keeps_particles_inside (dimension : Z) (budget : option Z) (num_workers : Z)
    (x : Point) :
  let clamped := clamp (eps (__init__ dimension budget num_workers)) x in
  length clamped = length x
  ∧ Forall inside clamped
  ∧ match x with
    | [] => max_of clamped = inl ValueError ∧ min_of clamped = inl ValueError
    | _ :: _ =>
        ∃ hi lo, max_of clamped = inr hi ∧ min_of clamped = inr lo
                 ∧ Float.ltb hi (Float.of_Z 1) = true ∧ Float.gtb lo (Float.of_Z 0) = true
    end.
Proof.
  intros clamped. subst clamped. cbn [eps __init__].
  assert (Hall : Forall inside (clamp (Float.lit 1 10000000000) x)).
  { unfold clamp. apply Forall_fmap, Forall_forall. intros x_ _. apply clamp_item_inside. }
  split; [unfold clamp; apply length_fmap|]. split; [exact Hall|].
  destruct x as [|x0 x]; [split; reflexivity|].
  unfold clamp in *. rewrite fmap_cons in *. cbn [max_of min_of].
  eexists _, _. split; [reflexivity|]. split; [reflexivity|].
  rewrite Forall_forall in Hall. split.
  - apply (Hall _ (foldl_max_elem _ _)).
  - apply (Hall _ (foldl_min_elem _ _)).
Qed.

End pso_bounds.

(** ** PSO: asking more than the population *)

Section pso_queue.
Context {numerics : Numerics}.
Import PSO.

Lemma for_each_modify_returns {S A} (l : list A) (body : A → py S unit) (s : S) :
  (∀ a s, snd (body a s) = Returns tt) → snd (for_each l body s) = Returns tt.
Proof.
  intros Hbody. revert s. induction l as [|a l IH]; intros s; [reflexivity|].
  simpl. unfold mbind, py_mbind, Py.bind. specialize (Hbody a s).
  destruct (body a s) as [s' [[]|e]]; [apply IH|discriminate].
Qed.

Lemma prepare_returns (rng : Draws) (self : t) : snd (prepare rng self) = Returns tt.
Proof.
  unfold prepare. py_red. cbn [index set_index].
  destruct (index self + 1 =? 0); [|reflexivity].
  apply for_each_modify_returns. intros i s. reflexivity.
Qed.

Lemma create_particle_keeps_index (rng : Draws) (i : Z) : preserves index (create_particle rng i).
Proof. unfold create_particle. preserves_all. Qed.

Lemma prepare_index (rng : Draws) (self : t) :
  index (fst (prepare rng self)) = index self + 1.
Proof.
  unfold prepare. py_red. cbn [index set_index].
  destruct (index self + 1 =? 0); [|reflexivity].
  rewrite (preserves_for_each index _ _ (create_particle_keeps_index rng)). reflexivity.
Qed.

Lemma advance_keeps_index (rng : Draws) (location : Z) : preserves index (advance rng location).
Proof. unfold advance. preserves_all. Qed.

Lemma emit_keeps_index (location : Z) : preserves index (emit location).
Proof. unfold emit. preserves_all. Qed.

(** Every ask counts, whether it answers or raises. *)
Lemma ask_index (rng : Draws) (self : t) :
  index (fst (_internal_ask rng self)) = index self + 1.
Proof.
  unfold _internal_ask. unfold mbind, py_mbind, Py.bind.
  pose proof (prepare_index rng self) as Hindex.
  pose proof (prepare_returns rng self) as Hret.
  destruct (prepare rng self) as [self1 r]. cbn [fst snd] in *. subst r.
  unfold Py.get. destruct (queue self1) as [|location rest]; [exact Hindex|].
  pose proof (advance_keeps_index rng location self1) as Hadvance.
  destruct (advance rng location self1) as [self2 [[]|e]]; cbn [fst snd] in *; [|lia].
  rewrite (emit_keeps_index location self2). lia.
Qed.

(** An ask with an empty queue raises, once it has counted itself and
    created the swarm if this is the first ask. *)
Lemma ask_with_an_empty_queue (rng : Draws) (self : t) :
  queue self = [] →
  snd (_internal_ask rng self)
  = Raises (RuntimeError "Queue is empty, you tried to ask more than population size").
Proof.
  intros Hq. unfold _internal_ask. unfold mbind, py_mbind, Py.bind.
  pose proof (prepare_keeps_queue rng self) as Hqueue.
  pose proof (prepare_returns rng self) as Hret.
  destruct (prepare rng self) as [self1 r]. cbn [fst snd] in *. subst r.
  unfold Py.get. rewrite Hqueue, Hq. reflexivity.
Qed.

(** Asks in a row, one per element of [rngs], and the points they
    answer. *)
Fixpoint ask_all (rngs : list Draws) : py t (list Point) :=
  match rngs with
  | [] => mret []
  | rng :: rngs => p ← _internal_ask rng; ps ← ask_all rngs; mret (p :: ps)
  end.

Lemma asks_shorten_the_queue (rngs : list Draws) (self self' : t) (points : list Point) :
  ask_all rngs self = (self', Returns points) →
  queue self' = drop (length rngs) (queue self)
  ∧ (length rngs ≤ length (queue self))%nat
  ∧ index self' = index self + Z.of_nat (length rngs)
  ∧ length points = length rngs.
Proof.
  revert self self' points. induction rngs as [|rng rngs IH]; intros self self' points Hall.
  - injection Hall as <- <-. simpl. repeat split; lia.
  - cbn [ask_all] in Hall. unfold mbind at 1 in Hall. unfold py_mbind, Py.bind in Hall.
    pose proof (pso_ask_ledger rng self) as Hledger.
    pose proof (ask_index rng self) as Hindex.
    destruct (_internal_ask rng self) as [self1 [p|e]]; [|discriminate].
    cbn [fst snd] in *.
    destruct (Hledger p eq_refl) as (location & rest & Hq & _ & Hrest).
    unfold mbind, py_mbind, Py.bind in Hall.
    destruct (ask_all rngs self1) as [self2 [ps|e]] eqn:Hrec; [|discriminate].
    injection Hall as <- <-.
    destruct (IH self1 self2 ps Hrec) as (Hqueue & Hle & Hidx & Hlen).
    rewrite Hqueue, Hidx, Hrest, Hq, Hindex. rewrite Hrest in Hle.
    cbn [length drop]. repeat split; lia.
Qed.

(** A swarm answers at most [llambda] asks in a row: while the asks
    answer, each takes the particle at the head of the queue
    [0 .. llambda - 1]; once they are as many as [llambda], the next
    ask raises [RuntimeError], whatever the draws. *)
Theorem pso_asks_exhaust_the_queue (dimension : Z) (budget : option Z) (num_workers : Z)
    (rngs : list Draws) (rng : Draws) (self' : t) (points : list Point) :
  let self := __init__ dimension budget num_workers in
  ask_all rngs self = (self', Returns points) →
  Z.of_nat (length rngs) ≤ llambda self
  ∧ length points = length rngs
  ∧ queue self' = drop (length rngs) (Py.range 0 (llambda self))
  ∧ index self' = Z.of_nat (length rngs) - 1
  ∧ (Z.of_nat (length rngs) = llambda self →
     snd (_internal_ask rng self')
     = Raises (RuntimeError "Queue is empty, you tried to ask more than population size")).
Proof.
  intros self Hall.
  destruct (asks_shorten_the_queue rngs self self' points Hall) as (Hqueue & Hle & Hidx & Hlen).
  assert (Hrange : length (queue self) = Z.to_nat (llambda self)).
  { subst self. cbn [queue llambda __init__]. pose proof (range_length 0 (Z.max 40 num_workers)).
    unfold Py.len in *. lia. }
  assert (Hpos : 40 ≤ llambda self) by (subst self; cbn [llambda __init__]; lia).
  split; [lia|]. split; [exact Hlen|]. split; [exact Hqueue|]. split.
  - rewrite Hidx. subst self. cbn [index __init__]. lia.
  - intros Hfull. apply ask_with_an_empty_queue. rewrite Hqueue.
    apply drop_ge. lia.
Qed.

End pso_queue.

(** A swarm of forty particles of dimension one asked forty times: the
    asks answer [(0)], and the forty-first raises. *)
Lemma pso_asks_exhaust_the_queue_witness :
  let asked := ask_all (numerics := table_numerics) (replicate 40 coinciding_draws)
                 (PSO.__init__ (numerics := table_numerics) 1 None 1) in
  snd asked = Returns (replicate 40 [Float.zero])
  ∧ PSO.queue (fst asked) = []
  ∧ snd (PSO._internal_ask (numerics := table_numerics) coinciding_draws (fst asked))
    = Raises (RuntimeError "Queue is empty, you tried to ask more than population size").
Proof.
  intros asked.
  assert (Hall : asked = (fst asked, Returns (replicate 40 [Float.zero])))
    by (vm_compute; reflexivity).
  destruct (pso_asks_exhaust_the_queue (numerics := table_numerics) 1 None 1
              (replicate 40 coinciding_draws) coinciding_draws (fst asked)
              (replicate 40 [Float.zero]) Hall) as (_ & _ & Hqueue & _ & Hraises).
  split; [rewrite Hall; reflexivity|]. split; [exact Hqueue|].
  apply Hraises. reflexivity.
Defined.

(** ** PSO: the move of a particle *)

Lemma index_of_nat {A} (l : list A) (i : nat) :
  Py.index l (Z.of_nat i) = match l !! i with Some a => inr a | None => inl IndexError end.
Proof.
  destruct (l !! i) as [a|] eqn:Hi; [apply index_nonneg, Hi|].
  apply lookup_ge_None in Hi. unfold Py.index.
  destruct (Z.ltb_spec (Z.of_nat i) 0) as [Hneg|_]; [lia|].
  rewrite in_range_false by lia. reflexivity.
Qed.

Lemma set_item_of_nat {A} (l : list A) (i : nat) (v : A) :
  (i < length l)%nat → Py.set_item l (Z.of_nat i) v = inr (<[i := v]> l).
Proof.
  intros Hi. unfold Py.set_item.
  destruct (Z.ltb_spec (Z.of_nat i) 0) as [Hneg|_]; [lia|].
  rewrite in_range_true by lia. rewrite Nat2Z.id. reflexivity.
Qed.

Lemma range_of_nat (d : Z) : Py.range 0 d = Z.of_nat <$> seq 0 (Z.to_nat d).
Proof.
  unfold Py.range. rewrite Z.sub_0_r. apply list_fmap_ext. intros _ i _. simpl. lia.
Qed.

Section pso_moves.
Context {numerics : Numerics}.
Import PSO.

(** The speed the mutation assigns to a coordinate. *)
Definition mutated_item (rng : Draws) (self : t) (i : Z) (v b p g : float) : float :=
  Float.add
    (Float.add (Float.mul (omega self) v)
       (Float.mul (Float.mul (phip self) (rp rng i)) (Float.sub b p)))
    (Float.mul (Float.mul (phig self) (rg rng i)) (Float.sub g p)).

(** The speed after the mutation of the coordinates [i .. i + n - 1],
    from the particle, its best and the best of the swarm. *)
Fixpoint mutated_from (rng : Draws) (self : t) (best particle g : Point) (i n : nat)
    (speed : Point) : Point :=
  match n with
  | O => speed
  | S n =>
      let item k l := default Float.nan (l !! k) in
      mutated_from rng self best particle g (S i) n
        (<[i := mutated_item rng self (Z.of_nat i)
                  (item i speed) (item i best) (item i particle) (item i g)]> speed)
  end.

Lemma mutated_from_length (rng : Draws) (self : t) (best particle g : Point) (n : nat) :
  ∀ i speed, length (mutated_from rng self best particle g i n speed) = length speed.
Proof.
  induction n as [|n IH]; intros i speed; [reflexivity|].
  cbn [mutated_from]. rewrite IH. apply length_insert.
Qed.

Lemma mutated_from_same_gains (rng : Draws) (self self' : t) (best particle g : Point) (n : nat) :
  omega self' = omega self → phip self' = phip self → phig self' = phig self →
  ∀ i speed,
    mutated_from rng self' best particle g i n speed
    = mutated_from rng self best particle g i n speed.
Proof.
  intros Ho Hp Hg. induction n as [|n IH]; intros i speed; [reflexivity|].
  cbn [mutated_from]. rewrite IH. unfold mutated_item. rewrite Ho, Hp, Hg. reflexivity.
Qed.

Lemma mutate_speed_step (rng : Draws) (loc i : nat) (self : t)
    (speed : Point) (best particle : seq) (g : Point) :
  pop_speed self !! loc = Some speed →
  pop_best self !! loc = Some best →
  pop self !! loc = Some particle →
  pso_best self = Some g →
  (i < length speed)%nat → (i < length (items best))%nat →
  (i < length (items particle))%nat → (i < length g)%nat →
  mutate_speed rng (Z.of_nat loc) (Z.of_nat i) self
  = (set_pop_speed
       (<[loc := mutated_from rng self (items best) (items particle) g i 1 speed]>
          (pop_speed self)) self,
     Returns tt).
Proof.
  intros Hspeed Hbest Hparticle Hg Hv Hb Hp Hgi.
  destruct (lookup_lt_is_Some_2 speed i Hv) as [v Hvi].
  destruct (lookup_lt_is_Some_2 (items best) i Hb) as [b Hbi].
  destruct (lookup_lt_is_Some_2 (items particle) i Hp) as [p Hpi].
  destruct (lookup_lt_is_Some_2 g i Hgi) as [gi Hgii].
  unfold mutate_speed, pso_best_item. py_red.
  rewrite !index_of_nat, Hspeed. py_red. rewrite index_of_nat, Hvi. py_red.
  rewrite Hbest. py_red. rewrite index_of_nat, Hbi. py_red.
  rewrite Hparticle. py_red. rewrite index_of_nat, Hpi. py_red.
  rewrite Hg, index_of_nat, Hgii. py_red.
  rewrite set_item_of_nat by exact Hv. py_red.
  rewrite set_item_of_nat by (apply lookup_lt_Some in Hspeed; exact Hspeed). py_red.
  unfold mutated_from, mutated_item, Point in *. cbv beta zeta.
  rewrite Hvi, Hbi, Hpi, Hgii. reflexivity.
Qed.

Lemma mutate_speed_loop (rng : Draws) (loc : nat) (best particle : seq) (g : Point) (n : nat) :
  ∀ (i : nat) (self : t) (speed : Point),
    pop_speed self !! loc = Some speed →
    pop_best self !! loc = Some best →
    pop self !! loc = Some particle →
    pso_best self = Some g →
    (i + n ≤ length speed)%nat → (i + n ≤ length (items best))%nat →
    (i + n ≤ length (items particle))%nat → (i + n ≤ length g)%nat →
    for_each (Z.of_nat <$> List.seq i n) (mutate_speed rng (Z.of_nat loc)) self
    = (set_pop_speed
         (<[loc := mutated_from rng self (items best) (items particle) g i n speed]>
            (pop_speed self)) self,
       Returns tt).
Proof.
  induction n as [|n IH]; intros i self speed Hspeed Hbest Hparticle Hg Hv Hb Hp Hgi.
  - cbn [List.seq fmap list_fmap for_each mutated_from]. rewrite list_insert_id by exact Hspeed.
    destruct self; reflexivity.
  - cbn [List.seq fmap list_fmap for_each]. unfold mbind, py_mbind, Py.bind.
    rewrite (mutate_speed_step rng loc i self speed best particle g) by (assumption || lia).
    set (speed1 := mutated_from rng self (items best) (items particle) g i 1 speed).
    set (self1 := set_pop_speed (<[loc := speed1]> (pop_speed self)) self).
    assert (Hlen1 : length speed1 = length speed) by apply mutated_from_length.
    change (for_each (list_fmap nat Z Z.of_nat (List.seq (S i) n)))
      with (for_each (Z.of_nat <$> List.seq (S i) n)).
    rewrite (IH (S i) self1 speed1); subst self1; cbn [pop_speed pop_best pop pso_best set_pop_speed];
      try assumption; try lia.
    + rewrite list_insert_insert_eq.
      rewrite (mutated_from_same_gains rng
                 (set_pop_speed (<[loc:=speed1]> (pop_speed self)) self) self)
        by reflexivity.
      reflexivity.
    + apply list_lookup_insert_eq. apply lookup_lt_Some in Hspeed. exact Hspeed.
Qed.

(** The particle after [self.pop[location] += speed]: an array takes
    the speed coordinate by coordinate, a list is extended by it. *)
Definition added (particle : seq) (speed : Point) : seq :=
  match particle with
  | ndarray x => ndarray (Vec.add x speed)
  | pylist x => pylist (x ++ speed)
  end.

Lemma move_particle_effect (loc : nat) (self : t) (particle : seq) (speed : Point) :
  pop self !! loc = Some particle →
  pop_speed self !! loc = Some speed →
  ∃ self', move_particle (Z.of_nat loc) self = (self', Returns tt)
           ∧ pop self' = <[loc := added particle speed]> (pop self)
           ∧ pop_speed self' = pop_speed self
           ∧ eps self' = eps self.
Proof.
  intros Hparticle Hspeed. pose proof (lookup_lt_Some _ _ _ Hparticle) as Hloc.
  unfold move_particle. py_red. rewrite !index_of_nat, Hparticle. py_red.
  rewrite Hspeed. py_red. destruct particle as [x|x]; cbn [added].
  - rewrite set_item_of_nat by exact Hloc. py_red.
    destruct (pop_best self !! loc) as [[y|y]|] eqn:Hbest; cbn [pop_best set_pop];
      try (eexists; split; [reflexivity|]; repeat split).
    rewrite set_item_of_nat by (apply lookup_lt_Some in Hbest; exact Hbest). py_red.
    eexists; split; [reflexivity|]; repeat split.
  - rewrite set_item_of_nat by exact Hloc. py_red.
    eexists; split; [reflexivity|]; repeat split.
Qed.

Lemma to_real_length (x out : Point) : to_real x = inr out → length out = length x.
Proof.
  unfold to_real. destruct (existsb Float.isnan (norm_ppf <$> x)); [discriminate|].
  intros [= <-]. apply length_fmap.
Qed.

(** The move of a particle that has a fitness, in an ask: the speed of
    each of the first [dimension] coordinates is mutated, the speed is
    added to the particle, and the particle is rebuilt as a clamped
    list. At its first move the particle is still the array drawn at
    the creation of the swarm, and takes the speed coordinate by
    coordinate, the two having one shape. From the second move on it
    is a list, which [+=] extends: the particle has then as many
    coordinates more as the speed has, and so has the point the ask
    answers. *)
Theorem pso_move_extends_a_list_particle (rng : Draws) (loc : nat) (self : t) (f : float)
    (speed : Point) (best particle : seq) (g : Point) :
  let d := Z.to_nat (dimension self) in
  let speed' := mutated_from rng self (items best) (items particle) g 0 d speed in
  pop_fitness self !! loc = Some (Some f) →
  pop_speed self !! loc = Some speed →
  pop_best self !! loc = Some best →
  pop self !! loc = Some particle →
  pso_best self = Some g →
  (d ≤ length speed)%nat → (d ≤ length (items best))%nat →
  (d ≤ length (items particle))%nat → (d ≤ length g)%nat →
  match particle with ndarray x => length x = length speed | pylist _ => True end →
  ∃ self',
    advance rng (Z.of_nat loc) self = (self', Returns tt)
    ∧ pop_speed self' !! loc = Some speed'
    ∧ length speed' = length speed
    ∧ pop self' !! loc = Some (pylist (clamp (eps self) (items (added particle speed'))))
    ∧ length (clamp (eps self) (items (added particle speed')))
      = match particle with
        | ndarray x => length x
        | pylist x => (length x + length speed)%nat
        end
    ∧ (∀ guy, snd (emit (Z.of_nat loc) self') = Returns guy →
       length guy = length (clamp (eps self) (items (added particle speed')))).
Proof.
  intros d speed' Hfit Hspeed Hbest Hparticle Hg Hv Hb Hp Hgi Hshape.
  pose proof (lookup_lt_Some _ _ _ Hparticle) as Hloc.
  pose proof (lookup_lt_Some _ _ _ Hspeed) as Hloc'.
  assert (Hlen : length speed' = length speed) by apply mutated_from_length.
  unfold advance. unfold mbind at 1. unfold py_mbind, Py.bind, Py.get.
  rewrite (index_of_nat (pop_fitness self) loc), Hfit.
  unfold mbind at 1. unfold py_mbind, Py.bind, Py.lift, Py.ret.
  rewrite range_of_nat. fold d. unfold mbind at 1. unfold py_mbind, Py.bind.
  rewrite (mutate_speed_loop rng loc best particle g d 0 self speed) by (assumption || lia).
  fold speed'.
  set (self1 := set_pop_speed (<[loc := speed']> (pop_speed self)) self).
  destruct (move_particle_effect loc self1 particle speed')
    as (self2 & Hmove & Hpop2 & Hspeed2 & Heps2).
  { exact Hparticle. }
  { subst self1. cbn [pop_speed set_pop_speed]. apply list_lookup_insert_eq. exact Hloc'. }
  unfold mbind at 1. unfold py_mbind, Py.bind. rewrite Hmove.
  unfold mbind, py_mbind, Py.bind, Py.get.
  assert (Hmoved : pop self2 !! loc = Some (added particle speed')).
  { rewrite Hpop2. subst self1. cbn [pop set_pop_speed]. apply list_lookup_insert_eq. exact Hloc. }
  rewrite index_of_nat, Hmoved. unfold Py.lift, Py.ret.
  rewrite set_item_of_nat by (rewrite Hpop2, length_insert; exact Hloc).
  unfold Py.modify. rewrite Heps2.
  change (eps self1) with (eps self).
  eexists. split; [reflexivity|]. cbn [pop_speed pop set_pop].
  assert (Hfinal : <[loc := pylist (clamp (eps self) (items (added particle speed')))]> (pop self2)
                   !! loc
                   = Some (pylist (clamp (eps self) (items (added particle speed'))))).
  { apply list_lookup_insert_eq. rewrite Hpop2, length_insert. exact Hloc. }
  split; [rewrite Hspeed2; subst self1; cbn [pop_speed set_pop_speed];
          apply list_lookup_insert_eq; exact Hloc'|].
  split; [exact Hlen|]. split; [exact Hfinal|]. split.
  - unfold clamp. rewrite length_fmap. destruct particle as [x|x]; cbn [added items].
    + unfold Vec.add. rewrite length_zip_with, Hlen, Hshape. apply Nat.min_id.
    + rewrite length_app, Hlen. reflexivity.
  - intros guy Hguy.
    rewrite (emit_effect (Z.of_nat loc) _
               (pylist (clamp (eps self) (items (added particle speed'))))) in Hguy
      by (rewrite index_of_nat; cbn [pop set_pop]; rewrite Hfinal; reflexivity).
    cbn [items] in Hguy.
    destruct (to_real (clamp (eps self) (items (added particle speed')))) as [e|out] eqn:Hreal;
      [discriminate|].
    injection Hguy as <-. apply (to_real_length _ _ Hreal).
Qed.

End pso_moves.

(** A swarm of dimension one whose particle 0 has moved once: it is
    the list [[0.5]], with the speed [(0.25)] and a fitness. Its next
    move makes it a list of two coordinates. *)
Definition moved_once : PSO.t :=
  {| PSO.base := Base.__init__ 1 None 1;
     PSO.llambda := 40;
     PSO.pop := [PSO.pylist [Float.lit 5 10]];
     PSO.pop_speed := [[Float.lit 25 100]];
     PSO.pop_best := [PSO.pylist [Float.lit 5 10]];
     PSO.pop_best_fitness := [Float.of_Z 3];
     PSO.pop_fitness := [Some (Float.of_Z 3)];
     PSO.pso_best := Some [Float.lit 5 10];
     PSO.pso_best_fitness := Float.of_Z 3;
     PSO.locations := ∅;
     PSO.index := 40;
     PSO.omega := Float.lit 72 100;
     PSO.phip := Float.lit 119 100;
     PSO.phig := Float.lit 119 100;
     PSO.eps := Float.lit 1 10000000000;
     PSO.queue := [0] |}.

Lemma pso_move_extends_a_list_particle_witness :
  let moved := PSO.advance coinciding_draws 0 moved_once in
  PSO.dimension moved_once = 1
  ∧ snd moved = Returns tt
  ∧ (length ∘ PSO.items) <$> PSO.pop (fst moved) = [2%nat].
Proof.
  intros moved.
  destruct (pso_move_extends_a_list_particle (numerics := table_numerics) coinciding_draws 0
              moved_once (Float.of_Z 3) [Float.lit 25 100] (PSO.pylist [Float.lit 5 10])
              (PSO.pylist [Float.lit 5 10]) [Float.lit 5 10])
    as (self' & Hmove & _ & _ & Hpop & Hlen & _);
    try reflexivity; try (simpl; lia); try exact I.
  split; [reflexivity|].
  change (PSO.advance coinciding_draws (Z.of_nat 0) moved_once) with moved in Hmove.
  split; [rewrite Hmove; reflexivity|].
  vm_compute. reflexivity.
Defined.

(** ** PSO: a swarm with no best *)

Section pso_no_best.
Context {numerics : Numerics}.
Import PSO.

Lemma prepare_later (rng : Draws) (self : t) :
  index self ≠ -1 → prepare rng self = (set_index (index self + 1) self, Returns tt).
Proof.
  intros Hindex. unfold prepare. py_red. cbn [index set_index].
  replace (index self + 1 =? 0) with false by lia. reflexivity.
Qed.

(** The best of the swarm is assigned by the tell of a value below
    [pso_best_fitness], which starts at infinity. A swarm that has
    been told no such value, only infinite values for instance, has
    no best; its first ask of a particle that has a fitness counts
    itself and raises [TypeError], at the first coordinate of the
    speed mutation, which reads [pso_best[0]]. *)
Theorem pso_ask_without_a_best (rng : Draws) (loc : nat) (rest : list Z) (self : t) (f : float)
    (speed : Point) (best particle : seq) :
  pso_best self = None →
  index self ≠ -1 →
  queue self = Z.of_nat loc :: rest →
  pop_fitness self !! loc = Some (Some f) →
  pop_speed self !! loc = Some speed →
  pop_best self !! loc = Some best →
  pop self !! loc = Some particle →
  1 ≤ dimension self →
  (0 < length speed)%nat → (0 < length (items best))%nat → (0 < length (items particle))%nat →
  _internal_ask rng self = (set_index (index self + 1) self, Raises TypeError).
Proof.
  intros Hbest Hindex Hqueue Hfit Hspeed Hpbest Hparticle Hdim Hv Hb Hp.
  destruct (lookup_lt_is_Some_2 speed 0 Hv) as [v Hvi].
  destruct (lookup_lt_is_Some_2 (items best) 0 Hb) as [b Hbi].
  destruct (lookup_lt_is_Some_2 (items particle) 0 Hp) as [p Hpi].
  unfold _internal_ask. unfold mbind at 1. unfold py_mbind, Py.bind.
  rewrite (prepare_later rng self Hindex).
  unfold mbind at 1. unfold py_mbind, Py.bind, Py.get. cbn [queue set_index]. rewrite Hqueue.
  unfold mbind at 1. unfold py_mbind, Py.bind.
  set (self1 := set_index (index self + 1) self).
  assert (Hadvance : advance rng (Z.of_nat loc) self1 = (self1, Raises TypeError)).
  { unfold advance. unfold mbind at 1. unfold py_mbind, Py.bind, Py.get.
    rewrite (index_of_nat (pop_fitness self1) loc).
    change (pop_fitness self1) with (pop_fitness self). rewrite Hfit.
    unfold mbind at 1. unfold py_mbind, Py.bind, Py.lift, Py.ret.
    change (dimension self1) with (dimension self).
    rewrite (range_cons 0 (dimension self)) by lia. cbn [for_each].
    unfold mbind at 1. unfold py_mbind, Py.bind.
    unfold mbind at 1. unfold py_mbind, Py.bind.
    assert (Hstep : mutate_speed rng (Z.of_nat loc) 0 self1 = (self1, Raises TypeError)).
    { unfold mutate_speed, pso_best_item. py_red.
      change (pop_speed self1) with (pop_speed self).
      change (pop_best self1) with (pop_best self).
      change (pop self1) with (pop self).
      change (pso_best self1) with (pso_best self).
      rewrite !index_of_nat, Hspeed. py_red.
      change 0 with (Z.of_nat 0). rewrite !index_of_nat, Hvi. py_red.
      rewrite Hpbest. py_red. rewrite ?index_of_nat, Hbi. py_red.
      rewrite Hparticle. py_red. rewrite ?index_of_nat, Hpi. py_red.
      rewrite Hbest. reflexivity. }
    rewrite Hstep. reflexivity. }
  rewrite Hadvance. reflexivity.
Qed.

End pso_no_best.

(** A swarm of forty particles of dimension one, asked once, told an
    infinite value for the point answered, and asked for the
    thirty-nine other particles: the next ask is for the particle 0,
    which has a fitness, and raises. *)
Definition swarm_told_infinity : PSO.t :=
  let asked := fst (PSO._internal_ask (numerics := table_numerics) coinciding_draws
                      (PSO.__init__ (numerics := table_numerics) 1 None 1)) in
  let told := fst (PSO._internal_tell (numerics := table_numerics) [Float.zero] Float.inf asked) in
  fst (ask_all (numerics := table_numerics) (replicate 39 coinciding_draws) told).

Lemma pso_ask_without_a_best_witness :
  PSO.queue swarm_told_infinity = [0]
  ∧ PSO.pop_fitness swarm_told_infinity !! 0%nat = Some (Some Float.inf)
  ∧ snd (PSO._internal_ask (numerics := table_numerics) coinciding_draws swarm_told_infinity)
    = Raises TypeError.
Proof.
  assert (Hqueue : PSO.queue swarm_told_infinity = Z.of_nat 0 :: [])
    by (vm_compute; reflexivity).
  assert (Hfit : PSO.pop_fitness swarm_told_infinity !! 0%nat = Some (Some Float.inf))
    by (vm_compute; reflexivity).
  assert (Hbest : PSO.pso_best swarm_told_infinity = None) by (vm_compute; reflexivity).
  assert (Hindex : PSO.index swarm_told_infinity ≠ -1) by (vm_compute; discriminate).
  assert (Hspeed : PSO.pop_speed swarm_told_infinity !! 0%nat = Some [Float.zero])
    by (vm_compute; reflexivity).
  assert (Hpbest : PSO.pop_best swarm_told_infinity !! 0%nat
                   = Some (PSO.ndarray [Float.lit 5 10])) by (vm_compute; reflexivity).
  assert (Hpop : PSO.pop swarm_told_infinity !! 0%nat = Some (PSO.ndarray [Float.lit 5 10]))
    by (vm_compute; reflexivity).
  assert (Hdim : 1 ≤ PSO.dimension swarm_told_infinity) by (vm_compute; discriminate).
  split; [exact Hqueue|]. split; [exact Hfit|].
  rewrite (pso_ask_without_a_best (numerics := table_numerics) coinciding_draws 0 []
             swarm_told_infinity Float.inf [Float.zero] (PSO.ndarray [Float.lit 5 10])
             (PSO.ndarray [Float.lit 5 10]) Hbest Hindex Hqueue Hfit Hspeed Hpbest Hpop Hdim);
    [reflexivity|simpl; lia..].
Defined.

(** ** The selecting portfolios: what the constructors leave *)

Section competence_map.
Context {members : Members}.
Import ASCMADEthird.











(** An optimizer of the family with one member, as [CM] always is,
    asks this member at every ask: in the initial phase at index 0,
    after it at index [-1]. *)
Theorem a_single_member_is_always_asked (self : t) (o : Sub) :
  Portfolio.optims (portfolio self) = [o] →
  best_optim self = Some (-1) →
  ∃ i, snd (choose self) = Returns i
       ∧ Py.index (Portfolio.optims (portfolio (fst (choose self)))) i = inr o
       ∧ snd (_internal_ask self) = snd (sub_ask o)
       ∧ Portfolio.optims (portfolio (fst (_internal_ask self))) = [fst (sub_ask o)].
Proof.
  intros Hoptims Hbest.
  assert (Hchoose : ∃ i self1, choose self = (self1, Returns i) ∧ (i = 0 ∨ i = -1)
                               ∧ portfolio self1 = portfolio self).
  { unfold choose. py_red. destruct (0 <? budget_before_choosing self).
    - rewrite Hoptims. unfold Portfolio.py_mod. change (Py.len [o]) with 1.
      change (1 =? 0) with false. cbv iota. rewrite Z.mod_1_r.
      eexists _, _. split; [reflexivity|]. split; [left; reflexivity|reflexivity].
    - rewrite Hbest. eexists _, _. split; [reflexivity|]. split; [right; reflexivity|reflexivity]. }
  destruct Hchoose as (i & self1 & Hchoose & Hi & Hsame).
  exists i. unfold _internal_ask. unfold mbind, py_mbind, Py.bind. rewrite Hchoose.
  cbn [fst snd]. rewrite Hsame, Hoptims. split; [reflexivity|].
  split; [destruct Hi as [-> | ->]; reflexivity|].
  unfold on_portfolio, Portfolio.dispatch. unfold mbind, py_mbind, Py.bind.
  unfold Portfolio.on_optim. rewrite Hsame, Hoptims.
  destruct Hi as [-> | ->].
  - change (Py.index [o] 0) with (@inr exn Sub o). cbv beta iota.
    destruct (sub_ask o) as [o' [x|e]];
      change (Py.set_item [o] 0 o') with (@inr exn (list Sub) [o']); split; reflexivity.
  - change (Py.index [o] (-1)) with (@inr exn Sub o). cbv beta iota.
    destruct (sub_ask o) as [o' [x|e]];
      change (Py.set_item [o] (-1) o') with (@inr exn (list Sub) [o']); split; reflexivity.
Qed.

End competence_map.

(** [CM] in dimension 1 with a budget of 100, on member doubles: its
    one member is a [CMA]. *)
Definition a_cm : ASCMADEthird.t (members := members_double) :=
  match ASCMADEthird.CM__init__ (members := members_double) 1 (Some 100) 1 with
  | inr self => self
  | inl _ =>
      ASCMADEthird.Build_t _ (Portfolio.Build_t _ (Base.__init__ 1 None 1) [] ∅) 0 None
  end.

Lemma a_single_member_is_always_asked_witness :
  let o : Sub (Members := members_double) := new_double cls_CMA in
  ∃ i, snd (ASCMADEthird.choose a_cm) = Returns i
       ∧ Py.index (Portfolio.optims (ASCMADEthird.portfolio (fst (ASCMADEthird.choose a_cm)))) i
         = inr o
       ∧ snd (ASCMADEthird._internal_ask a_cm) = snd (sub_ask o)
       ∧ Portfolio.optims (ASCMADEthird.portfolio (fst (ASCMADEthird._internal_ask a_cm)))
         = [fst (sub_ask o)].
Proof.
  intros o.
  exact (a_single_member_is_always_asked (members := members_double) a_cm o eq_refl eq_refl).
Defined.

(** ** One-plus-one: the parameters the constructor accepts *)

Section accepted_parameters.
Context {mutations : Mutations}.
Import OnePlusOne.

Lemma mutating_returns (rng : Draws) (self : t) :
  mutation (_parameters self)
  ∈ ["gaussian"; "cauchy"; "discrete"; "fastga"; "doublefastga"; "portfolio"] →
  ∃ x, mutating rng self = inr x.
Proof.
  intros Hin. unfold mutating, _mutations, str_eq. cbv zeta.
  repeat (apply elem_of_cons in Hin as [->|Hin];
          [repeat (rewrite bool_decide_eq_true_2 by reflexivity
                   || rewrite bool_decide_eq_false_2 by discriminate);
           eexists; reflexivity|]).
  inversion Hin.
Qed.

(** With parameters that [ParametrizedOnePlusOne] accepts, the
    mutation step of an ask always finds its operator: the lookup in
    [_mutations] never raises [KeyError], and the branch for the
    mutation ["crossover"] is not reached, this name being refused;
    the strategy of a noise handling is ["random"] or ["optimistic"].
    Without noise handling an ask answers, in every state, and changes
    nothing. *)
Theorem one_plus_one_accepted_parameters
    (noise : option (string + string * float)) (kind : string) (crossing : bool)
    (p : Parameters) (self : t) (rng : Draws) :
  ParametrizedOnePlusOne noise kind crossing = inr p →
  _parameters self = p →
  (∃ x, mutating rng self = inr x)
  ∧ mutation p ≠ "crossover"
  ∧ match noise with
    | None => ∃ x, _internal_ask rng self = (self, Returns x)
    | Some (inl strategy) | Some (inr (strategy, _)) =>
        strategy = "random" ∨ strategy = "optimistic"
    end.
Proof.
  unfold ParametrizedOnePlusOne, one_of. intros Hok Hself.
  destruct (negb _) eqn:Hnoise in Hok; [discriminate|].
  case_bool_decide as Hkind; [|discriminate]. cbn [negb] in Hok. injection Hok as <-.
  assert (Hmut : ∃ x, mutating rng self = inr x)
    by (apply mutating_returns; rewrite Hself; exact Hkind).
  split; [exact Hmut|]. split.
  - cbn [mutation]. intros ->.
    repeat (apply elem_of_cons in Hkind as [Hkind|Hkind]; [discriminate|]). inversion Hkind.
  - apply negb_false_iff in Hnoise. destruct noise as [[strategy|[strategy factor]]|].
    + apply bool_decide_eq_true in Hnoise.
      repeat (apply elem_of_cons in Hnoise as [->|Hnoise]; [tauto|]). inversion Hnoise.
    + apply andb_true_iff in Hnoise as [_ Hnoise]. apply bool_decide_eq_true in Hnoise.
      repeat (apply elem_of_cons in Hnoise as [->|Hnoise]; [tauto|]). inversion Hnoise.
    + destruct Hmut as [x Hx]. unfold _internal_ask, noisy_ask. py_red. rewrite Hself.
      cbn [noise_handling crossover_flag].
      destruct (Base._num_ask (base self) =? 0); [eexists; reflexivity|].
      destruct (crossing && _ && _); [eexists; reflexivity|].
      rewrite Hx. eexists; reflexivity.
Qed.

End accepted_parameters.

(** The parameters of [DiscreteOnePlusOne] are accepted, and the
    discrete one-plus-one answers its ask. *)
Lemma one_plus_one_accepted_parameters_witness :
  OnePlusOne.ParametrizedOnePlusOne None "discrete" false
  = inr (OnePlusOne._parameters discrete_one_plus_one)
  ∧ ∃ x, OnePlusOne._internal_ask (mutations := identity_mutations) unit_draws
           discrete_one_plus_one
         = (discrete_one_plus_one, Returns x).
Proof.
  split; [reflexivity|].
  destruct (one_plus_one_accepted_parameters (mutations := identity_mutations)
              None "discrete" false (OnePlusOne._parameters discrete_one_plus_one)
              discrete_one_plus_one unit_draws eq_refl eq_refl) as (_ & _ & Hask).
  exact Hask.
Defined.

(** ** NoisyBandit *)

Module NoisyBandit.

(** What [np.random] returns during one ask: the normal vector, the
    boolean drawn by [np.random.choice([True, False])], and the index
    drawn by [np.random.choice(len(self.archive))]. *)
Record Draws : Type := {
  normal : Point;
  coin : bool;
  choice : Z
}.

(** The class adds [_internal_ask] to the base optimizer, and no
    attribute. [np.random.normal(0, 1, n)] raises on a negative [n]. *)
Definition _internal_ask (rng : Draws) : py Base.Optimizer Point :=
  self ← get;
  if Py.len (Base.archive self) ^ 3 <=? 20 * Base._num_ask self then
    if Base.dimension self <? 0 then raise ValueError else mret (normal rng)
  else if coin rng then
    kv ← lift (Py.index (Base.archive self) (choice rng));
    mret (fst kv)
  else mret (Base.x (Base.current_bests self "optimistic")).

End NoisyBandit.

(** An ask of the bandit draws a new arm, the normal vector, whenever
    [20 * _num_ask >= len(archive) ** 3], and so whenever the archive
    is empty: the index into the archive is drawn only from an archive
    that has a point. With this index inside the archive, as
    [np.random.choice] draws it, and a dimension that is not
    negative, an ask answers in every state, changes nothing, and
    answers the new arm, a point of the archive or the optimistic
    best. *)
Theorem noisy_bandit_asks_no_empty_archive (rng : NoisyBandit.Draws) (self : Base.Optimizer) :
  0 ≤ Base.dimension self →
  0 ≤ Base._num_ask self →
  (Base.archive self ≠ [] → 0 ≤ NoisyBandit.choice rng < Py.len (Base.archive self)) →
  ∃ x, NoisyBandit._internal_ask rng self = (self, Returns x)
       ∧ (Base.archive self = [] → x = NoisyBandit.normal rng)
       ∧ (x = NoisyBandit.normal rng
          ∨ x ∈ fst <$> Base.archive self
          ∨ x = Base.x (Base.current_bests self "optimistic")).
Proof.
  intros Hdim Hasked Hchoice. unfold NoisyBandit._internal_ask. py_red.
  destruct (Z.leb_spec (Py.len (Base.archive self) ^ 3) (20 * Base._num_ask self)) as [Hnew|Hold].
  - replace (Base.dimension self <? 0) with false by lia.
    eexists. split; [reflexivity|]. split; [reflexivity|left; reflexivity].
  - assert (Hsome : Base.archive self ≠ []).
    { intros Hnil. rewrite Hnil in Hold. unfold Py.len in Hold. simpl in Hold. lia. }
    destruct (NoisyBandit.coin rng).
    + specialize (Hchoice Hsome).
      destruct (lookup_lt_is_Some_2 (Base.archive self) (Z.to_nat (NoisyBandit.choice rng)))
        as [kv Hkv]; [unfold Py.len in Hchoice; lia|].
      pose proof (index_nonneg _ _ _ Hkv) as Hindex. rewrite Z2Nat.id in Hindex by lia.
      rewrite Hindex. eexists. split; [reflexivity|]. split; [contradiction|].
      right; left. apply list_elem_of_fmap_2. eapply list_elem_of_lookup_2, Hkv.
    + eexists. split; [reflexivity|]. split; [contradiction|right; right; reflexivity].
Qed.

(** A new bandit of dimension two: the first ask answers the normal
    draw. *)
Lemma noisy_bandit_asks_no_empty_archive_witness :
  let rng := {| NoisyBandit.normal := [Float.of_Z 1; Float.of_Z 2];
                NoisyBandit.coin := true;
                NoisyBandit.choice := 0 |} in
  NoisyBandit._internal_ask rng (Base.__init__ 2 None 1)
  = (Base.__init__ 2 None 1, Returns [Float.of_Z 1; Float.of_Z 2]).
Proof.
  intros rng.
  destruct (noisy_bandit_asks_no_empty_archive rng (Base.__init__ 2 None 1))
    as (x & Hask & Hnormal & _).
  - simpl. lia.
  - simpl. lia.
  - intros Hne. contradiction Hne. reflexivity.
  - rewrite Hask, (Hnormal eq_refl). reflexivity.
Defined.

(** ** Evolution strategies: the lists stay aligned *)

Section aligned_lists.
Context {numerics : Numerics}.
Import TBPSA.

(** The lists that go together have one length: a step size and a
    fitness for each evaluated point, a step size for each pending
    point. *)
Definition aligned (p : t) : Prop :=
  length (evaluated_population_sigma p) = length (evaluated_population p)
  ∧ length (evaluated_population_fitness p) = length (evaluated_population p)
  ∧ length (unevaluated_population_sigma p) = length (unevaluated_population p).

(** A method after which the lists are aligned if they were before,
    whether it returns or raises. *)
Definition keeps_aligned {S A} (view : S → t) (m : py S A) : Prop :=
  ∀ s, aligned (view s) → aligned (view (fst (m s))).

Lemma keeps_aligned_bind {S A B} (view : S → t) (m : py S A) (k : A → py S B) :
  keeps_aligned view m → (∀ a, keeps_aligned view (k a)) → keeps_aligned view (m ≫= k).
Proof.
  intros Hm Hk s Hs. unfold mbind, py_mbind, Py.bind. specialize (Hm s Hs).
  destruct (m s) as [s' [a|e]]; cbn [fst] in *; [apply Hk, Hm|exact Hm].
Qed.

(** The lists of the state as one value. *)
Definition lists (p : t) :
    list Point * list float * list float * list Point * list float :=
  (evaluated_population p, evaluated_population_sigma p, evaluated_population_fitness p,
   unevaluated_population p, unevaluated_population_sigma p).

Lemma aligned_same_lists (p q : t) : lists q = lists p → aligned p → aligned q.
Proof. unfold lists, aligned. intros [= -> -> -> -> ->]. tauto. Qed.

Lemma keeps_aligned_of_preserves {A} (m : py t A) :
  preserves lists m → keeps_aligned id m.
Proof. intros Hm s Hs. exact (aligned_same_lists s _ (Hm s) Hs). Qed.

Lemma ask_keeps_aligned (rng : Draws) : keeps_aligned id (_internal_ask rng).
Proof.
  intros p (Hs & Hf & Hu). unfold id in *. unfold _internal_ask. py_red. unfold aligned.
  cbn [evaluated_population evaluated_population_sigma evaluated_population_fitness
       unevaluated_population unevaluated_population_sigma
       set_unevaluated_population set_unevaluated_population_sigma].
  rewrite !length_app. cbn [length]. repeat split; [exact Hs|exact Hf|lia].
Qed.

Lemma test_keeps_lists (value : float) : preserves lists (population_size_test value).
Proof. unfold population_size_test. preserves_all. Qed.

Lemma move_keeps_aligned (x : Point) (value : float) :
  keeps_aligned id (move_to_evaluated x value).
Proof.
  intros p (Hs & Hf & Hu). unfold id in *. unfold move_to_evaluated. py_red.
  destruct (Py.list_index Py.tuple_eqb (unevaluated_population p) x) as [e|idx] eqn:Hidx;
    [repeat split; assumption|].
  py_red. assert (Hlt : (idx < @length Point (unevaluated_population p))%nat)
    by exact (list_index_lt _ _ _ _ Hidx).
  cbn [unevaluated_population_sigma unevaluated_population set_evaluated_population
       set_evaluated_population_fitness].
  destruct (lookup_lt_is_Some_2 (unevaluated_population_sigma p) idx) as [sg Hsg]; [lia|].
  rewrite (index_nonneg _ _ _ Hsg). py_red. unfold Py.del_item.
  cbn [unevaluated_population_sigma unevaluated_population set_evaluated_population
       set_evaluated_population_fitness set_evaluated_population_sigma].
  rewrite !bool_decide_eq_true_2 by lia. py_red.
  unfold aligned.
  cbn [evaluated_population evaluated_population_sigma evaluated_population_fitness
       unevaluated_population unevaluated_population_sigma
       set_unevaluated_population set_unevaluated_population_sigma
       set_evaluated_population set_evaluated_population_fitness
       set_evaluated_population_sigma].
  rewrite !length_app, !length_delete by (apply lookup_lt_is_Some_2; lia).
  cbn [length]. repeat split; lia.
Qed.

Lemma new_parent_keeps_aligned : keeps_aligned id new_parent.
Proof.
  intros p Hp. unfold id in *. unfold new_parent. py_red.
  destruct (Py.pick (evaluated_population p) _) as [e|best]; [exact Hp|]. py_red.
  destruct (mu p <=? 0); [exact Hp|]. py_red.
  cbn [evaluated_population_sigma set_current_center mu].
  destruct (Py.pick (evaluated_population_sigma p) _) as [e|sigmas]; [exact Hp|]. py_red.
  destruct Hp as (_ & _ & Hu). repeat split. exact Hu.
Qed.

(** The three evaluated lists, sorted together, are aligned. *)
Lemma sorted_lists_aligned (p : t) :
  aligned p →
  aligned (set_evaluated_population_fitness
             ((λ q, q.2) <$> sorted_pop_with_sigma_and_fitness p)
             (set_evaluated_population_sigma
                ((λ q, q.1.2) <$> sorted_pop_with_sigma_and_fitness p)
                (set_evaluated_population
                   ((λ q, q.1.1) <$> sorted_pop_with_sigma_and_fitness p) p))).
Proof.
  intros (_ & _ & Hu). unfold aligned.
  cbn [evaluated_population evaluated_population_sigma evaluated_population_fitness
       unevaluated_population unevaluated_population_sigma
       set_evaluated_population set_evaluated_population_fitness
       set_evaluated_population_sigma].
  rewrite !length_fmap. repeat split. exact Hu.
Qed.

Lemma tell_keeps_aligned (x : Point) (value : float) :
  keeps_aligned id (_internal_tell x value).
Proof.
  unfold _internal_tell.
  apply keeps_aligned_bind; [apply keeps_aligned_of_preserves, test_keeps_lists|intros _].
  apply keeps_aligned_bind; [apply move_keeps_aligned|intros _].
  intros p Hp. unfold id in *. py_red.
  destruct (llambda p <=? Py.len (evaluated_population p)); [|exact Hp].
  py_red.
  cbn [sorted_pop_with_sigma_and_fitness].
  apply (new_parent_keeps_aligned _ (sorted_lists_aligned p Hp)).
Qed.

Lemma on_population_keeps_aligned {A} (m : py t A) :
  keeps_aligned id m → keeps_aligned EDA.population (EDA.on_population m).
Proof.
  intros Hm e He. rewrite on_population_effect. cbn [fst EDA.population EDA.set_population].
  exact (Hm _ He).
Qed.

Lemma eda_ask_keeps_aligned (rng : EDA.Draws) :
  keeps_aligned EDA.population (EDA._internal_ask rng).
Proof.
  intros e (Hs & Hf & Hu). unfold EDA._internal_ask. py_red.
  destruct (Py.len (current_center (EDA.population e)) =? Py.len (EDA.covariance e));
    py_red; [|repeat split; assumption].
  unfold EDA.on_population. py_red.
  cbn [EDA.population EDA.set_population]. unfold aligned.
  cbn [evaluated_population evaluated_population_sigma evaluated_population_fitness
       unevaluated_population unevaluated_population_sigma
       set_unevaluated_population set_unevaluated_population_sigma].
  rewrite !length_app. cbn [length]. repeat split; [exact Hs|exact Hf|lia].
Qed.

Lemma reestimate_keeps_aligned (new_covariance : Vec.Matrix → list Point → Vec.Matrix) :
  keeps_aligned EDA.population (EDA.reestimate new_covariance).
Proof.
  intros e He. unfold EDA.reestimate. py_red.
  destruct (llambda (EDA.population e) <=? Py.len (evaluated_population (EDA.population e)));
    [|exact He].
  unfold mbind, py_mbind, Py.bind. rewrite !on_population_effect.
  unfold Py.modify. cbn [fst snd EDA.population EDA.set_population EDA.set_covariance].
  apply (new_parent_keeps_aligned _ (sorted_lists_aligned (EDA.population e) He)).
Qed.

Lemma eda_tell_keeps_aligned (test : bool)
    (new_covariance : Vec.Matrix → list Point → Vec.Matrix) (x : Point) (value : float) :
  keeps_aligned EDA.population (eda_tell test new_covariance x value).
Proof.
  unfold eda_tell. apply keeps_aligned_bind; [|intros _].
  - destruct test.
    + apply on_population_keeps_aligned, keeps_aligned_of_preserves, test_keeps_lists.
    + intros e He. exact He.
  - apply keeps_aligned_bind; [|intros _; apply reestimate_keeps_aligned].
    apply on_population_keeps_aligned, move_keeps_aligned.
Qed.

(** The calls made to an optimizer of the family, and the state they
    leave, whether they return or raise. *)
Inductive call (D : Type) : Type :=
| asks (rng : D)
| tells (x : Point) (value : float).
Arguments asks {D} rng.
Arguments tells {D} x value.

Definition tbpsa_after (p : t) (c : call Draws) : t :=
  match c with
  | asks rng => fst (_internal_ask rng p)
  | tells x value => fst (_internal_tell x value p)
  end.

Definition eda_after (v : variant) (e : EDA.t) (c : call EDA.Draws) : EDA.t :=
  match c with
  | asks rng => fst (EDA._internal_ask rng e)
  | tells x value => fst (tell_of v x value e)
  end.

Lemma tbpsa_run_aligned (calls : list (call Draws)) (p : t) :
  aligned p → aligned (foldl tbpsa_after p calls).
Proof.
  revert p. induction calls as [|c calls IH]; intros p Hp; [exact Hp|].
  cbn [foldl]. apply IH. destruct c as [rng|x value]; cbn [tbpsa_after].
  - exact (ask_keeps_aligned rng p Hp).
  - exact (tell_keeps_aligned x value p Hp).
Qed.

Lemma eda_run_aligned (v : variant) (calls : list (call EDA.Draws)) (e : EDA.t) :
  aligned (EDA.population e) → aligned (EDA.population (foldl (eda_after v) e calls)).
Proof.
  revert e. induction calls as [|c calls IH]; intros e He; [exact He|].
  cbn [foldl]. apply IH. destruct c as [rng|x value]; cbn [eda_after].
  - exact (eda_ask_keeps_aligned rng e He).
  - rewrite tell_of_variant. exact (eda_tell_keeps_aligned _ _ x value e He).
Qed.

(** Whatever is asked of and told to a TBPSA, an EDA, a PCEDA, an
    MPCEDA or an MEDA, in any order and whether the calls return or
    raise, there is one step size and one fitness for each evaluated
    point and one step size for each pending point: the lookup of the
    step size of a pending point in a tell never fails. The
    constructors raise on a negative dimension ([np.zeros]). *)
Theorem the_lists_stay_aligned (v : variant) (dimension : Z) (budget : option Z)
    (num_workers : Z) (calls : list (call Draws)) (eda_calls : list (call EDA.Draws)) :
  if dimension <? 0 then
    __init__ dimension budget num_workers = inl ValueError
    ∧ EDA.__init__ dimension budget num_workers = inl ValueError
  else
    ∃ p e,
      __init__ dimension budget num_workers = inr p
      ∧ EDA.__init__ dimension budget num_workers = inr e
      ∧ aligned (foldl tbpsa_after p calls)
      ∧ aligned (EDA.population (foldl (eda_after v) e eda_calls))
      ∧ (∀ x idx,
           let told := foldl tbpsa_after p calls in
           Py.list_index Py.tuple_eqb (unevaluated_population told) x = inr idx →
           ∃ sg, Py.index (unevaluated_population_sigma told) (Z.of_nat idx) = inr sg).
Proof.
  unfold EDA.__init__, __init__. unfold mbind, exn_mbind.
  destruct (dimension <? 0); [split; reflexivity|].
  eexists _, _. split; [reflexivity|]. split; [reflexivity|].
  split; [apply tbpsa_run_aligned; repeat split|].
  split; [apply eda_run_aligned; repeat split|].
  intros x idx Hidx.
  match type of Hidx with
  | Py.list_index Py.tuple_eqb (unevaluated_population ?s) _ = _ => set (told := s) in *
  end.
  assert (Haligned : aligned told) by (apply tbpsa_run_aligned; repeat split).
  destruct Haligned as (_ & _ & Hu).
  assert (Hlt : (idx < @length Point (unevaluated_population told))%nat)
    by exact (list_index_lt _ _ _ _ Hidx).
  destruct (lookup_lt_is_Some_2 (unevaluated_population_sigma told) idx) as [sg Hsg]; [lia|].
  exists sg. apply index_nonneg, Hsg.
Qed.

(** ** TBPSA and the EDA family: the selection size *)

(** The dimension, and the two sizes the population-size test
    adapts. *)
Definition sizes (p : t) : Base.Optimizer * Z * Z := (base p, mu p, llambda p).

(** In dimension [d], the selection size [mu] is at least [d] and at
    most a quarter of the population size [llambda]. *)
Definition sized (d : Z) (p : t) : Prop :=
  dimension p = d ∧ d ≤ mu p ∧ 4 * mu p ≤ llambda p.

Lemma sized_same_sizes (d : Z) (p q : t) : sizes q = sizes p → sized d p → sized d q.
Proof. unfold sizes, sized, dimension. intros [= -> -> ->]. tauto. Qed.

Lemma ask_keeps_sizes (rng : Draws) : preserves sizes (_internal_ask rng).
Proof. unfold _internal_ask. preserves_all. Qed.

Lemma move_keeps_sizes (x : Point) (value : float) :
  preserves sizes (move_to_evaluated x value).
Proof. unfold move_to_evaluated. preserves_all. Qed.

Lemma new_parent_keeps_sizes : preserves sizes new_parent.
Proof. unfold new_parent. preserves_all. Qed.

(** The population-size test keeps the bounds, whichever way it
    adapts and wherever it raises. *)
Lemma test_keeps_sized (d : Z) (value : float) (p : t) :
  0 ≤ d → sized d p → sized d (fst (population_size_test value p)).
Proof.
  intros Hd (Hdim & Hmu & Hl). unfold population_size_test. py_red.
  cbn [llambda archive_fitness set_archive_fitness].
  destruct (5 * llambda p <=? Py.len (archive_fitness p ++ [value]));
    py_red; [|repeat split; assumption].
  destruct (z_statistic (archive_fitness p ++ [value]) (llambda p)) as [e|z];
    py_red; [repeat split; assumption|].
  set (appended := set_archive_fitness (archive_fitness p ++ [value]) p).
  assert (Hsized : ∀ m, d ≤ m →
            sized d (if 1 <? num_workers appended
                     then set_mu (Z.max (4 * m) (num_workers appended) / 4)
                            (set_llambda (Z.max (4 * m) (num_workers appended))
                               (set_llambda (4 * m) (set_mu m appended)))
                     else set_llambda (4 * m) (set_mu m appended))).
  { intros m Hm. destruct (1 <? num_workers appended); unfold sized, dimension;
      cbn [base mu llambda set_mu set_llambda];
      (split; [exact Hdim|]); [|lia].
    split; Z.div_mod_to_equations; lia. }
  destruct (Float.ltb z (Float.of_Z 2)).
  - specialize (Hsized (mu p * 2) ltac:(lia)).
    cbn [mu set_mu llambda set_llambda]. change (mu appended) with (mu p).
    destruct (1 <? num_workers appended); cbn [fst]; exact Hsized.
  - change (mu appended) with (mu p). change (dimension appended) with (dimension p).
    destruct (Py.int (Float.mul (Float.of_Z (mu p)) (Float.lit 84 100))) as [e|m];
      cbn [fst]; [repeat split; assumption|].
    specialize (Hsized (if m <? dimension p then dimension p else m)
                  ltac:(destruct (Z.ltb_spec m (dimension p)); lia)).
    cbn [mu set_mu llambda set_llambda].
    destruct (1 <? num_workers appended); cbn [fst]; exact Hsized.
Qed.

Lemma tell_keeps_sized (d : Z) (x : Point) (value : float) (p : t) :
  0 ≤ d → sized d p → sized d (fst (_internal_tell x value p)).
Proof.
  intros Hd Hp. unfold _internal_tell. unfold mbind at 1. unfold py_mbind, Py.bind.
  pose proof (test_keeps_sized d value p Hd Hp) as Hp1.
  destruct (population_size_test value p) as [p1 [[]|e]]; cbn [fst] in *; [|exact Hp1].
  apply (sized_same_sizes d p1); [|exact Hp1].
  match goal with
  | |- sizes (fst (?m p1)) = _ =>
      assert (Hrest : preserves sizes m)
        by (unfold move_to_evaluated, new_parent; preserves_all);
      exact (Hrest p1)
  end.
Qed.

Lemma on_population_keeps_sizes {A} (m : py t A) :
  preserves sizes m → preserves (λ e, sizes (EDA.population e)) (EDA.on_population m).
Proof.
  intros Hm e. rewrite on_population_effect. cbn [fst EDA.population EDA.set_population].
  apply Hm.
Qed.

Ltac sizes_all :=
  repeat first
    [ apply on_population_keeps_sizes;
      unfold population_size_test, move_to_evaluated, new_parent; preserves_all
    | preserves_step ].

Lemma eda_ask_keeps_sizes (rng : EDA.Draws) :
  preserves (λ e, sizes (EDA.population e)) (EDA._internal_ask rng).
Proof. unfold EDA._internal_ask. sizes_all. Qed.

Lemma eda_tell_keeps_sized (d : Z) (test : bool)
    (new_covariance : Vec.Matrix → list Point → Vec.Matrix) (x : Point) (value : float)
    (e : EDA.t) :
  0 ≤ d → sized d (EDA.population e) →
  sized d (EDA.population (fst (eda_tell test new_covariance x value e))).
Proof.
  intros Hd He. unfold eda_tell. unfold mbind at 1. unfold py_mbind, Py.bind.
  assert (He1 : sized d (EDA.population
                           (fst ((if test then EDA.on_population (population_size_test value)
                                  else mret tt) e)))).
  { destruct test; [|exact He]. rewrite on_population_effect.
    cbn [fst EDA.population EDA.set_population]. exact (test_keeps_sized d value _ Hd He). }
  destruct ((if test then EDA.on_population (population_size_test value) else mret tt) e)
    as [e1 [[]|err]]; cbn [fst] in *; [|exact He1].
  apply (sized_same_sizes d (EDA.population e1)); [|exact He1].
  match goal with
  | |- sizes (EDA.population (fst (?m e1))) = _ =>
      assert (Hrest : preserves (λ e, sizes (EDA.population e)) m)
        by (unfold EDA.reestimate; sizes_all);
      exact (Hrest e1)
  end.
Qed.

Lemma tbpsa_run_sized (d : Z) (calls : list (call Draws)) (p : t) :
  0 ≤ d → sized d p → sized d (foldl tbpsa_after p calls).
Proof.
  intros Hd. revert p. induction calls as [|c calls IH]; intros p Hp; [exact Hp|].
  cbn [foldl]. apply IH. destruct c as [rng|x value]; cbn [tbpsa_after].
  - exact (sized_same_sizes d p _ (ask_keeps_sizes rng p) Hp).
  - exact (tell_keeps_sized d x value p Hd Hp).
Qed.

Lemma eda_run_sized (d : Z) (v : variant) (calls : list (call EDA.Draws)) (e : EDA.t) :
  0 ≤ d → sized d (EDA.population e) →
  sized d (EDA.population (foldl (eda_after v) e calls)).
Proof.
  intros Hd. revert e. induction calls as [|c calls IH]; intros e He; [exact He|].
  cbn [foldl]. apply IH. destruct c as [rng|x value]; cbn [eda_after].
  - exact (sized_same_sizes d _ _ (eda_ask_keeps_sizes rng e) He).
  - rewrite tell_of_variant. exact (eda_tell_keeps_sized d _ _ x value e Hd He).
Qed.

Lemma sorted_pop_length (p : t) :
  aligned p →
  length (sorted_pop_with_sigma_and_fitness p) = length (evaluated_population p).
Proof.
  intros (Hs & Hf & _). unfold sorted_pop_with_sigma_and_fitness, zip3.
  rewrite length_fmap, sorted_length, !length_zip. lia.
Qed.

(** For a full population the new parent is computed without an
    error: the [mu] best points and step sizes are there, and [mu] is
    not zero. *)
Lemma new_parent_of_a_full_population (d : Z) (p : t) :
  1 ≤ d → sized d p → aligned p →
  llambda p ≤ Py.len (evaluated_population p) →
  new_parent (with_sorted p) = (with_new_parent (with_sorted p), Returns tt).
Proof.
  intros Hd (Hdim & Hmu & Hl) Ha Hfull. pose proof (sorted_pop_length p Ha) as Hlen.
  unfold Py.len in *.
  apply new_parent_effect; unfold with_sorted, Py.len;
    cbn [mu evaluated_population evaluated_population_sigma set_evaluated_population
         set_evaluated_population_sigma set_evaluated_population_fitness];
    rewrite ?length_fmap; lia.
Qed.

Lemma tell_outcome (d : Z) (x : Point) (value : float) (p : t) :
  1 ≤ d → sized d p → aligned p →
  snd (_internal_tell x value p)
  = snd ((population_size_test value;; move_to_evaluated x value) p).
Proof.
  intros Hd Hp Ha. unfold _internal_tell. unfold mbind, py_mbind, Py.bind.
  pose proof (test_keeps_sized d value p ltac:(lia) Hp) as Hp1.
  pose proof (keeps_aligned_of_preserves _ (test_keeps_lists value) p Ha) as Ha1.
  unfold id in Ha1.
  destruct (population_size_test value p) as [p1 [[]|e]]; cbn [fst snd] in *; [|reflexivity].
  pose proof (sized_same_sizes d p1 _ (move_keeps_sizes x value p1) Hp1) as Hp2.
  pose proof (move_keeps_aligned x value p1 Ha1) as Ha2. unfold id in Ha2.
  destruct (move_to_evaluated x value p1) as [p2 [[]|e]]; cbn [fst snd] in *; [|reflexivity].
  unfold Py.get.
  destruct (Z.leb_spec (llambda p2) (Py.len (evaluated_population p2))) as [Hfull|_];
    [|reflexivity].
  unfold Py.modify. cbn [fst snd]. change (set_evaluated_population_fitness _ _) with (with_sorted p2).
  rewrite (new_parent_of_a_full_population d p2 Hd Hp2 Ha2 Hfull). reflexivity.
Qed.

Lemma eda_tell_outcome (d : Z) (test : bool)
    (new_covariance : Vec.Matrix → list Point → Vec.Matrix) (x : Point) (value : float)
    (e : EDA.t) :
  1 ≤ d → sized d (EDA.population e) → aligned (EDA.population e) →
  snd (eda_tell test new_covariance x value e)
  = snd (((if test then EDA.on_population (population_size_test value) else mret tt);;
          EDA.on_population (move_to_evaluated x value)) e).
Proof.
  intros Hd He Ha. unfold eda_tell. unfold mbind, py_mbind, Py.bind.
  assert (H1 : sized d (EDA.population
                          (fst ((if test then EDA.on_population (population_size_test value)
                                 else mret tt) e)))
               ∧ aligned (EDA.population
                            (fst ((if test then EDA.on_population (population_size_test value)
                                   else mret tt) e)))).
  { destruct test; [|split; assumption]. rewrite on_population_effect.
    cbn [fst EDA.population EDA.set_population].
    split; [exact (test_keeps_sized d value _ ltac:(lia) He)|].
    exact (keeps_aligned_of_preserves _ (test_keeps_lists value) _ Ha). }
  destruct ((if test then EDA.on_population (population_size_test value) else mret tt) e)
    as [e1 [[]|err]]; cbn [fst snd] in *; [|reflexivity].
  destruct H1 as (He1 & Ha1).
  rewrite on_population_effect.
  pose proof (sized_same_sizes d _ _ (move_keeps_sizes x value (EDA.population e1)) He1) as Hp2.
  pose proof (move_keeps_aligned x value (EDA.population e1) Ha1) as Ha2. unfold id in Ha2.
  destruct (move_to_evaluated x value (EDA.population e1)) as [p2 [[]|err]];
    cbn [fst snd] in *; [|reflexivity].
  destruct (Z.leb_spec (llambda p2) (Py.len (evaluated_population p2))) as [Hfull|Hnot].
  - pose proof (sorted_pop_length p2 Ha2) as Hlen. destruct Hp2 as (_ & Hmu & Hl).
    unfold Py.len in *.
    rewrite reestimate_effect; [reflexivity|..];
      unfold with_sorted, Py.len;
      cbn [EDA.population EDA.set_population mu evaluated_population
           evaluated_population_sigma set_evaluated_population
           set_evaluated_population_sigma set_evaluated_population_fitness];
      rewrite ?length_fmap; lia.
  - unfold EDA.reestimate. py_red. cbn [EDA.population EDA.set_population].
    replace (llambda p2 <=? Py.len (evaluated_population p2)) with false by lia.
    reflexivity.
Qed.

(** In a dimension of one or more, whatever is asked of and told to a
    TBPSA, an EDA, a PCEDA, an MPCEDA or an MEDA, the selection size
    [mu] stays between the dimension and a quarter of the population
    size [llambda], whichever way the population-size test adapts
    them. So the re-estimation never fails: a full population has
    the [mu] points and step sizes the new parent is computed from,
    and [mu] is not zero; the outcome of a tell is the outcome of its
    first blocks, the population-size test and the move of the point
    told. *)
Theorem the_selection_fits_the_population (v : variant) (dimension : Z) (budget : option Z)
    (num_workers : Z) (calls : list (call Draws)) (eda_calls : list (call EDA.Draws)) :
  1 ≤ dimension →
  ∃ p e,
    __init__ dimension budget num_workers = inr p
    ∧ EDA.__init__ dimension budget num_workers = inr e
    ∧ (dimension ≤ mu (foldl tbpsa_after p calls)
       ∧ 4 * mu (foldl tbpsa_after p calls) ≤ llambda (foldl tbpsa_after p calls))
    ∧ (dimension ≤ mu (EDA.population (foldl (eda_after v) e eda_calls))
       ∧ 4 * mu (EDA.population (foldl (eda_after v) e eda_calls))
           ≤ llambda (EDA.population (foldl (eda_after v) e eda_calls)))
    ∧ (∀ x value,
         snd (_internal_tell x value (foldl tbpsa_after p calls))
         = snd ((population_size_test value;; move_to_evaluated x value)
                  (foldl tbpsa_after p calls)))
    ∧ (∀ x value,
         snd (tell_of v x value (foldl (eda_after v) e eda_calls))
         = snd (((if tests v then EDA.on_population (population_size_test value)
                  else mret tt);;
                 EDA.on_population (move_to_evaluated x value))
                  (foldl (eda_after v) e eda_calls))).
Proof.
  intros Hd. unfold EDA.__init__, __init__. unfold mbind at 1, exn_mbind.
  replace (dimension <? 0) with false by lia.
  eexists _, _. split; [reflexivity|]. split; [reflexivity|].
  match goal with
  | |- context [foldl tbpsa_after ?p0 calls] =>
      assert (Hp : sized dimension p0 ∧ aligned p0)
        by (split; [repeat split; cbn [mu llambda]; lia|repeat split]);
      pose proof (tbpsa_run_sized dimension calls p0 ltac:(lia) (proj1 Hp)) as Hs;
      pose proof (tbpsa_run_aligned calls p0 (proj2 Hp)) as Ha
  end.
  match goal with
  | |- context [foldl (eda_after v) ?e0 eda_calls] =>
      pose proof (eda_run_sized dimension v eda_calls e0 ltac:(lia) (proj1 Hp)) as Hs';
      pose proof (eda_run_aligned v eda_calls e0 (proj2 Hp)) as Ha'
  end.
  split; [exact (proj2 Hs)|]. split; [exact (proj2 Hs')|]. split.
  - intros x value. exact (tell_outcome dimension x value _ Hd Hs Ha).
  - intros x value. rewrite tell_of_variant.
    exact (eda_tell_outcome dimension _ _ x value _ Hd Hs' Ha').
Qed.

End aligned_lists.

(** A TBPSA of dimension 1, asked once and told a point it never
    asked. *)
Definition one_ask_and_a_stray_tell : list (call TBPSA.Draws) :=
  [asks _ {| TBPSA.normal := Float.zero; TBPSA.normal_vector := [Float.of_Z 1] |};
   tells _ [Float.of_Z 7] (Float.of_Z 3)].

Lemma the_selection_fits_the_population_witness :
  ∃ p,
    TBPSA.__init__ 1 None 1 = inr p
    ∧ 1 ≤ TBPSA.mu (foldl (tbpsa_after (numerics := table_numerics)) p one_ask_and_a_stray_tell)
    ∧ ∀ x value,
        snd (TBPSA._internal_tell (numerics := table_numerics) x value
               (foldl (tbpsa_after (numerics := table_numerics)) p one_ask_and_a_stray_tell))
        = snd ((TBPSA.population_size_test (numerics := table_numerics) value;;
                TBPSA.move_to_evaluated x value)
                 (foldl (tbpsa_after (numerics := table_numerics)) p
                    one_ask_and_a_stray_tell)).
Proof.
  destruct (the_selection_fits_the_population (numerics := table_numerics) class_EDA 1 None 1
              one_ask_and_a_stray_tell [] ltac:(lia))
    as (p & e & Hp & _ & (Hmu & _) & _ & Htell & _).
  exists p. split; [exact Hp|]. split; [exact Hmu|exact Htell].
Defined.

(** ** ParaPortfolio and ParaSQPCMA: every ask reaches a member *)

Lemma set_item_length {A} (l l' : list A) (i : Z) (v : A) :
  Py.set_item l i v = inr l' → length l' = length l.
Proof.
  unfold Py.set_item. cbv zeta.
  destruct ((0 <=? _) && _); [intros [= <-]; apply length_insert|discriminate].
Qed.

Section worker_slots.
Context {members : Members}.
Import ParaPortfolio.

(** The table of slots names members: it has a slot, and each slot is
    an index of [optims]. *)
Definition well_formed (self : t) : Prop :=
  which_optim self ≠ []
  ∧ Forall (λ i, 0 ≤ i < Py.len (Portfolio.optims (portfolio self))) (which_optim self).

Lemma on_optim_keeps_length {A} (i : Z) (m : py Sub A) :
  preserves (λ p, length (Portfolio.optims p)) (Portfolio.on_optim i m).
Proof.
  intros p. unfold Portfolio.on_optim. destruct (Py.index _ i) as [e|o]; [reflexivity|].
  destruct (m o) as [o' r]. destruct (Py.set_item _ i o') as [e|l] eqn:Hset; [reflexivity|].
  cbn [fst Portfolio.optims Portfolio.set_optims]. exact (set_item_length _ _ _ _ Hset).
Qed.

Lemma on_portfolio_keeps_the_table {A} (m : py Portfolio.t A) (self : t) :
  preserves (λ p, length (Portfolio.optims p)) m →
  well_formed self → well_formed (fst (on_portfolio m self)).
Proof.
  intros Hm (Hslot & Hslots). specialize (Hm (portfolio self)).
  unfold on_portfolio. destruct (m (portfolio self)) as [p r]. cbn [fst] in *.
  split; [exact Hslot|]. unfold Py.len in *. cbn [portfolio set_portfolio which_optim].
  rewrite Hm. exact Hslots.
Qed.

(** With a table that names members, an ask finds its slot and the
    member of this slot, whatever the count of asks, and returns or
    raises as the ask of this member does; the member is updated in
    its place. Asks and tells keep such a table, whether they return
    or raise. *)
Theorem para_portfolio_asks_reach_a_member (self : t) :
  well_formed self →
  ∃ slot o,
    which_optim self
    !! Z.to_nat (Base._num_ask (Portfolio.base (portfolio self)) mod Py.len (which_optim self))
    = Some slot
    ∧ Portfolio.optims (portfolio self) !! Z.to_nat slot = Some o
    ∧ snd (_internal_ask self) = snd (sub_ask o)
    ∧ Portfolio.optims (portfolio (fst (_internal_ask self)))
      = <[Z.to_nat slot := fst (sub_ask o)]> (Portfolio.optims (portfolio self))
    ∧ well_formed (fst (_internal_ask self))
    ∧ ∀ x value, well_formed (fst (_internal_tell x value self)).
Proof.
  intros Hwf. pose proof Hwf as (Hslot & Hslots).
  set (k := Base._num_ask (Portfolio.base (portfolio self)) mod Py.len (which_optim self)).
  assert (Hlen : 0 < Py.len (which_optim self)).
  { unfold Py.len. destruct (which_optim self); [contradiction|simpl; lia]. }
  assert (Hk : 0 ≤ k < Py.len (which_optim self)) by (apply Z.mod_pos_bound; exact Hlen).
  destruct (lookup_lt_is_Some_2 (which_optim self) (Z.to_nat k)) as [slot Hlookup];
    [unfold Py.len in Hk; lia|].
  pose proof (proj1 (Forall_lookup _ _) Hslots _ _ Hlookup) as Hin. cbv beta in Hin.
  destruct (lookup_lt_is_Some_2 (Portfolio.optims (portfolio self)) (Z.to_nat slot))
    as [o Ho]; [unfold Py.len in Hin; lia|].
  exists slot, o. split; [exact Hlookup|]. split; [exact Ho|].
  assert (Hask : _internal_ask self = on_portfolio (Portfolio.dispatch slot) self).
  { unfold _internal_ask. py_red. unfold Portfolio.py_mod.
    replace (Py.len (which_optim self) =? 0) with false by lia. fold k. cbv iota.
    pose proof (index_nonneg _ _ _ Hlookup) as Hindex. rewrite Z2Nat.id in Hindex by lia.
    rewrite Hindex. reflexivity. }
  assert (Hdispatch : Portfolio.on_optim slot sub_ask (portfolio self)
                      = (Portfolio.set_optims
                           (<[Z.to_nat slot := fst (sub_ask o)]>
                              (Portfolio.optims (portfolio self))) (portfolio self),
                         snd (sub_ask o))).
  { unfold Portfolio.on_optim.
    pose proof (index_nonneg _ _ _ Ho) as Hindex. rewrite Z2Nat.id in Hindex by lia.
    rewrite Hindex. destruct (sub_ask o) as [o' r].
    pose proof (set_item_of_nat (Portfolio.optims (portfolio self)) (Z.to_nat slot) o'
                  ltac:(unfold Py.len in Hin; lia)) as Hset.
    rewrite Z2Nat.id in Hset by lia. rewrite Hset. reflexivity. }
  split; [|split; [|split]].
  - rewrite Hask. unfold on_portfolio, Portfolio.dispatch. unfold mbind, py_mbind, Py.bind.
    rewrite Hdispatch. destruct (snd (sub_ask o)); reflexivity.
  - rewrite Hask. unfold on_portfolio, Portfolio.dispatch. unfold mbind, py_mbind, Py.bind.
    rewrite Hdispatch. destruct (snd (sub_ask o)); reflexivity.
  - rewrite Hask. apply on_portfolio_keeps_the_table; [|exact Hwf].
    unfold Portfolio.dispatch. repeat first [apply on_optim_keeps_length | preserves_step].
  - intros x value. unfold _internal_tell. apply on_portfolio_keeps_the_table; [|exact Hwf].
    unfold Portfolio._internal_tell.
    repeat first [apply on_optim_keeps_length | preserves_step].
Qed.

End worker_slots.

(** A ParaPortfolio for three workers, on member doubles: its table is
    [[0; 1; 3]], and its first ask goes to the member 0. *)
Definition a_para_portfolio : ParaPortfolio.t (members := members_double) :=
  match ParaPortfolio.__init__ (members := members_double) 2 (Some 100) 3 with
  | inr self => self
  | inl _ =>
      ParaPortfolio.Build_t _ (Portfolio.Build_t _ (Base.__init__ 2 None 3) [] ∅) []
  end.

Lemma para_portfolio_asks_reach_a_member_witness :
  ParaPortfolio.which_optim a_para_portfolio = [0; 1; 3]
  ∧ ∃ o, Portfolio.optims (ParaPortfolio.portfolio a_para_portfolio) !! 0%nat = Some o
         ∧ snd (ParaPortfolio._internal_ask a_para_portfolio) = snd (sub_ask o).
Proof.
  assert (Htable : ParaPortfolio.which_optim a_para_portfolio = [0; 1; 3])
    by (vm_compute; reflexivity).
  assert (Hmembers : Py.len (Portfolio.optims (ParaPortfolio.portfolio a_para_portfolio)) = 5)
    by (vm_compute; reflexivity).
  assert (Hasked : Base._num_ask (Portfolio.base (ParaPortfolio.portfolio a_para_portfolio)) = 0)
    by (vm_compute; reflexivity).
  split; [exact Htable|].
  destruct (para_portfolio_asks_reach_a_member a_para_portfolio)
    as (slot & o & Hslot & Ho & Hask & _).
  { unfold well_formed. rewrite Htable, Hmembers.
    split; [discriminate|repeat constructor; lia]. }
  rewrite Htable, Hasked in Hslot. injection Hslot as <-.
  exists o. split; [exact Ho|exact Hask].
Defined.
